(** * Transcription-Creating-Processing: dispatch, adapters, runner, judge

    A shallow embedding of the service layer of the backend
    (backend/app/services) and the properties its specification states.

    Conventions of the embedding.
    - Python [str] values are Rocq strings; the character classes used by
      [str.strip], [str.lower] and [float] are the ASCII ones.
    - A Python exception is a value of type [exn]; code that can raise
      returns an [Outcome].
    - Calls that leave the process (HTTP requests, provider SDKs, the file
      system, the Whisper library) are events of an interaction tree
      [Prog]; the environment answers an event with a value or with an
      exception, and [run] executes a tree against an environment.
      Answers are well typed: a JSON member that is present has the type
      its protocol declares.
    - [await] is a plain call: the events of one coroutine are not
      interleaved with those of another.
    - The module globals [_model] and [_model_size] of whisper_local.py are
      an explicit [Cache] threaded through every operation. *)

From Stdlib Require Import ZArith QArith Ascii String List Bool Lia DecimalString.
From stdpp Require Import base gmap strings list.

Local Open Scope Z_scope.
Local Open Scope stdpp_scope.

(* stdpp keeps [simpl] from unfolding string append; the proofs below
   compute on string literals. *)
#[local] Arguments String.append !_ _ : simpl nomatch.

(** ** Python exceptions *)

Inductive exn_class :=
| ImportError | RuntimeError | TypeError | ValueError | IndexError
| AttributeError | OSError
| ConnectError | RequestError | HTTPStatusError
| HTTPException
| OtherException.

(** [exn_str] is [str(e)]; the two extra fields are [e.response.status_code]
    and [e.response.text] of an [HTTPStatusError], or the status and the
    detail of the server's [HTTPException]. *)
Record exn := Exn {
  exn_cls : exn_class;
  exn_str : string;
  exn_status : Z;
  exn_text : string
}.

Definition raise_of (c : exn_class) (msg : string) : exn := Exn c msg 0 "".

Inductive Outcome (A : Type) :=
| Ok (a : A)
| Raised (e : exn).
Arguments Ok {A} a.
Arguments Raised {A} e.

Definition obind {A B} (o : Outcome A) (k : A -> Outcome B) : Outcome B :=
  match o with
  | Ok a => k a
  | Raised e => Raised e
  end.

Notation "'let!' x ':=' e 'in' k" := (obind e (fun x => k))
  (at level 10, x name, e at level 100, k at level 200, only parsing).

(** ** Python string operations *)

Module Py.

(** [str.isspace] on ASCII: TAB, LF, VT, FF, CR, FS, GS, RS, US, SPACE. *)
Definition is_space (c : ascii) : bool :=
  let n := nat_of_ascii c in
  ((9 <=? n) && (n <=? 13) || (28 <=? n) && (n <=? 32))%nat.

Fixpoint lstrip (s : string) : string :=
  match s with
  | String c s' => if is_space c then lstrip s' else s
  | EmptyString => EmptyString
  end.

Fixpoint rstrip (s : string) : string :=
  match s with
  | String c s' =>
      match rstrip s' with
      | EmptyString => if is_space c then EmptyString else String c EmptyString
      | r => String c r
      end
  | EmptyString => EmptyString
  end.

Definition strip (s : string) : string := rstrip (lstrip s).

Definition startswith (s p : string) : bool := String.prefix p s.

(** [s.split(sep)] for a one-character separator: never empty. *)
Fixpoint split (sep : ascii) (s : string) : list string :=
  match s with
  | EmptyString => [EmptyString]
  | String c s' =>
      if Ascii.eqb c sep then EmptyString :: split sep s'
      else match split sep s' with
           | h :: t => String c h :: t
           | [] => [String c EmptyString]
           end
  end.

(** [sep.join(l)] *)
Definition join (sep : string) (l : list string) : string := String.concat sep l.

Definition lower_char (c : ascii) : ascii :=
  let n := nat_of_ascii c in
  if ((65 <=? n) && (n <=? 90))%nat then ascii_of_nat (n + 32) else c.

Fixpoint lower (s : string) : string :=
  match s with
  | String c s' => String (lower_char c) (lower s')
  | EmptyString => EmptyString
  end.

(** [sub in s] *)
Fixpoint contains (sub s : string) : bool :=
  String.prefix sub s ||
  match s with
  | String _ s' => contains sub s'
  | EmptyString => false
  end.

(** [s[:n]] *)
Definition slice_to (n : nat) (s : string) : string := String.substring 0 n s.

(** [s.rstrip('/')] *)
Fixpoint rstrip_char (ch : ascii) (s : string) : string :=
  match s with
  | String c s' =>
      match rstrip_char ch s' with
      | EmptyString => if Ascii.eqb c ch then EmptyString else String c EmptyString
      | r => String c r
      end
  | EmptyString => EmptyString
  end.

(** [s.replace(old, new)] for a non-empty [old]: one left-to-right pass,
    the inserted text is not scanned again. [skip] counts the characters of
    a matched [old] still to drop. *)
Fixpoint replace_from (old new : string) (skip : nat) (s : string) : string :=
  match s with
  | EmptyString => EmptyString
  | String c s' =>
      match skip with
      | S n => replace_from old new n s'
      | O =>
          if String.prefix old s
          then new +:+ replace_from old new (String.length old - 1) s'
          else String c (replace_from old new 0 s')
      end
  end.

Definition replace (old new s : string) : string := replace_from old new 0 s.

(** [x[i]] on a list *)
Definition index {A} (l : list A) (i : nat) : Outcome A :=
  match nth_error l i with
  | Some x => Ok x
  | None => Raised (raise_of IndexError "list index out of range")
  end.

(** *** [float(s)]

    The value of a float is kept as the exact rational its literal denotes
    (in lowest terms); rounding to binary64 and overflow to infinity are
    not modelled. The accepted syntax is the one of the language reference:
    optional sign, then [inf], [infinity], [nan] (any case) or
    [digitpart [. [digitpart]] | . digitpart] with an optional exponent,
    where a digitpart is digits optionally separated by single
    underscores; surrounding whitespace is ignored. *)
Inductive pyfloat :=
| PFinite (q : Q)
| PInf (negative : bool)
| PNan.

Definition is_digit (c : ascii) : bool :=
  let n := nat_of_ascii c in ((48 <=? n) && (n <=? 57))%nat.

Definition digit_val (c : ascii) : Z := Z.of_nat (nat_of_ascii c - 48).

(** Digits read so far: their value and their number. *)
Definition digits : Type := Z * nat.

Definition push_digit (d : digits) (c : ascii) : digits :=
  (fst d * 10 + digit_val c, S (snd d)).

Fixpoint digitpart_tail (s : string) (acc : digits) : digits * string :=
  match s with
  | String c s' =>
      if is_digit c then digitpart_tail s' (push_digit acc c)
      else if Ascii.eqb c "_" then
        match s' with
        | String d s'' =>
            if is_digit d then digitpart_tail s'' (push_digit acc d) else (acc, s)
        | EmptyString => (acc, s)
        end
      else (acc, s)
  | EmptyString => (acc, s)
  end.

Definition digitpart_from (acc : digits) (s : string) : option (digits * string) :=
  match s with
  | String c s' =>
      if is_digit c then Some (digitpart_tail s' (push_digit acc c)) else None
  | EmptyString => None
  end.

(** Mantissa digits with the number of them after the point. *)
Definition number (s : string) : option (Z * nat * string) :=
  match digitpart_from (0, O) s with
  | Some ((m, _), String "." rest) =>
      match digitpart_from (m, O) rest with
      | Some ((m', f), rest') => Some (m', f, rest')
      | None => Some (m, O, rest)
      end
  | Some ((m, _), rest) => Some (m, O, rest)
  | None =>
      match s with
      | String "." rest =>
          match digitpart_from (0, O) rest with
          | Some ((m', f), rest') => Some (m', f, rest')
          | None => None
          end
      | _ => None
      end
  end.

Definition sign (s : string) : bool * string :=
  match s with
  | String "-" s' => (true, s')
  | String "+" s' => (false, s')
  | _ => (false, s)
  end.

(** The exponent, and what follows it; [None] for a malformed exponent. *)
Definition exponent (s : string) : option (Z * string) :=
  match s with
  | String c s' =>
      if Ascii.eqb c "e" || Ascii.eqb c "E" then
        let '(neg, s'') := sign s' in
        match digitpart_from (0, O) s'' with
        | Some ((e, _), rest) => Some (if neg then - e else e, rest)
        | None => None
        end
      else Some (0, s)
  | EmptyString => Some (0, s)
  end.

Definition scale (m : Z) (e : Z) : Q :=
  if 0 <=? e then inject_Z (m * 10 ^ e)
  else Qred (Qmake m (Z.to_pos (10 ^ (- e)))).

Definition float_of_string (s : string) : option pyfloat :=
  let '(neg, body) := sign (strip s) in
  let word := lower body in
  if String.eqb word "inf" || String.eqb word "infinity" then Some (PInf neg)
  else if String.eqb word "nan" then Some PNan
  else
    match number body with
    | Some (m, f, rest) =>
        match exponent rest with
        | Some (e, EmptyString) =>
            Some (PFinite (scale (if neg then - m else m) (e - Z.of_nat f)))
        | _ => None
        end
    | None => None
    end.

Definition float (s : string) : Outcome pyfloat :=
  match float_of_string s with
  | Some x => Ok x
  | None =>
      Raised (raise_of ValueError ("could not convert string to float: " +:+ s))
  end.

End Py.

(** ** benchmark_service.py: the judge-response parser *)

Record JudgeResult := {
  score_a : option Py.pyfloat;
  score_b : option Py.pyfloat;
  winner : option string;
  reasoning : option string
}.

(** The variables the loop of [parse_judge_response] updates. *)
Record ParseState := {
  result : JudgeResult;
  reasoning_lines : list string;
  in_reasoning : bool
}.

Definition set_score_a (v : Py.pyfloat) (st : ParseState) : ParseState :=
  {| result := {| score_a := Some v; score_b := score_b (result st);
                  winner := winner (result st); reasoning := reasoning (result st) |};
     reasoning_lines := reasoning_lines st; in_reasoning := in_reasoning st |}.

Definition set_score_b (v : Py.pyfloat) (st : ParseState) : ParseState :=
  {| result := {| score_a := score_a (result st); score_b := Some v;
                  winner := winner (result st); reasoning := reasoning (result st) |};
     reasoning_lines := reasoning_lines st; in_reasoning := in_reasoning st |}.

Definition set_winner (v : string) (st : ParseState) : ParseState :=
  {| result := {| score_a := score_a (result st); score_b := score_b (result st);
                  winner := Some v; reasoning := reasoning (result st) |};
     reasoning_lines := reasoning_lines st; in_reasoning := in_reasoning st |}.

Definition set_reasoning (v : option string) (r : JudgeResult) : JudgeResult :=
  {| score_a := score_a r; score_b := score_b r; winner := winner r; reasoning := v |}.

(** [float(line.split(':')[1].strip())] *)
Definition score_value (line : string) : Outcome Py.pyfloat :=
  let! field := Py.index (Py.split ":" line) 1 in
  Py.float (Py.strip field).

(** One iteration of [for line in lines]. *)
Definition parse_line (st : ParseState) (line0 : string) : Outcome ParseState :=
  let line := Py.strip line0 in
  if Py.startswith line "SCORE_A:" then
    match score_value line with
    | Ok v => Ok (set_score_a v st)
    | Raised _ => Ok st
    end
  else if Py.startswith line "SCORE_B:" then
    match score_value line with
    | Ok v => Ok (set_score_b v st)
    | Raised _ => Ok st
    end
  else if Py.startswith line "WINNER:" then
    let! field := Py.index (Py.split ":" line) 1 in
    Ok (set_winner (Py.strip field) st)
  else if Py.startswith line "REASONING:" then
    let reasoning_text := Py.strip (Py.join ":" (tl (Py.split ":" line))) in
    Ok {| result := result st;
          reasoning_lines :=
            if String.eqb reasoning_text "" then reasoning_lines st
            else reasoning_lines st ++ [reasoning_text];
          in_reasoning := true |}
  else if in_reasoning st then
    Ok {| result := result st;
          reasoning_lines := reasoning_lines st ++ [line];
          in_reasoning := true |}
  else Ok st.

Fixpoint parse_lines (st : ParseState) (lines : list string) : Outcome ParseState :=
  match lines with
  | [] => Ok st
  | line :: rest => let! st' := parse_line st line in parse_lines st' rest
  end.

Definition parse_init : ParseState :=
  {| result := {| score_a := None; score_b := None; winner := None; reasoning := None |};
     reasoning_lines := [];
     in_reasoning := false |}.

Definition parse_judge_response (response : string) : Outcome JudgeResult :=
  let lines := Py.split "010" (Py.strip response) in
  let! st := parse_lines parse_init lines in
  Ok (set_reasoning
        (match reasoning_lines st with
         | [] => None
         | _ => Some (Py.join " " (reasoning_lines st))
         end)
        (result st)).

Definition nl : string := String "010" EmptyString.

Definition judge_reply_example : string :=
  "SCORE_A: 8" +:+ nl +:+ "SCORE_B: 6" +:+ nl +:+ "WINNER: A" +:+ nl +:+
  "REASONING: A was clearer.".

(** ** pathlib (POSIX flavour) *)

Module Pathlib.

(** [Path(p).name]: the last component that is neither empty nor [.]. *)
Definition name (p : string) : string :=
  default EmptyString
    (last (filter (fun x => x <> EmptyString /\ x <> ".") (Py.split "/" p))).

(** [s.rfind(ch)] *)
Fixpoint rfind (ch : ascii) (s : string) : option nat :=
  match s with
  | EmptyString => None
  | String c s' =>
      match rfind ch s' with
      | Some i => Some (S i)
      | None => if Ascii.eqb c ch then Some O else None
      end
  end.

Fixpoint drop_chars (n : nat) (s : string) : string :=
  match n, s with
  | S n', String _ s' => drop_chars n' s'
  | _, _ => s
  end.

(** [Path(p).suffix]: [name[i:]] for [i = name.rfind('.')] when
    [0 < i < len(name) - 1], else the empty string. *)
Definition suffix (p : string) : string :=
  let nm := name p in
  match rfind "." nm with
  | Some i =>
      if ((0 <? i) && (S i <? String.length nm))%nat then drop_chars i nm
      else EmptyString
  | None => EmptyString
  end.

End Pathlib.

(** ** config.py *)

Record Settings := {
  openai_api_key : option string;
  google_application_credentials : option string;
  google_gemini_api_key : option string;
  ollama_host : string;
  whisper_model_size : string;
  whisper_device : string;
  whisper_remote_url : option string
}.

(** Truth value of an [Optional[str]]. *)
Definition truthy (s : option string) : bool :=
  match s with
  | Some (String _ _) => true
  | _ => false
  end.

(** [str(x)] for an [Optional[str]] inside an f-string. *)
Definition str_opt (s : option string) : string := default "None" s.

Definition string_of_Z (z : Z) : string :=
  DecimalString.NilZero.string_of_int (Z.to_int z).

(** ** Results *)

Record Usage := {
  input_tokens : option Z;
  output_tokens : option Z
}.

(** [(success, generated_text, token_usage, error_message)] *)
Definition GenerationResult : Type := bool * option string * option Usage * option string.

(** [(success, transcription_text, error_message)] *)
Definition TranscriptionResult : Type := bool * option string * option string.

Definition gen_success (r : GenerationResult) : bool := r.1.1.1.
Definition gen_text (r : GenerationResult) : option string := r.1.1.2.
Definition gen_error (r : GenerationResult) : option string := r.2.
Definition tr_success (r : TranscriptionResult) : bool := r.1.1.
Definition tr_text (r : TranscriptionResult) : option string := r.1.2.
Definition tr_error (r : TranscriptionResult) : option string := r.2.

(** ** The outside world *)

(** A loaded Whisper model object, as handed out by the library. *)
Definition Model : Type := nat.

Record OllamaRequest := {
  rq_model : string;
  rq_prompt : string;
  rq_stream : bool;
  rq_temperature : Py.pyfloat;
  rq_num_predict : Z;
  rq_system : option string
}.

(** The members of the JSON body the Ollama adapter reads. A member is
    absent ([None]) or has the type the Ollama API gives it; a JSON [null]
    in its place is not modelled. *)
Record OllamaData := {
  od_response : option string;
  od_prompt_eval_count : option Z;
  od_eval_count : option Z
}.

(** The JSON reply of the remote Whisper peer, under the same convention:
    a member is absent ([None]) or has the type of the peer protocol. *)
Record PeerReply := {
  pr_success : option bool;
  pr_text : option string;
  pr_error : option string
}.

(** An HTTP response: status, body text and the result of [response.json()]. *)
Record HttpResponse (J : Type) := {
  status_code : Z;
  body_text : string;
  json : Outcome J
}.
Arguments status_code {J} _.
Arguments body_text {J} _.
Arguments json {J} _.

(** What the OpenAI adapter reads of a chat completion: the message content
    of every choice, and the prompt and completion token counts. *)
Record ChatCompletion := {
  choices : list (option string);
  usage : option (Z * Z)
}.

Inductive AudioEncoding := MP3 | LINEAR16 | FLAC | ENCODING_UNSPECIFIED.

Inductive Ev :=
(* provider SDKs *)
| ImportOpenAI
| OpenAIChatCreate (api_key model : string) (messages : list (string * string))
    (max_tokens : Z) (temperature : Py.pyfloat)
| OpenAITranscribe (api_key audio_path : string) (language : option string)
| ImportGenai
| GenaiGenerateContent (api_key model_name : string) (temperature : Py.pyfloat)
    (max_output_tokens : Z) (full_prompt : string)
| ImportSpeech
| SetEnviron (key value : string)
| SpeechClient
| SpeechRecognize (long_running : bool) (encoding : AudioEncoding)
    (language_code : string) (content : string)
(* HTTP *)
| OllamaPost (url : string) (request_data : OllamaRequest)
| WhisperPost (url : string) (file : option (string * string * string))
    (data : list (string * string))
(* file system *)
| PathExists (path : string)
| StatSize (path : string)
| ReadFile (path : string)
| Rmtree (path : string)
(* the Whisper library *)
| ImportWhisper
| CudaIsAvailable
| WhisperLoadModel (model_size device : string)
| ModelTranscribe (model : Model) (audio_path : string) (language : option string).

(** The type of the value an event returns when it does not raise. *)
Definition answer (e : Ev) : Type :=
  match e with
  | ImportOpenAI | ImportGenai | ImportSpeech | ImportWhisper => unit
  | SetEnviron _ _ | SpeechClient | Rmtree _ => unit
  | OpenAIChatCreate _ _ _ _ _ => ChatCompletion
  | OpenAITranscribe _ _ _ => option string
  | GenaiGenerateContent _ _ _ _ _ => string
  | SpeechRecognize _ _ _ _ => list (list string)
  | OllamaPost _ _ => HttpResponse OllamaData
  | WhisperPost _ _ _ => HttpResponse PeerReply
  | PathExists _ | CudaIsAvailable => bool
  | StatSize _ => Z
  | ReadFile _ => string
  | WhisperLoadModel _ _ => Model
  | ModelTranscribe _ _ _ => option string
  end.

(** A program: it returns, or performs an event and goes on with the
    environment's answer, a value or an exception. *)
Inductive Prog (A : Type) : Type :=
| Ret (a : A)
| Vis (e : Ev) (k : Outcome (answer e) -> Prog A).
Arguments Ret {A} a.
Arguments Vis {A} e k.

Fixpoint pbind {A B} (p : Prog A) (k : A -> Prog B) : Prog B :=
  match p with
  | Ret a => k a
  | Vis e h => Vis e (fun r => pbind (h r) k)
  end.

(** One observed event with its answer. *)
Record Obs := { obs_ev : Ev; obs_ans : Outcome (answer obs_ev) }.

(** The environment decides every answer from what happened so far. *)
Definition Env : Type := list Obs -> forall e : Ev, Outcome (answer e).

(** [run env hist p]: the value of [p] and the events it performed, when
    [hist] is what happened before. *)
Fixpoint run {A} (env : Env) (hist : list Obs) (p : Prog A) : A * list Obs :=
  match p with
  | Ret a => (a, [])
  | Vis e k =>
      let r := env hist e in
      let o := {| obs_ev := e; obs_ans := r |} in
      let '(a, t) := run env (hist ++ [o]) (k r) in
      (a, o :: t)
  end.

(** The globals of whisper_local.py. *)
Record Cache := {
  _model : option Model;
  _model_size : option string
}.

(** Effectful code: a program over the cache that ends normally or with an
    exception; the cache survives an exception. *)
Definition M (A : Type) : Type := Cache -> Prog (Outcome A * Cache).

Definition ret {A} (a : A) : M A := fun c => Ret (Ok a, c).
Definition raise {A} (e : exn) : M A := fun c => Ret (Raised e, c).

Definition bind {A B} (m : M A) (k : A -> M B) : M B :=
  fun c => pbind (m c) (fun oc =>
    match oc.1 with
    | Ok a => k a oc.2
    | Raised e => Ret (Raised e, oc.2)
    end).

(** [try: m / except Exception as e: h e] *)
Definition try_except {A} (m : M A) (h : exn -> M A) : M A :=
  fun c => pbind (m c) (fun oc =>
    match oc.1 with
    | Ok a => Ret (Ok a, oc.2)
    | Raised e => h e oc.2
    end).

Definition call (e : Ev) : M (answer e) := fun c => Vis e (fun r => Ret (r, c)).

(** A computation that cannot touch the world. *)
Definition of_outcome {A} (o : Outcome A) : M A := fun c => Ret (o, c).

Definition get_cache : M Cache := fun c => Ret (Ok c, c).
Definition set_cache (c' : Cache) : M unit := fun _ => Ret (Ok tt, c').

Notation "x <- e ;; k" := (bind e (fun x => k))
  (at level 100, e at next level, right associativity, only parsing).
Notation "e ;;; k" := (bind e (fun _ => k))
  (at level 100, right associativity, only parsing).

#[global] Instance exn_class_eq_dec : EqDecision exn_class.
Proof. solve_decision. Defined.

(** [isinstance(e, c)]: httpx.ConnectError derives from httpx.RequestError;
    every exception is an instance of [OtherException], read as the base
    class [Exception]. *)
Definition isinstance (e : exn) (c : exn_class) : bool :=
  match c, exn_cls e with
  | OtherException, _ => true
  | RequestError, ConnectError => true
  | _, _ => bool_decide (exn_cls e = c)
  end.

(** [try: m / except c: h e], other exceptions pass. *)
Definition try_except_class {A} (c : exn_class) (m : M A) (h : exn -> M A) : M A :=
  try_except m (fun e => if isinstance e c then h e else raise e).

Section Services.

Variable settings : Settings.

(** ** llm/openai_service.py *)

Definition generate_with_openai (prompt model : string) (system_prompt : option string)
    (max_tokens : Z) (temperature : Py.pyfloat) : M GenerationResult :=
  try_except
    (if negb (truthy (openai_api_key settings)) then
       ret (false, None, None, Some "OpenAI API key not configured")
     else
       imported <- try_except_class ImportError
                     (call ImportOpenAI ;;; ret true) (fun _ => ret false) ;;
       if negb imported then
         ret (false, None, None, Some "OpenAI package not installed")
       else
         let messages :=
           (if truthy system_prompt then [("system", default "" system_prompt)] else [])
           ++ [("user", prompt)] in
         response <- call (OpenAIChatCreate (default "" (openai_api_key settings))
                             model messages max_tokens temperature) ;;
         let content :=
           match choices response with
           | c :: _ => c
           | [] => None
           end in
         let usage :=
           {| input_tokens := fst <$> usage response;
              output_tokens := snd <$> usage response |} in
         ret (true, content, Some usage, None))
    (fun e => ret (false, None, None, Some (exn_str e))).

(** ** llm/gemini_service.py *)

Definition generate_with_gemini (prompt model : string) (system_prompt : option string)
    (max_tokens : Z) (temperature : Py.pyfloat) : M GenerationResult :=
  try_except
    (if negb (truthy (google_gemini_api_key settings)) then
       ret (false, None, None, Some "Google Gemini API key not configured")
     else
       imported <- try_except_class ImportError
                     (call ImportGenai ;;; ret true) (fun _ => ret false) ;;
       if negb imported then
         ret (false, None, None, Some "Google GenerativeAI package not installed")
       else
         let full_prompt :=
           if truthy system_prompt
           then default "" system_prompt +:+ nl +:+ nl +:+ prompt
           else prompt in
         response_text <- call (GenaiGenerateContent
                                  (default "" (google_gemini_api_key settings))
                                  model temperature max_tokens full_prompt) ;;
         let content :=
           if truthy (Some response_text) then Some response_text else None in
         let usage := {| input_tokens := None; output_tokens := None |} in
         ret (true, content, Some usage, None))
    (fun e => ret (false, None, None, Some (exn_str e))).

(** ** llm/ollama_service.py *)

Definition generate_with_ollama (prompt model : string) (system_prompt : option string)
    (max_tokens : Z) (temperature : Py.pyfloat) : M GenerationResult :=
  try_except
    (let ollama_host := Py.rstrip_char "/" (ollama_host settings) in
     let request_data :=
       {| rq_model := model; rq_prompt := prompt; rq_stream := false;
          rq_temperature := temperature; rq_num_predict := max_tokens;
          rq_system := if truthy system_prompt then system_prompt else None |} in
     response <- call (OllamaPost (ollama_host +:+ "/api/generate") request_data) ;;
     if negb (status_code response =? 200) then
       ret (false, None, None,
            Some ("Ollama returned status " +:+ string_of_Z (status_code response)))
     else
       data <- of_outcome (json response) ;;
       let content := default "" (od_response data) in
       let usage :=
         {| input_tokens := od_prompt_eval_count data;
            output_tokens := od_eval_count data |} in
       ret (true, Some content, Some usage, None))
    (fun e =>
       if isinstance e ConnectError then
         ret (false, None, None,
              Some ("Could not connect to Ollama at " +:+ ollama_host settings))
       else ret (false, None, None, Some (exn_str e))).

(** ** llm/llm_service.py *)

Record LLMModelConfig := { llm_backend : string; llm_model : string }.

Definition LLM_MODELS : gmap string LLMModelConfig :=
  list_to_map [
    ("gpt-4", {| llm_backend := "openai"; llm_model := "gpt-4" |});
    ("gpt-4-turbo", {| llm_backend := "openai"; llm_model := "gpt-4-turbo" |});
    ("gpt-3.5-turbo", {| llm_backend := "openai"; llm_model := "gpt-3.5-turbo" |});
    ("gemini-pro", {| llm_backend := "gemini"; llm_model := "gemini-pro" |});
    ("gemini-1.5-pro", {| llm_backend := "gemini"; llm_model := "gemini-1.5-pro" |});
    ("llama2", {| llm_backend := "ollama"; llm_model := "llama2" |});
    ("llama2:13b", {| llm_backend := "ollama"; llm_model := "llama2:13b" |});
    ("mistral", {| llm_backend := "ollama"; llm_model := "mistral" |});
    ("mixtral", {| llm_backend := "ollama"; llm_model := "mixtral" |});
    ("codellama", {| llm_backend := "ollama"; llm_model := "codellama" |})
  ].

Definition generate (prompt model : string) (system_prompt : option string)
    (max_tokens : Z) (temperature : Py.pyfloat) : M GenerationResult :=
  match LLM_MODELS !! model with
  | None =>
      generate_with_ollama prompt model system_prompt max_tokens temperature
  | Some model_config =>
      let backend := llm_backend model_config in
      let actual_model := llm_model model_config in
      if String.eqb backend "openai" then
        generate_with_openai prompt actual_model system_prompt max_tokens temperature
      else if String.eqb backend "gemini" then
        generate_with_gemini prompt actual_model system_prompt max_tokens temperature
      else if String.eqb backend "ollama" then
        generate_with_ollama prompt actual_model system_prompt max_tokens temperature
      else ret (false, None, None, Some ("Unknown backend: " +:+ backend))
  end.

(** The defaults of [generate]: [max_tokens=4000], [temperature=0.7]. *)
Definition default_max_tokens : Z := 4000.
Definition default_temperature : Py.pyfloat := Py.PFinite (7 # 10).

(** ** transcription/whisper_local.py *)

(** [os.path.expanduser("~/.cache/whisper")] *)
Definition whisper_cache_dir : string := "~/.cache/whisper".

(** ["gpu" in str(e).lower() or "cuda" in str(e).lower()] *)
Definition is_gpu_error (e : exn) : bool :=
  Py.contains "gpu" (Py.lower (exn_str e)) || Py.contains "cuda" (Py.lower (exn_str e)).

(** [_model = m; _model_size = model_size] *)
Definition store_model (m : Model) (model_size : string) : M unit :=
  set_cache {| _model := Some m; _model_size := Some model_size |}.

(** [_model is None or _model_size != model_size] *)
Definition cache_miss (c : Cache) (model_size : string) : bool :=
  bool_decide (_model c = None) || negb (bool_decide (_model_size c = Some model_size)).

Definition load_whisper_model (model_size : option string) : M (option Model) :=
  let model_size := default (whisper_model_size settings) model_size in
  c <- get_cache ;;
  (if cache_miss c model_size then
     try_except
       (call ImportWhisper ;;;
        let device := whisper_device settings in
        device <- (if String.eqb device "gpu" || String.eqb device "cuda" then
                     available <- call CudaIsAvailable ;;
                     ret (if negb available then "cpu" else "cuda")
                   else ret device) ;;
        try_except_class RuntimeError
          (m <- call (WhisperLoadModel model_size device) ;;
           store_model m model_size)
          (fun e =>
             if is_gpu_error e then
               cache_exists <- call (PathExists whisper_cache_dir) ;;
               (if cache_exists then call (Rmtree whisper_cache_dir) else ret tt) ;;;
               m <- call (WhisperLoadModel model_size "cpu") ;;
               store_model m model_size
             else raise e))
       (fun e =>
          if isinstance e ImportError then
            raise (raise_of RuntimeError
                     "Whisper is not installed. Run: pip install openai-whisper")
          else
            raise (raise_of RuntimeError
                     ("Failed to load Whisper model: " +:+ exn_str e)))
   else ret tt) ;;;
  c' <- get_cache ;;
  ret (_model c').

Definition none_has_no_attribute (attr : string) : exn :=
  raise_of AttributeError ("'NoneType' object has no attribute '" +:+ attr +:+ "'").

Definition transcribe_with_whisper_local (audio_path : string)
    (model_size language : option string) : M TranscriptionResult :=
  try_except
    (file_exists <- call (PathExists audio_path) ;;
     if negb file_exists then
       ret (false, None, Some ("Audio file not found: " +:+ audio_path))
     else
       model <- load_whisper_model model_size ;;
       let options := if truthy language then language else None in
       result <- match model with
                 | Some m => call (ModelTranscribe m audio_path options)
                 | None => raise (none_has_no_attribute "transcribe")
                 end ;;
       let text := Py.strip (default "" result) in
       if String.eqb text "" then
         ret (false, None, Some "Transcription resulted in empty text")
       else ret (true, Some text, None))
    (fun e => ret (false, None, Some (exn_str e))).

(** ** transcription/whisper_api.py *)

Definition transcribe_with_whisper_api (audio_path : string)
    (language : option string) : M TranscriptionResult :=
  try_except
    (if negb (truthy (openai_api_key settings)) then
       ret (false, None, Some "OpenAI API key not configured")
     else
       file_exists <- call (PathExists audio_path) ;;
       if negb file_exists then ret (false, None, Some "Audio file not found")
       else
         file_size <- call (StatSize audio_path) ;;
         if 25 * 1024 * 1024 <? file_size then
           ret (false, None, Some "File too large for Whisper API (max 25MB)")
         else
           imported <- try_except_class ImportError
                         (call ImportOpenAI ;;; ret true) (fun _ => ret false) ;;
           if negb imported then ret (false, None, Some "OpenAI package not installed")
           else
             transcript_text <-
               call (OpenAITranscribe (default "" (openai_api_key settings)) audio_path
                       (if truthy language then language else None)) ;;
             let text :=
               if truthy transcript_text then Py.strip (default "" transcript_text)
               else "" in
             if String.eqb text "" then
               ret (false, None, Some "Transcription resulted in empty text")
             else ret (true, Some text, None))
    (fun e => ret (false, None, Some (exn_str e))).

(** ** transcription/whisper_remote.py *)

(** [response.raise_for_status()] *)
Definition raise_for_status {J} (response : HttpResponse J) : M unit :=
  if (200 <=? status_code response) && (status_code response <? 300) then ret tt
  else raise {| exn_cls := HTTPStatusError;
                exn_str := "HTTP status " +:+ string_of_Z (status_code response);
                exn_status := status_code response;
                exn_text := body_text response |}.

(** What both modes do with the peer's reply. *)
Definition whisper_remote_result (result : PeerReply) : TranscriptionResult :=
  if negb (default false (pr_success result)) then
    (false, None, Some (default "Transcription failed" (pr_error result)))
  else
    let text := Py.strip (default "" (pr_text result)) in
    if String.eqb text "" then (false, None, Some "Transcription resulted in empty text")
    else (true, Some text, None).

(** The three [except] clauses shared by both modes. *)
Definition whisper_remote_except (e : exn) : M TranscriptionResult :=
  if isinstance e HTTPStatusError then
    ret (false, None,
         Some ("HTTP error from Whisper server: " +:+ string_of_Z (exn_status e)
               +:+ " - " +:+ exn_text e))
  else if isinstance e RequestError then
    ret (false, None, Some ("Connection error to Whisper server: " +:+ exn_str e))
  else ret (false, None, Some ("Transcription failed: " +:+ exn_str e)).

Definition transcribe_with_whisper_remote (audio_path : string)
    (model_size language : option string) : M TranscriptionResult :=
  try_except
    (if negb (truthy (whisper_remote_url settings)) then
       ret (false, None, Some "Whisper remote URL not configured")
     else
       file_exists <- call (PathExists audio_path) ;;
       if negb file_exists then
         ret (false, None, Some ("Audio file not found: " +:+ audio_path))
       else
         let model_size := default (whisper_model_size settings) model_size in
         let device := whisper_device settings in
         file_content <- call (ReadFile audio_path) ;;
         let files := (Pathlib.name audio_path, file_content, "audio/mpeg") in
         let data :=
           [("model_size", model_size); ("device", device)]
           ++ (if truthy language then [("language", default "" language)] else []) in
         let remote_url := Py.rstrip_char "/" (default "" (whisper_remote_url settings)) in
         let transcribe_url := remote_url +:+ "/transcribe" in
         response <- call (WhisperPost transcribe_url (Some files) data) ;;
         raise_for_status response ;;;
         result <- of_outcome (json response) ;;
         ret (whisper_remote_result result))
    whisper_remote_except.

Definition transcribe_with_whisper_remote_url (audio_url : string)
    (model_size language : option string) : M TranscriptionResult :=
  try_except
    (if negb (truthy (whisper_remote_url settings)) then
       ret (false, None, Some "Whisper remote URL not configured")
     else
       let model_size := default (whisper_model_size settings) model_size in
       let device := whisper_device settings in
       let data :=
         [("audio_url", audio_url); ("model_size", model_size); ("device", device)]
         ++ (if truthy language then [("language", default "" language)] else []) in
       let remote_url := Py.rstrip_char "/" (default "" (whisper_remote_url settings)) in
       let transcribe_url := remote_url +:+ "/transcribe/url" in
       response <- call (WhisperPost transcribe_url None data) ;;
       raise_for_status response ;;;
       result <- of_outcome (json response) ;;
       ret (whisper_remote_result result))
    whisper_remote_except.

(** ** transcription/google_stt.py *)

Definition encoding_of_extension (extension : string) : AudioEncoding :=
  if String.eqb extension ".mp3" then MP3
  else if String.eqb extension ".wav" then LINEAR16
  else if String.eqb extension ".flac" then FLAC
  else if String.eqb extension ".m4a" then MP3
  else ENCODING_UNSPECIFIED.

(** The first alternative of every result that has one. *)
Definition collect_transcripts (results : list (list string)) : list string :=
  flat_map (fun alternatives =>
              match alternatives with
              | a :: _ => [a]
              | [] => []
              end) results.

Definition transcribe_with_google_stt (audio_path language : string)
    : M TranscriptionResult :=
  try_except
    (let creds_file := google_application_credentials settings in
     creds_ok <- (if negb (truthy creds_file) then ret false
                  else call (PathExists (default "" creds_file))) ;;
     if negb creds_ok then ret (false, None, Some "Google Cloud credentials not configured")
     else
       file_exists <- call (PathExists audio_path) ;;
       if negb file_exists then ret (false, None, Some "Audio file not found")
       else
         imported <- try_except_class ImportError
                       (call ImportSpeech ;;; ret true) (fun _ => ret false) ;;
         if negb imported then
           ret (false, None, Some "Google Cloud Speech package not installed")
         else
           call (SetEnviron "GOOGLE_APPLICATION_CREDENTIALS" (default "" creds_file)) ;;;
           call SpeechClient ;;;
           content <- call (ReadFile audio_path) ;;
           let extension := Py.lower (Pathlib.suffix audio_path) in
           let encoding := encoding_of_extension extension in
           file_size <- call (StatSize audio_path) ;;
           response <- call (SpeechRecognize (10 * 1024 * 1024 <? file_size)
                               encoding language content) ;;
           let text := Py.strip (Py.join " " (collect_transcripts response)) in
           if String.eqb text "" then
             ret (false, None, Some "Transcription resulted in empty text")
           else ret (true, Some text, None))
    (fun e => ret (false, None, Some (exn_str e))).

Definition language_mapping : gmap string string :=
  list_to_map [
    ("en", "en-US"); ("tr", "tr-TR"); ("de", "de-DE"); ("fr", "fr-FR");
    ("es", "es-ES"); ("it", "it-IT"); ("ja", "ja-JP"); ("zh", "zh-CN")
  ].

Definition format_language_code (lang : string) : string :=
  default lang (language_mapping !! lang).

(** ** transcription/transcription_service.py *)

Record TranscriptionModelConfig := { tm_backend : string; tm_size : option string }.

Definition TRANSCRIPTION_MODELS : gmap string TranscriptionModelConfig :=
  list_to_map [
    ("whisper-tiny", {| tm_backend := "whisper_local"; tm_size := Some "tiny" |});
    ("whisper-base", {| tm_backend := "whisper_local"; tm_size := Some "base" |});
    ("whisper-small", {| tm_backend := "whisper_local"; tm_size := Some "small" |});
    ("whisper-medium", {| tm_backend := "whisper_local"; tm_size := Some "medium" |});
    ("whisper-large", {| tm_backend := "whisper_local"; tm_size := Some "large" |});
    ("whisper-api", {| tm_backend := "whisper_api"; tm_size := None |});
    ("google-stt", {| tm_backend := "google_stt"; tm_size := None |});
    ("whisper-remote-tiny", {| tm_backend := "whisper_remote"; tm_size := Some "tiny" |});
    ("whisper-remote-base", {| tm_backend := "whisper_remote"; tm_size := Some "base" |});
    ("whisper-remote-small", {| tm_backend := "whisper_remote"; tm_size := Some "small" |});
    ("whisper-remote-medium", {| tm_backend := "whisper_remote"; tm_size := Some "medium" |});
    ("whisper-remote-large", {| tm_backend := "whisper_remote"; tm_size := Some "large" |})
  ].

Definition transcribe (audio_path model language : string) : M TranscriptionResult :=
  match TRANSCRIPTION_MODELS !! model with
  | None => ret (false, None, Some ("Unknown model: " +:+ model))
  | Some model_config =>
      let backend := tm_backend model_config in
      if String.eqb backend "whisper_local" then
        let model_size := default "base" (tm_size model_config) in
        transcribe_with_whisper_local audio_path (Some model_size) (Some language)
      else if String.eqb backend "whisper_remote" then
        if negb (truthy (whisper_remote_url settings)) then
          ret (false, None,
               Some "Whisper remote URL not configured. Set WHISPER_REMOTE_URL in .env")
        else
          let model_size := default "base" (tm_size model_config) in
          transcribe_with_whisper_remote audio_path (Some model_size) (Some language)
      else if String.eqb backend "whisper_api" then
        transcribe_with_whisper_api audio_path (Some language)
      else if String.eqb backend "google_stt" then
        let lang_code := format_language_code language in
        transcribe_with_google_stt audio_path lang_code
      else ret (false, None, Some ("Unknown backend: " +:+ backend))
  end.

(** One entry of the list [transcribe_parallel] returns. *)
Record JobResult := {
  job_path : string;
  job_success : bool;
  job_text : option string;
  job_error : option string
}.

Definition audio_extensions : list string := [".mp3"; ".wav"; ".m4a"; ".flac"; ".ogg"].

Definition is_audio (path : string) : bool :=
  let ext := Py.lower (Pathlib.suffix path) in
  bool_decide (ext ∈ audio_extensions).

(** The loop filling [audio_files] and [video_files]. *)
Fixpoint sort_files (audio_paths audio_files video_files : list string)
    : list string * list string :=
  match audio_paths with
  | [] => (audio_files, video_files)
  | path :: rest =>
      if is_audio path then sort_files rest (audio_files ++ [path]) video_files
      else sort_files rest audio_files (video_files ++ [path])
  end.

Definition process_file (model language path : string) : M JobResult :=
  r <- transcribe path model language ;;
  ret {| job_path := path; job_success := tr_success r;
         job_text := tr_text r; job_error := tr_error r |}.

(** [asyncio.gather] over the tasks: the results come in the order of the tasks
    whatever the interleaving; the tasks are run here one after the other
    in that order. *)
Fixpoint gather {A} (tasks : list (M A)) : M (list A) :=
  match tasks with
  | [] => ret []
  | task :: rest =>
      x <- task ;;
      xs <- gather rest ;;
      ret (x :: xs)
  end.

Definition transcribe_parallel (audio_paths : list string) (model language : string)
    (prioritize_audio : bool) : M (list JobResult) :=
  let sorted_paths :=
    if prioritize_audio then
      let '(audio_files, video_files) := sort_files audio_paths [] [] in
      audio_files ++ video_files
    else audio_paths in
  let tasks := map (process_file model language) sorted_paths in
  gather tasks.

(** ** prompt_templates.py *)

Record PromptTemplate := { tpl_system_prompt : string; tpl_user_prompt : string }.

Definition custom_template : PromptTemplate :=
  {| tpl_system_prompt := "You are a helpful AI assistant.";
     tpl_user_prompt := "{custom_prompt}" +:+ nl +:+ nl +:+ "{transcription}" |}.

Definition PROMPT_TEMPLATES : gmap string PromptTemplate :=
  list_to_map [
    ("summary",
     {| tpl_system_prompt := "You are an expert at summarizing meetings. Create clear, actionable summaries that capture the key points.";
        tpl_user_prompt := "Please summarize the following meeting transcription:

{transcription}

Provide:
1. Key Discussion Points (bullet points)
2. Decisions Made
3. Action Items (with owners if mentioned)
4. Next Steps" |});
    ("email",
     {| tpl_system_prompt := "You are a professional business communicator. Write clear, professional emails that summarize meeting outcomes.";
        tpl_user_prompt := "Based on the following meeting transcription, write a professional email to share meeting notes with partners/stakeholders:

{transcription}

The email should include:
- Subject line
- Brief greeting
- Meeting overview
- Key decisions and outcomes
- Action items
- Professional closing" |});
    ("training",
     {| tpl_system_prompt := "You are a technical writer creating educational documentation. Make the content clear, well-structured, and easy to follow.";
        tpl_user_prompt := "Convert the following training session transcription into structured educational documentation:

{transcription}

Create documentation that includes:
1. Overview/Introduction
2. Key Concepts Explained
3. Step-by-Step Instructions (if applicable)
4. Important Notes and Tips
5. Summary/Key Takeaways" |});
    ("weekly",
     {| tpl_system_prompt := "You are creating executive summaries that consolidate multiple meetings into a coherent weekly overview.";
        tpl_user_prompt := "Combine the following meeting transcriptions into a comprehensive weekly summary:

{transcription}

Create a weekly summary that includes:
1. Week Overview
2. Key Accomplishments
3. Important Decisions Across Meetings
4. Combined Action Items
5. Upcoming Priorities
6. Notable Discussions/Concerns" |});
    ("custom", custom_template)
  ].

Definition build_prompt (prompt_type transcription : string)
    (custom_prompt persona_style template_content : option string) : string * string :=
  let template := default custom_template (PROMPT_TEMPLATES !! prompt_type) in
  let system_prompt := tpl_system_prompt template in
  let user_prompt := tpl_user_prompt template in
  let user_prompt := Py.replace "{transcription}" transcription user_prompt in
  let user_prompt :=
    if truthy custom_prompt
    then Py.replace "{custom_prompt}" (default "" custom_prompt) user_prompt
    else user_prompt in
  let system_prompt :=
    if truthy persona_style
    then system_prompt +:+ nl +:+ nl +:+ "Writing Style Instructions:" +:+ nl
         +:+ default "" persona_style
    else system_prompt in
  let user_prompt :=
    if truthy template_content
    then user_prompt +:+ nl +:+ nl +:+ "Use this template structure:" +:+ nl
         +:+ default "" template_content
    else user_prompt in
  (system_prompt, user_prompt).

(** ** benchmark_service.py *)

Definition JUDGE_SYSTEM_PROMPT : string :=
"You are an expert evaluator comparing the outputs of AI models. 
Your task is to evaluate and score each output on a scale of 1-10 based on specific criteria.
Be objective and provide detailed reasoning for your scores.".

(** [TRANSCRIPTION_JUDGE_PROMPT.format(model_a=.., model_b=.., output_a=.., output_b=..)] *)
Definition TRANSCRIPTION_JUDGE_PROMPT (model_a model_b output_a output_b : string) : string :=
"Compare these two transcriptions of the same audio:

**Transcription A (" +:+ model_a +:+ "):**
" +:+ output_a +:+ "

**Transcription B (" +:+ model_b +:+ "):**
" +:+ output_b +:+ "

Evaluate each transcription on these criteria (1-10 scale):
1. **Accuracy**: How accurate is the transcription likely to be?
2. **Completeness**: Does it capture all the spoken content?
3. **Formatting**: Is it well-formatted and readable?
4. **Punctuation**: Is punctuation appropriate?

Provide your response in this exact format:
SCORE_A: [number]
SCORE_B: [number]
WINNER: [A or B or TIE]
REASONING: [Your detailed analysis]".

(** [LLM_JUDGE_PROMPT.format(prompt_type=.., model_a=.., model_b=.., output_a=.., output_b=..)] *)
Definition LLM_JUDGE_PROMPT (prompt_type model_a model_b output_a output_b : string)
    : string :=
"Compare these two LLM outputs generated from the same input:

**Task:** " +:+ prompt_type +:+ "

**Output A (" +:+ model_a +:+ "):**
" +:+ output_a +:+ "

**Output B (" +:+ model_b +:+ "):**
" +:+ output_b +:+ "

Evaluate each output on these criteria (1-10 scale):
1. **Quality**: Overall quality of the response
2. **Relevance**: How well does it address the task?
3. **Clarity**: Is it clear and well-organized?
4. **Completeness**: Does it cover all necessary points?
5. **Style**: Is the writing style appropriate?

Provide your response in this exact format:
SCORE_A: [number]
SCORE_B: [number]
WINNER: [A or B or TIE]
REASONING: [Your detailed analysis]".

(** The dictionary both benchmarks return. *)
Record BenchmarkDict := {
  output_a : option string;
  output_b : option string;
  bench_score_a : option Py.pyfloat;
  bench_score_b : option Py.pyfloat;
  judge_reasoning : option string
}.

(** [(success, results_dict, error_message)] *)
Definition BenchmarkResult : Type := bool * option BenchmarkDict * option string.

(** [text[:n]] on an [Optional[str]] *)
Definition subscript_to (n : nat) (text : option string) : M string :=
  match text with
  | Some s => ret (Py.slice_to n s)
  | None => raise (raise_of TypeError "'NoneType' object is not subscriptable")
  end.

(** [parse_judge_response(judge_response)] on an [Optional[str]] *)
Definition parse_judge (judge_response : option string) : M JudgeResult :=
  match judge_response with
  | Some s => of_outcome (parse_judge_response s)
  | None => raise (none_has_no_attribute "strip")
  end.

(** What both benchmarks do once model A and model B have answered. *)
Definition judge_and_report (judge_prompt judge_model : string)
    (text_a text_b : option string) : M BenchmarkResult :=
  j <- generate judge_prompt judge_model (Some JUDGE_SYSTEM_PROMPT)
         default_max_tokens default_temperature ;;
  let success_judge := gen_success j in
  let judge_response := gen_text j in
  let error_judge := gen_error j in
  if negb success_judge then
    ret (true,
         Some {| output_a := text_a; output_b := text_b;
                 bench_score_a := None; bench_score_b := None;
                 judge_reasoning := Some ("Judge failed: " +:+ str_opt error_judge) |},
         None)
  else
    scores <- parse_judge judge_response ;;
    ret (true,
         Some {| output_a := text_a; output_b := text_b;
                 bench_score_a := score_a scores; bench_score_b := score_b scores;
                 judge_reasoning := reasoning scores |},
         None).

Definition run_transcription_benchmark (audio_path model_a model_b language
    judge_model : string) : M BenchmarkResult :=
  try_except
    (a <- transcribe audio_path model_a language ;;
     b <- transcribe audio_path model_b language ;;
     if negb (tr_success a) then
       ret (false, None,
            Some ("Model A (" +:+ model_a +:+ ") failed: " +:+ str_opt (tr_error a)))
     else if negb (tr_success b) then
       ret (false, None,
            Some ("Model B (" +:+ model_b +:+ ") failed: " +:+ str_opt (tr_error b)))
     else
       out_a <- subscript_to 3000 (tr_text a) ;;
       out_b <- subscript_to 3000 (tr_text b) ;;
       let judge_prompt := TRANSCRIPTION_JUDGE_PROMPT model_a model_b out_a out_b in
       judge_and_report judge_prompt judge_model (tr_text a) (tr_text b))
    (fun e => ret (false, None, Some (exn_str e))).

Definition run_llm_benchmark (transcription prompt_type model_a model_b
    judge_model : string) : M BenchmarkResult :=
  try_except
    (let '(system_prompt, user_prompt) :=
       build_prompt prompt_type transcription None None None in
     a <- generate user_prompt model_a (Some system_prompt)
            default_max_tokens default_temperature ;;
     b <- generate user_prompt model_b (Some system_prompt)
            default_max_tokens default_temperature ;;
     if negb (gen_success a) then
       ret (false, None,
            Some ("Model A (" +:+ model_a +:+ ") failed: " +:+ str_opt (gen_error a)))
     else if negb (gen_success b) then
       ret (false, None,
            Some ("Model B (" +:+ model_b +:+ ") failed: " +:+ str_opt (gen_error b)))
     else
       out_a <- subscript_to 3000 (gen_text a) ;;
       out_b <- subscript_to 3000 (gen_text b) ;;
       let judge_prompt := LLM_JUDGE_PROMPT prompt_type model_a model_b out_a out_b in
       judge_and_report judge_prompt judge_model (gen_text a) (gen_text b))
    (fun e => ret (false, None, Some (exn_str e))).

End Services.

(** ** whisper-server/app.py: the model cache of the remote server *)

(** [HTTPException(status_code=500, detail=...)] *)
Definition server_error (detail : string) : exn :=
  {| exn_cls := HTTPException; exn_str := detail; exn_status := 500; exn_text := detail |}.

(** [load_model(model_size, device)] over the dictionary [_model_cache]. *)
Definition load_model (model_size device : string) (_model_cache : gmap string Model)
    : Prog (Outcome Model * gmap string Model) :=
  let cache_key := model_size +:+ "_" +:+ device in
  match _model_cache !! cache_key with
  | Some model => Ret (Ok model, _model_cache)
  | None =>
      let failed (e : exn) : Prog (Outcome Model * gmap string Model) :=
        Ret (Raised (server_error ("Failed to load Whisper model: " +:+ exn_str e)),
             _model_cache) in
      let load (device : string) : Prog (Outcome Model * gmap string Model) :=
        Vis (WhisperLoadModel model_size device) (fun r : Outcome Model =>
          match r with
          | Ok model => Ret (Ok model, <[cache_key := model]> _model_cache)
          | Raised e => failed e
          end) in
      if String.eqb device "gpu" || String.eqb device "cuda" then
        Vis CudaIsAvailable (fun r : Outcome bool =>
          match r with
          | Ok available => load (if negb available then "cpu" else "cuda")
          | Raised e => failed e
          end)
      else load device
  end.

(** * Vocabulary of the properties, and concrete scenarios *)

(** [Always Q p]: whatever the environment answers, [p] ends in [Q]. *)
Fixpoint Always {A} (Q : A -> Prop) (p : Prog A) : Prop :=
  match p with
  | Ret a => Q a
  | Vis e k => forall r, Always Q (k r)
  end.

(** [AlwaysT Q p]: whatever the environment answers, [p] ends in a value
    and with a trace of events related by [Q]. *)
Fixpoint AlwaysT {A} (Q : A -> list Obs -> Prop) (p : Prog A) : Prop :=
  match p with
  | Ret a => Q a []
  | Vis e k =>
      forall r, AlwaysT (fun a t => Q a ({| obs_ev := e; obs_ans := r |} :: t)) (k r)
  end.

(** [m] ends normally in a value satisfying [P], from every cache and in
    every environment. *)
Definition returns {A} (P : A -> Prop) (m : M A) : Prop :=
  forall c, Always (fun oc => exists a, oc.1 = Ok a /\ P a) (m c).

(** The shape the specification gives every adapter result: a failure has
    no text and has an error, a success has a text and no error; text and
    error are never both there and never both missing. *)
Definition result_shape (success : bool) (text error : option string) : Prop :=
  (success = false -> text = None /\ error <> None) /\
  (success = true -> text <> None /\ error = None) /\
  ~ (text <> None /\ error <> None) /\
  ~ (text = None /\ error = None).

(** The same without the promise of a text on success: text and error may
    both be missing, then. *)
Definition result_shape_weak (success : bool) (text error : option string) : Prop :=
  (success = false -> text = None /\ error <> None) /\
  (success = true -> error = None) /\
  ~ (text <> None /\ error <> None).

Definition gen_shape (r : GenerationResult) : Prop :=
  result_shape (gen_success r) (gen_text r) (gen_error r).
Definition gen_shape_weak (r : GenerationResult) : Prop :=
  result_shape_weak (gen_success r) (gen_text r) (gen_error r).
Definition tr_shape (r : TranscriptionResult) : Prop :=
  result_shape (tr_success r) (tr_text r) (tr_error r).

(** [m] run from any cache in any environment ends normally, in a value
    satisfying [P]. *)
Definition always_returns {A} (P : A -> Prop) (m : M A) : Prop :=
  forall c env hist, exists a c' t, run env hist (m c) = (Ok a, c', t) /\ P a.

Definition empty_cache : Cache := {| _model := None; _model_size := None |}.

Definition unavailable {e : Ev} : Outcome (answer e) :=
  Raised (raise_of OtherException "unavailable").

Definition settings_example : Settings :=
  {| openai_api_key := Some "sk-test";
     google_application_credentials := None;
     google_gemini_api_key := None;
     ollama_host := "http://localhost:11434";
     whisper_model_size := "base";
     whisper_device := "cpu";
     whisper_remote_url := None |}.

(** The provider answers with a completion that has no choice. *)
Definition env_openai_no_choices : Env := fun _ e =>
  match e as e0 return Outcome (answer e0) with
  | ImportOpenAI => Ok tt
  | OpenAIChatCreate _ _ _ _ _ => Ok {| choices := []; usage := Some (12, 0) |}
  | _ => unavailable
  end.

(** [sub_of x s]: [x] occurs in [s]. *)
Definition sub_of (x s : string) : Prop := exists pre post, s = pre +:+ x +:+ post.

Definition markers : list string := ["SCORE_A:"; "SCORE_B:"; "WINNER:"; "REASONING:"].

Definition null_result : JudgeResult :=
  {| score_a := None; score_b := None; winner := None; reasoning := None |}.

(** The value of a score line does not parse as a number. *)
Definition fails_numeric_parsing (line : string) : Prop :=
  forall field, nth_error (Py.split ":" line) 1 = Some field ->
                Py.float_of_string (Py.strip field) = None.

(** The text a REASONING: line carries after its marker. *)
Definition reasoning_text (line : string) : string :=
  Py.strip (Py.join ":" (tl (Py.split ":" line))).

Definition nonempty (s : string) : list string :=
  if String.eqb s "" then [] else [s].

(** What a stripped line adds to [reasoning_lines] once a REASONING: line
    has been seen. *)
Definition reasoning_contribution (line : string) : list string :=
  if Py.startswith line "SCORE_A:" || Py.startswith line "SCORE_B:"
     || Py.startswith line "WINNER:" then []
  else if Py.startswith line "REASONING:" then nonempty (reasoning_text line)
  else [line].

(** The reasoning as the specification words it: the text after the first
    REASONING: marker and every later line up to the end of the reply,
    joined the way the parser joins lines. *)
Fixpoint text_following_reasoning (lines : list string) : option (list string) :=
  match lines with
  | [] => None
  | line :: rest =>
      if Py.startswith (Py.strip line) "REASONING:"
      then Some (nonempty (reasoning_text (Py.strip line)) ++ map Py.strip rest)
      else text_following_reasoning rest
  end.

Definition reasoning_as_specified (response : string) : option string :=
  Py.join " " <$> text_following_reasoning (Py.split "010" (Py.strip response)).

(** A reply that gives its reasoning first and its scores after. *)
Definition judge_reply_reasoning_first : string :=
  "REASONING: A is more complete." +:+ nl +:+ "SCORE_A: 9" +:+ nl +:+
  "SCORE_B: 4" +:+ nl +:+ "WINNER: A".

(** What a trace says about the Whisper library and the model cache on
    disk: the load attempts with their answers, the answers of the CUDA
    check, the exceptions of the file-system events, the transcriptions. *)
Definition load_attempt (o : Obs) : option (string * string * Outcome Model) :=
  match obs_ev o as e return Outcome (answer e) -> option (string * string * Outcome Model) with
  | WhisperLoadModel model_size device => fun a => Some (model_size, device, a)
  | _ => fun _ => None
  end (obs_ans o).

Definition cuda_check (o : Obs) : option (Outcome bool) :=
  match obs_ev o as e return Outcome (answer e) -> option (Outcome bool) with
  | CudaIsAvailable => fun a => Some a
  | _ => fun _ => None
  end (obs_ans o).

Definition transcription (o : Obs) : option (Outcome (option string)) :=
  match obs_ev o as e return Outcome (answer e) -> option (Outcome (option string)) with
  | ModelTranscribe _ _ _ => fun a => Some a
  | _ => fun _ => None
  end (obs_ans o).

Definition load_attempts (t : list Obs) : list (string * string * Outcome Model) :=
  omap load_attempt t.
Definition cuda_checks (t : list Obs) : list (Outcome bool) := omap cuda_check t.
Definition transcriptions (t : list Obs) : list (Outcome (option string)) :=
  omap transcription t.









Definition settings_gpu : Settings :=
  {| openai_api_key := None;
     google_application_credentials := None;
     google_gemini_api_key := None;
     ollama_host := "http://localhost:11434";
     whisper_model_size := "base";
     whisper_device := "gpu";
     whisper_remote_url := None |}.

(** CUDA is reported but the load on it fails; the cache directory exists. *)
Definition env_gpu_load_fails : Env := fun _ e =>
  match e as e0 return Outcome (answer e0) with
  | ImportWhisper => Ok tt
  | CudaIsAvailable => Ok true
  | WhisperLoadModel _ device =>
      if String.eqb device "cuda"
      then Raised (raise_of RuntimeError
                     "CUDA error: no kernel image is available for execution on the device")
      else Ok 7%nat
  | PathExists _ => Ok true
  | Rmtree _ => Ok tt
  | ModelTranscribe _ _ _ => Ok (Some " Good morning everyone. ")
  | _ => unavailable
  end.



Definition settings_cuda : Settings :=
  {| openai_api_key := None;
     google_application_credentials := None;
     google_gemini_api_key := None;
     ollama_host := "http://localhost:11434";
     whisper_model_size := "base";
     whisper_device := "cuda";
     whisper_remote_url := None |}.

(** Whisper is installed and every load succeeds; the model object is told
    apart by the length of its size name. *)
Definition env_whisper : Env := fun _ e =>
  match e as e0 return Outcome (answer e0) with
  | ImportWhisper => Ok tt
  | WhisperLoadModel model_size _ => Ok (String.length model_size)
  | _ => unavailable
  end.

(** Three requests in a row: base, small, base again. *)
Definition load_base_small_base (s : Settings) : M (option Model) :=
  load_whisper_model s (Some "base") ;;;
  load_whisper_model s (Some "small") ;;;
  load_whisper_model s (Some "base").

(** OpenAI answers, the local Whisper model loads and transcribes; no
    Gemini key is configured, so a Gemini judge fails. *)
Definition env_bench : Env := fun _ e =>
  match e as e0 return Outcome (answer e0) with
  | ImportOpenAI => Ok tt
  | OpenAIChatCreate _ model _ _ _ =>
      Ok {| choices := [Some ("Summary by " +:+ model)]; usage := Some (120, 40) |}
  | OpenAITranscribe _ _ _ => Ok (Some "Good morning everyone.")
  | PathExists _ => Ok true
  | StatSize _ => Ok 2048
  | ImportWhisper => Ok tt
  | WhisperLoadModel _ _ => Ok 1%nat
  | ModelTranscribe _ _ _ => Ok (Some " Good morning every one. ")
  | _ => unavailable
  end.

Definition judge_failure_results (text_a text_b : string) : BenchmarkResult :=
  (true,
   Some {| output_a := Some text_a; output_b := Some text_b;
           bench_score_a := None; bench_score_b := None;
           judge_reasoning :=
             Some "Judge failed: Google Gemini API key not configured" |},
   None).

Definition bench_prompts : string * string :=
  build_prompt "summary" "Good morning everyone." None None None.

(** A judge that writes its scores in words. *)
Definition judge_reply_words : string :=
  "SCORE_A: eight" +:+ nl +:+ "SCORE_B: six out of ten" +:+ nl +:+ "WINNER: A".

(** A judge that ignores the format. *)
Definition judge_reply_prose : string :=
  "Both summaries are acceptable; the first one is a little clearer.".

(** A reasoning that runs over two more lines. *)
Definition judge_reply_long_reasoning : string :=
  "WINNER: B" +:+ nl +:+ "REASONING: B is concise." +:+ nl +:+
  "  It also covers every point." +:+ nl +:+ "A repeats itself.".

(** * More of the service layer, and the vocabulary of its properties *)

(** ** The lists of models the services advertise *)

(** One entry of a [get_available_models] list. *)
Record ModelInfo := { mi_id : string; mi_name : string; mi_type : string }.

(** transcription_service.py, [get_available_models]. *)
Definition transcription_available_models (settings : Settings) : list ModelInfo :=
  let models := [
    {| mi_id := "whisper-tiny"; mi_name := "Whisper Tiny (Local)"; mi_type := "local" |};
    {| mi_id := "whisper-base"; mi_name := "Whisper Base (Local)"; mi_type := "local" |};
    {| mi_id := "whisper-small"; mi_name := "Whisper Small (Local)"; mi_type := "local" |};
    {| mi_id := "whisper-medium"; mi_name := "Whisper Medium (Local)"; mi_type := "local" |};
    {| mi_id := "whisper-large"; mi_name := "Whisper Large (Local)"; mi_type := "local" |};
    {| mi_id := "whisper-api"; mi_name := "Whisper API (OpenAI)"; mi_type := "cloud" |};
    {| mi_id := "google-stt"; mi_name := "Google Speech-to-Text"; mi_type := "cloud" |}
  ] in
  if truthy (whisper_remote_url settings) then
    models ++ [
      {| mi_id := "whisper-remote-tiny"; mi_name := "Whisper Tiny (Remote)";
         mi_type := "remote" |};
      {| mi_id := "whisper-remote-base"; mi_name := "Whisper Base (Remote)";
         mi_type := "remote" |};
      {| mi_id := "whisper-remote-small"; mi_name := "Whisper Small (Remote)";
         mi_type := "remote" |};
      {| mi_id := "whisper-remote-medium"; mi_name := "Whisper Medium (Remote)";
         mi_type := "remote" |};
      {| mi_id := "whisper-remote-large"; mi_name := "Whisper Large (Remote)";
         mi_type := "remote" |}
    ]
  else models.

(** The shape of one entry of the runner's result list. *)
Definition job_shape (j : JobResult) : Prop :=
  result_shape (job_success j) (job_text j) (job_error j).

(** The shape of what a benchmark returns: [(True, results, None)] with
    both outputs present, or [(False, None, error)]. *)
Definition benchmark_shape (r : BenchmarkResult) : Prop :=
  match r with
  | (true, Some d, None) => output_a d <> None /\ output_b d <> None
  | (false, None, Some _) => True
  | _ => False
  end.

(** The body of a benchmark, before its [except] clause: a result of the
    right shape, or an exception. *)
Definition shape_or_raise (oc : Outcome BenchmarkResult * Cache) : Prop :=
  match oc.1 with
  | Ok r => benchmark_shape r
  | Raised _ => True
  end.

(** OpenAI answers every chat request with a reply in the judge's format. *)
Definition env_judge : Env := fun _ e =>
  match e as e0 return Outcome (answer e0) with
  | ImportOpenAI => Ok tt
  | OpenAIChatCreate _ _ _ _ _ =>
      Ok {| choices := [Some judge_reply_example]; usage := Some (300, 20) |}
  | _ => unavailable
  end.

(** What precedes the first occurrence of [old] in [s], and what follows it. *)
Fixpoint text_before (old s : string) : string :=
  if String.prefix old s then EmptyString
  else match s with
       | String c s' => String c (text_before old s')
       | EmptyString => EmptyString
       end.

Definition text_after (old s : string) : string :=
  Pathlib.drop_chars (String.length (text_before old s) + String.length old) s.

(** What a trace says about the network and the providers: the answers to
    the requests sent to the Whisper peer and to Ollama, the sizes the file
    system reported, the audio files handed to the Whisper API. *)
Definition whisper_post (o : Obs) : option (Outcome (HttpResponse PeerReply)) :=
  match obs_ev o as e return Outcome (answer e) -> option (Outcome (HttpResponse PeerReply)) with
  | WhisperPost _ _ _ => fun a => Some a
  | _ => fun _ => None
  end (obs_ans o).

Definition ollama_post (o : Obs) : option (Outcome (HttpResponse OllamaData)) :=
  match obs_ev o as e return Outcome (answer e) -> option (Outcome (HttpResponse OllamaData)) with
  | OllamaPost _ _ => fun a => Some a
  | _ => fun _ => None
  end (obs_ans o).

Definition stat_size (o : Obs) : option (Outcome Z) :=
  match obs_ev o as e return Outcome (answer e) -> option (Outcome Z) with
  | StatSize _ => fun a => Some a
  | _ => fun _ => None
  end (obs_ans o).

Definition api_upload (o : Obs) : option string :=
  match obs_ev o with
  | OpenAITranscribe _ audio_path _ => Some audio_path
  | _ => None
  end.

Definition whisper_posts (t : list Obs) : list (Outcome (HttpResponse PeerReply)) :=
  omap whisper_post t.
Definition ollama_posts (t : list Obs) : list (Outcome (HttpResponse OllamaData)) :=
  omap ollama_post t.
Definition stat_sizes (t : list Obs) : list (Outcome Z) := omap stat_size t.
Definition api_uploads (t : list Obs) : list string := omap api_upload t.

(** The test of [raise_for_status]: a 2xx status. *)
Definition status_is_success {J} (response : HttpResponse J) : bool :=
  (200 <=? status_code response) && (status_code response <? 300).

(** The limit of the Whisper API adapter, in bytes. *)
Definition whisper_api_limit : Z := 25 * 1024 * 1024.

(** ** utils/file_manager.py: the functions on file names *)

Module FileManager.

Definition ALLOWED_VIDEO_EXTENSIONS : list string :=
  [".mp4"; ".mov"; ".avi"; ".mkv"; ".webm"].
Definition ALLOWED_AUDIO_EXTENSIONS : list string :=
  [".mp3"; ".wav"; ".m4a"; ".flac"; ".ogg"].
Definition ALLOWED_EXTENSIONS : list string :=
  ALLOWED_VIDEO_EXTENSIONS ++ ALLOWED_AUDIO_EXTENSIONS.

(** [s.lstrip(ch)] for one character. *)
Fixpoint lstrip_char (ch : ascii) (s : string) : string :=
  match s with
  | String c s' => if Ascii.eqb c ch then lstrip_char ch s' else s
  | EmptyString => EmptyString
  end.

Definition get_file_extension (filename : string) : string :=
  Py.lower (Pathlib.suffix filename).

Definition get_file_type (filename : string) : string :=
  let ext := get_file_extension filename in
  if bool_decide (ext ∈ ALLOWED_VIDEO_EXTENSIONS) then lstrip_char "." ext
  else if bool_decide (ext ∈ ALLOWED_AUDIO_EXTENSIONS) then lstrip_char "." ext
  else "unknown".

Definition is_video (filename : string) : bool :=
  bool_decide (get_file_extension filename ∈ ALLOWED_VIDEO_EXTENSIONS).

Definition is_audio (filename : string) : bool :=
  bool_decide (get_file_extension filename ∈ ALLOWED_AUDIO_EXTENSIONS).

(** [get_storage_path], given the two folders of the settings. *)
Definition get_storage_path (storage_videos_path storage_audio_path file_type : string)
    : string :=
  if bool_decide (file_type ∈ ["mp4"; "mov"; "avi"; "mkv"; "webm"])
  then storage_videos_path
  else storage_audio_path.

Definition validate_file_extension (filename : string) : bool :=
  bool_decide (get_file_extension filename ∈ ALLOWED_EXTENSIONS).

End FileManager.

(** llm_service.py, [get_available_models]. *)
Definition llm_available_models : list ModelInfo := [
  {| mi_id := "gpt-4"; mi_name := "GPT-4 (OpenAI)"; mi_type := "cloud" |};
  {| mi_id := "gpt-4-turbo"; mi_name := "GPT-4 Turbo (OpenAI)"; mi_type := "cloud" |};
  {| mi_id := "gpt-3.5-turbo"; mi_name := "GPT-3.5 Turbo (OpenAI)"; mi_type := "cloud" |};
  {| mi_id := "gemini-pro"; mi_name := "Gemini Pro (Google)"; mi_type := "cloud" |};
  {| mi_id := "gemini-1.5-pro"; mi_name := "Gemini 1.5 Pro (Google)"; mi_type := "cloud" |};
  {| mi_id := "llama2"; mi_name := "Llama 2 (Ollama)"; mi_type := "local" |};
  {| mi_id := "llama2:13b"; mi_name := "Llama 2 13B (Ollama)"; mi_type := "local" |};
  {| mi_id := "mistral"; mi_name := "Mistral 7B (Ollama)"; mi_type := "local" |};
  {| mi_id := "mixtral"; mi_name := "Mixtral 8x7B (Ollama)"; mi_type := "local" |}
].

(** ollama_service.py, [get_available_models]: the ids. *)
Definition ollama_available_models : list string :=
  ["llama2"; "llama2:13b"; "mistral"; "mixtral"; "codellama"; "phi"].

(** The cache is as it was and the Whisper library was not used: nothing
    was loaded, CUDA was not probed, no model transcribed. *)
Definition no_whisper_use {A} (c : Cache) (oc : Outcome A * Cache) (t : list Obs) : Prop :=
  oc.2 = c /\ load_attempts t = [] /\ cuda_checks t = [] /\ transcriptions t = [].

(** No file exists, and nothing else is available. *)
Definition env_no_files : Env := fun _ e =>
  match e as e0 return Outcome (answer e0) with
  | PathExists _ => Ok false
  | _ => unavailable
  end.

(** What a call of the remote adapter comes to, by the answer to its one
    request to the peer. *)
Definition remote_outcomes (c : Cache) (oc : Outcome TranscriptionResult * Cache)
    (t : list Obs) : Prop :=
  oc.2 = c /\
  (length (whisper_posts t) <= 1)%nat /\
  (whisper_posts t = [] -> exists error, oc.1 = Ok (false, None, Some error)) /\
  (forall response,
     whisper_posts t = [Ok response] -> status_is_success response = false ->
     oc.1 = Ok (false, None,
                Some ("HTTP error from Whisper server: "
                      +:+ string_of_Z (status_code response)
                      +:+ " - " +:+ body_text response))) /\
  (forall response result,
     whisper_posts t = [Ok response] -> status_is_success response = true ->
     json response = Ok result ->
     oc.1 = Ok (whisper_remote_result result)) /\
  (forall e,
     whisper_posts t = [Raised e] -> isinstance e RequestError = true ->
     oc.1 = Ok (false, None, Some ("Connection error to Whisper server: " +:+ exn_str e))).


(** CUDA is missing and every model loads: the server's world. *)
Definition env_server_no_cuda : Env := fun _ e =>
  match e as e0 return Outcome (answer e0) with
  | CudaIsAvailable => Ok false
  | WhisperLoadModel _ _ => Ok 9%nat
  | _ => unavailable
  end.

(** The text of a successful transcription is not empty and has no white
    space at either end. *)
Definition trimmed_text (r : TranscriptionResult) : Prop :=
  tr_success r = true ->
  exists text, tr_text r = Some text /\ text <> "" /\ Py.strip text = text.

(** What a trace says about Google: the recognition requests (long-running
    or not, encoding, language) and the variables set in the environment. *)
Definition speech_request (o : Obs) : option (bool * AudioEncoding * string) :=
  match obs_ev o with
  | SpeechRecognize long_running encoding language_code _ =>
      Some (long_running, encoding, language_code)
  | _ => None
  end.

Definition environ_set (o : Obs) : option (string * string) :=
  match obs_ev o with
  | SetEnviron key value => Some (key, value)
  | _ => None
  end.

Definition speech_requests (t : list Obs) : list (bool * AudioEncoding * string) :=
  omap speech_request t.
Definition environ_sets (t : list Obs) : list (string * string) := omap environ_set t.

Definition gen_usage (r : GenerationResult) : option Usage := r.1.2.

(** A generation result carries a token usage exactly when it is a success. *)
Definition usage_shape (r : GenerationResult) : Prop :=
  (gen_success r = true -> gen_usage r <> None) /\
  (gen_success r = false -> gen_usage r = None).

(** The prompt text of a request to a language model: the content of the
    last message for OpenAI, the one prompt Gemini receives (the system
    prompt, a blank line and the prompt), the member [prompt] for Ollama. *)
Definition llm_prompt (o : Obs) : option string :=
  match obs_ev o with
  | OpenAIChatCreate _ _ messages _ _ => snd <$> last messages
  | GenaiGenerateContent _ _ _ _ full_prompt => Some full_prompt
  | OllamaPost _ request_data => Some (rq_prompt request_data)
  | _ => None
  end.

Definition llm_prompts (t : list Obs) : list string := omap llm_prompt t.

(** The requests to language models in [t] are at most one, of at most
    [bound] characters. *)
Definition one_bounded_request (bound : nat) (t : list Obs) : Prop :=
  (length (llm_prompts t) <= 1)%nat /\
  Forall (fun prompt => (String.length prompt <= bound)%nat) (llm_prompts t).

(** * Properties *)

(** ** Running programs *)

Lemma run_pbind {A B} (env : Env) (p : Prog A) (k : A -> Prog B) (hist : list Obs) :
  run env hist (pbind p k) =
  let '(a, t1) := run env hist p in
  let '(b, t2) := run env (hist ++ t1) (k a) in
  (b, t1 ++ t2).
Proof.
  revert hist. induction p as [a | e h IH]; intros hist; simpl.
  - rewrite app_nil_r. destruct (run env hist (k a)); reflexivity.
  - rewrite IH.
    destruct (run env (hist ++ [_]) (h (env hist e))) as [a t1].
    rewrite <- app_assoc. simpl.
    destruct (run env _ (k a)) as [b t2]. reflexivity.
Qed.

Lemma Always_run {A} (Q : A -> Prop) (p : Prog A) :
  Always Q p -> forall env hist, Q (run env hist p).1.
Proof.
  induction p as [a | e h IH]; simpl; intros HQ env hist; [exact HQ|].
  specialize (IH (env hist e) (HQ _) env (hist ++ [{| obs_ev := e; obs_ans := env hist e |}])).
  destruct (run env _ (h (env hist e))). exact IH.
Qed.

Lemma Always_mono {A} (Q Q' : A -> Prop) (p : Prog A) :
  (forall a, Q a -> Q' a) -> Always Q p -> Always Q' p.
Proof. intros HQ. induction p; simpl; eauto. Qed.

Lemma Always_pbind {A B} (Q : B -> Prop) (p : Prog A) (k : A -> Prog B) :
  Always (fun a => Always Q (k a)) p -> Always Q (pbind p k).
Proof. induction p; simpl; eauto. Qed.

Lemma Always_bind {A B} (Q : Outcome B * Cache -> Prop) (m : M A) (k : A -> M B) c :
  Always (fun oc => match oc.1 with
                    | Ok a => Always Q (k a oc.2)
                    | Raised e => Q (Raised e, oc.2)
                    end) (m c) ->
  Always Q (bind m k c).
Proof.
  intros H. apply Always_pbind. eapply Always_mono; [|exact H].
  intros [[a|e] c'] Ha; exact Ha.
Qed.

Lemma Always_try_except {A} (Q : Outcome A * Cache -> Prop) (m : M A) (h : exn -> M A) c :
  Always (fun oc => match oc.1 with
                    | Ok a => Q (Ok a, oc.2)
                    | Raised e => Always Q (h e oc.2)
                    end) (m c) ->
  Always Q (try_except m h c).
Proof.
  intros H. apply Always_pbind. eapply Always_mono; [|exact H].
  intros [[a|e] c'] Ha; exact Ha.
Qed.

Lemma AlwaysT_run {A} (Q : A -> list Obs -> Prop) (p : Prog A) :
  AlwaysT Q p -> forall env hist, Q (run env hist p).1 (run env hist p).2.
Proof.
  revert Q. induction p as [a | e h IH]; simpl; intros Q HQ env hist; [exact HQ|].
  specialize (IH (env hist e) _ (HQ _) env
                (hist ++ [{| obs_ev := e; obs_ans := env hist e |}])).
  destruct (run env _ (h (env hist e))). exact IH.
Qed.

Lemma returns_run {A} (P : A -> Prop) (m : M A) :
  returns P m ->
  forall c env hist, exists a c' t, run env hist (m c) = (Ok a, c', t) /\ P a.
Proof.
  intros H c env hist. pose proof (Always_run _ _ (H c) env hist) as (a & Ha & HP).
  destruct (run env hist (m c)) as [[o c'] t]. simpl in Ha. subst o. eauto.
Qed.

(** Case analysis on everything the environment can answer. *)
Ltac world_step :=
  match goal with
  | |- forall r : Outcome _, _ => intros [?|?]
  | |- context [if ?b then _ else _] => destruct b eqn:?
  | |- context [match ?x with _ => _ end] => destruct x eqn:?
  end.

Ltac world_cases := repeat (simpl; try world_step).

Ltac shape_done :=
  eexists; split; [reflexivity|];
  unfold gen_shape, gen_shape_weak, tr_shape, result_shape, result_shape_weak,
    gen_success, gen_text, gen_error, tr_success, tr_text, tr_error; simpl;
  repeat split; intros; try discriminate; intuition congruence.

Lemma openai_shape s prompt model sp mt temp :
  returns gen_shape_weak (generate_with_openai s prompt model sp mt temp).
Proof.
  intros c. unfold generate_with_openai, try_except_class, try_except, bind, call, ret, raise.
  world_cases; shape_done.
Qed.

Ltac unfold_monad :=
  unfold try_except_class, try_except, bind, call, ret, raise, of_outcome,
    get_cache, set_cache, store_model, raise_for_status, subscript_to in *.

Lemma gemini_shape s prompt model sp mt temp :
  returns gen_shape_weak (generate_with_gemini s prompt model sp mt temp).
Proof.
  intros c. unfold generate_with_gemini. unfold_monad.
  world_cases; shape_done.
Qed.

Lemma ollama_shape s prompt model sp mt temp :
  returns gen_shape (generate_with_ollama s prompt model sp mt temp).
Proof.
  intros c. unfold generate_with_ollama. unfold_monad.
  world_cases; shape_done.
Qed.

Lemma whisper_local_shape s audio_path model_size language :
  returns tr_shape (transcribe_with_whisper_local s audio_path model_size language).
Proof.
  intros c. unfold transcribe_with_whisper_local, load_whisper_model. unfold_monad.
  world_cases; shape_done.
Qed.

Lemma whisper_api_shape s audio_path language :
  returns tr_shape (transcribe_with_whisper_api s audio_path language).
Proof.
  intros c. unfold transcribe_with_whisper_api. unfold_monad.
  world_cases; shape_done.
Qed.

Lemma whisper_remote_shape s audio_path model_size language :
  returns tr_shape (transcribe_with_whisper_remote s audio_path model_size language).
Proof.
  intros c. unfold transcribe_with_whisper_remote, whisper_remote_except,
    whisper_remote_result. unfold_monad.
  world_cases; shape_done.
Qed.

Lemma whisper_remote_url_shape s audio_url model_size language :
  returns tr_shape (transcribe_with_whisper_remote_url s audio_url model_size language).
Proof.
  intros c. unfold transcribe_with_whisper_remote_url, whisper_remote_except,
    whisper_remote_result. unfold_monad.
  world_cases; shape_done.
Qed.

Lemma google_stt_shape s audio_path language :
  returns tr_shape (transcribe_with_google_stt s audio_path language).
Proof.
  intros c. unfold transcribe_with_google_stt. unfold_monad.
  world_cases; shape_done.
Qed.

(** C1, as stated, fails: the OpenAI adapter reports success with no text
    and no error when the completion carries no choice. *)
Lemma openai_success_without_text :
  exists r c t,
    run env_openai_no_choices []
      (generate_with_openai settings_example "Summarise the meeting." "gpt-4" None
         default_max_tokens default_temperature empty_cache) = (Ok r, c, t)
    /\ gen_success r = true /\ gen_text r = None /\ gen_error r = None
    /\ ~ gen_shape r.
Proof.
  do 3 eexists. split; [vm_compute; reflexivity|].
  repeat split. intros (_ & H & _). destruct (H eq_refl) as [Ht _]. apply Ht. reflexivity.
Qed.

(** C1 (amended): every adapter ends normally, whatever the provider, the
    network, the file system or the Whisper library answer; a result with
    [success = false] has no text and has an error; a result with
    [success = true] has no error, so text and error are never both there;
    a success has a text, and text and error are never both missing, for
    the Ollama adapter and for every transcription adapter, while the
    OpenAI and Gemini adapters may report success without a text. *)
Theorem adapter_result_shape (s : Settings) :
  (forall prompt model sp mt temp,
     always_returns gen_shape_weak (generate_with_openai s prompt model sp mt temp)) /\
  (forall prompt model sp mt temp,
     always_returns gen_shape_weak (generate_with_gemini s prompt model sp mt temp)) /\
  (forall prompt model sp mt temp,
     always_returns gen_shape (generate_with_ollama s prompt model sp mt temp)) /\
  (forall audio_path model_size language,
     always_returns tr_shape
       (transcribe_with_whisper_local s audio_path model_size language)) /\
  (forall audio_path language,
     always_returns tr_shape (transcribe_with_whisper_api s audio_path language)) /\
  (forall audio_path model_size language,
     always_returns tr_shape
       (transcribe_with_whisper_remote s audio_path model_size language)) /\
  (forall audio_url model_size language,
     always_returns tr_shape
       (transcribe_with_whisper_remote_url s audio_url model_size language)) /\
  (forall audio_path language,
     always_returns tr_shape (transcribe_with_google_stt s audio_path language)).
Proof.
  repeat split; intros; intros c env hist; apply returns_run;
    auto using openai_shape, gemini_shape, ollama_shape, whisper_local_shape,
      whisper_api_shape, whisper_remote_shape, whisper_remote_url_shape,
      google_stt_shape.
Qed.

(** ** The dispatchers *)

(** C2: an identifier that is not a key of [LLM_MODELS] makes [generate]
    run the Ollama adapter with the identifier as model name: the call ends
    normally and the only request made is the POST to Ollama's generate
    endpoint, whose body names the identifier as model. *)
Theorem generate_unknown_model_routes_to_ollama
    (s : Settings) (prompt model : string) (system_prompt : option string)
    (max_tokens : Z) (temperature : Py.pyfloat) :
  LLM_MODELS !! model = None ->
  generate s prompt model system_prompt max_tokens temperature
  = generate_with_ollama s prompt model system_prompt max_tokens temperature
  /\ forall c env hist, exists r c' o,
       run env hist (generate s prompt model system_prompt max_tokens temperature c)
       = (Ok r, c', [o])
       /\ exists data,
            obs_ev o = OllamaPost (Py.rstrip_char "/" (ollama_host s) +:+ "/api/generate") data
            /\ rq_model data = model /\ rq_prompt data = prompt.
Proof.
  intros Hnone. unfold generate. rewrite Hnone. split; [reflexivity|].
  intros c env hist.
  assert (AlwaysT
    (fun oc t => exists r o, oc = (Ok r, c) /\ t = [o] /\ exists data,
       obs_ev o = OllamaPost (Py.rstrip_char "/" (ollama_host s) +:+ "/api/generate") data
       /\ rq_model data = model /\ rq_prompt data = prompt)
    (generate_with_ollama s prompt model system_prompt max_tokens temperature c)) as H.
  { unfold generate_with_ollama. unfold_monad.
    world_cases; do 2 eexists; (split; [reflexivity|]); (split; [reflexivity|]);
      simpl; eexists; repeat split. }
  apply AlwaysT_run with (env := env) (hist := hist) in H.
  destruct (run env hist _) as [oc t]. simpl in H.
  destruct H as (r & o & -> & -> & Hdata). eauto 6.
Qed.

Lemma generate_unknown_model_routes_to_ollama_witness :
  LLM_MODELS !! "phi" = None /\
  generate settings_example "Hello" "phi" None default_max_tokens default_temperature
  = generate_with_ollama settings_example "Hello" "phi" None default_max_tokens
      default_temperature.
Proof.
  split; [vm_compute; reflexivity|].
  apply (generate_unknown_model_routes_to_ollama settings_example "Hello" "phi" None
           default_max_tokens default_temperature).
  vm_compute; reflexivity.
Defined.

(** C10: an identifier that is not a key of [TRANSCRIPTION_MODELS] makes
    [transcribe] return [(False, None, "Unknown model: <id>")] at once: the
    program performs no event at all, so no backend is invoked, and the
    cache is left as it was. *)
Theorem transcribe_unknown_model
    (s : Settings) (audio_path model language : string) :
  TRANSCRIPTION_MODELS !! model = None ->
  forall c,
    transcribe s audio_path model language c
    = Ret (Ok (false, None, Some ("Unknown model: " +:+ model)), c)
    /\ forall env hist,
         run env hist (transcribe s audio_path model language c)
         = (Ok (false, None, Some ("Unknown model: " +:+ model)), c, []).
Proof.
  intros Hnone c. unfold transcribe. rewrite Hnone. split; [reflexivity|].
  intros env hist. reflexivity.
Qed.

Lemma transcribe_unknown_model_witness :
  TRANSCRIPTION_MODELS !! "llama2" = None /\
  run env_openai_no_choices []
    (transcribe settings_example "/data/a.mp3" "llama2" "en" empty_cache)
  = (Ok (false, None, Some "Unknown model: llama2"), empty_cache, []).
Proof.
  split; [vm_compute; reflexivity|].
  apply (transcribe_unknown_model settings_example "/data/a.mp3" "llama2" "en").
  vm_compute; reflexivity.
Defined.

(** C6: the reply of the specification's example parses to scores 8.0 and
    6.0, winner A and the reasoning text. *)
Theorem parse_judge_response_example :
  parse_judge_response judge_reply_example
  = Ok {| score_a := Some (Py.PFinite 8); score_b := Some (Py.PFinite 6);
          winner := Some "A"; reasoning := Some "A was clearer." |}.
Proof. vm_compute. reflexivity. Qed.

(** ** The parallel runner *)

Lemma sort_files_filter (audio_paths audio_files video_files : list string) :
  sort_files audio_paths audio_files video_files
  = (audio_files ++ List.filter is_audio audio_paths,
     video_files ++ List.filter (fun p => negb (is_audio p)) audio_paths).
Proof.
  revert audio_files video_files.
  induction audio_paths as [|path rest IH]; intros audio_files video_files; simpl.
  - rewrite !app_nil_r. reflexivity.
  - destruct (is_audio path); simpl; rewrite IH, <- app_assoc; reflexivity.
Qed.

Lemma transcribe_shape s audio_path model language :
  returns tr_shape (transcribe s audio_path model language).
Proof.
  intros c. unfold transcribe.
  destruct (TRANSCRIPTION_MODELS !! model) as [model_config|]; [|simpl; shape_done].
  destruct (String.eqb _ "whisper_local"); [apply whisper_local_shape|].
  destruct (String.eqb _ "whisper_remote").
  { destruct (negb _); [simpl; shape_done | apply whisper_remote_shape]. }
  destruct (String.eqb _ "whisper_api"); [apply whisper_api_shape|].
  destruct (String.eqb _ "google_stt"); [apply google_stt_shape|].
  simpl; shape_done.
Qed.

Lemma process_file_returns s model language path :
  returns (fun j => job_path j = path) (process_file s model language path).
Proof.
  intros c. unfold process_file. apply Always_bind.
  eapply Always_mono; [|apply transcribe_shape].
  intros [o c'] (r & Hr & _). simpl in *. subst o. simpl. eauto.
Qed.

Lemma gather_process_file_returns s model language (paths : list string) :
  returns (fun results => map job_path results = paths)
    (gather (map (process_file s model language) paths)).
Proof.
  induction paths as [|path rest IH]; intros c; simpl.
  - eexists. split; reflexivity.
  - apply Always_bind. eapply Always_mono; [|apply process_file_returns].
    intros [o c1] (j & Hj & Hpath). simpl in *. subst o.
    apply Always_bind. eapply Always_mono; [|apply IH].
    intros [o c2] (js & Hjs & Hpaths). simpl in *. subst o. simpl.
    eexists. split; [reflexivity|]. simpl. congruence.
Qed.

(** C3: with [prioritize_audio] set, the runner ends normally and the paths
    of its results are the audio paths (those whose lower-cased suffix is
    one of the audio extensions) in input order, followed by the other
    paths in input order; for [v.mp4, a.mp3, b.wav] that is
    [a.mp3, b.wav, v.mp4]; for the empty list the result is the empty list,
    without any event. *)
Theorem transcribe_parallel_audio_first (s : Settings) (model language : string) :
  (forall audio_paths,
     always_returns
       (fun results =>
          map job_path results
          = List.filter is_audio audio_paths
            ++ List.filter (fun p => negb (is_audio p)) audio_paths)
       (transcribe_parallel s audio_paths model language true)) /\
  always_returns
    (fun results => map job_path results = ["a.mp3"; "b.wav"; "v.mp4"])
    (transcribe_parallel s ["v.mp4"; "a.mp3"; "b.wav"] model language true) /\
  (forall c env hist,
     run env hist (transcribe_parallel s [] model language true c) = (Ok [], c, [])).
Proof.
  assert (forall audio_paths,
     always_returns
       (fun results =>
          map job_path results
          = List.filter is_audio audio_paths
            ++ List.filter (fun p => negb (is_audio p)) audio_paths)
       (transcribe_parallel s audio_paths model language true)) as Hgen.
  { intros audio_paths c env hist. apply returns_run.
    unfold transcribe_parallel. rewrite sort_files_filter. simpl.
    apply gather_process_file_returns. }
  split; [exact Hgen|]. split; [|reflexivity].
  intros c env hist. destruct (Hgen ["v.mp4"; "a.mp3"; "b.wav"] c env hist)
    as (results & c' & t & Hrun & Hpaths).
  exists results, c', t. split; [exact Hrun|]. rewrite Hpaths. vm_compute. reflexivity.
Qed.

(** ** Strings *)

Lemma append_assoc (a b c : string) : (a +:+ b) +:+ c = a +:+ (b +:+ c).
Proof. induction a as [|x a IH]; simpl; [reflexivity | rewrite IH; reflexivity]. Qed.

Lemma append_empty_r (a : string) : a +:+ "" = a.
Proof. induction a as [|x a IH]; simpl; [reflexivity | f_equal; exact IH]. Qed.

Lemma prefix_append (p s : string) :
  String.prefix p s = true -> exists rest, s = p +:+ rest.
Proof.
  revert s. induction p as [|a p IH]; intros s H.
  - exists s. reflexivity.
  - destruct s as [|b s]; simpl in H; [discriminate|].
    destruct (ascii_dec a b) as [->|]; [|discriminate].
    destruct (IH s H) as [rest ->]. exists rest. reflexivity.
Qed.

Lemma prefix_of_append (p rest : string) : String.prefix p (p +:+ rest) = true.
Proof.
  induction p as [|a p IH]; simpl; [destruct rest; reflexivity|].
  destruct (ascii_dec a a); [exact IH | congruence].
Qed.

Lemma sub_of_refl (s : string) : sub_of s s.
Proof. exists "", "". simpl. rewrite append_empty_r. reflexivity. Qed.

Lemma sub_of_trans (x y z : string) : sub_of x y -> sub_of y z -> sub_of x z.
Proof.
  intros (p1 & q1 & ->) (p2 & q2 & ->).
  exists (p2 +:+ p1), (q1 +:+ q2). rewrite !append_assoc. reflexivity.
Qed.

Lemma sub_of_cons (x s : string) (c : ascii) : sub_of x s -> sub_of x (String c s).
Proof. intros (p & q & ->). exists (String c p), q. reflexivity. Qed.

Lemma contains_sub_of (m s : string) : Py.contains m s = true <-> sub_of m s.
Proof.
  split.
  - induction s as [|c s IH]; cbn [Py.contains]; intros H.
    + rewrite orb_false_r in H. apply prefix_append in H as [rest ->].
      exists "", rest. reflexivity.
    + apply orb_true_iff in H as [H|H].
      * apply prefix_append in H as [rest ->]. exists "", rest. reflexivity.
      * apply sub_of_cons, IH, H.
  - intros (pre & post & ->). induction pre as [|c pre IH].
    + change ("" +:+ m +:+ post) with (m +:+ post).
      destruct (m +:+ post) eqn:E; cbn [Py.contains]; rewrite <- E, prefix_of_append;
        reflexivity.
    + change (String c pre +:+ m +:+ post) with (String c (pre +:+ m +:+ post)).
      cbn [Py.contains]. rewrite IH. apply orb_true_r.
Qed.

Lemma lstrip_sub_of (s : string) : sub_of (Py.lstrip s) s.
Proof.
  induction s as [|c s IH]; simpl; [apply sub_of_refl|].
  destruct (Py.is_space c); [apply sub_of_cons, IH | apply sub_of_refl].
Qed.

Lemma rstrip_prefix (s : string) : exists ws, s = Py.rstrip s +:+ ws.
Proof.
  induction s as [|c s (ws & IH)]; simpl; [exists ""; reflexivity|].
  destruct (Py.rstrip s) as [|d r] eqn:E.
  - destruct (Py.is_space c).
    + exists (String c s). reflexivity.
    + exists ws. simpl in IH. rewrite <- IH. reflexivity.
  - exists ws. simpl. f_equal. exact IH.
Qed.

Lemma strip_sub_of (s : string) : sub_of (Py.strip s) s.
Proof.
  unfold Py.strip. eapply sub_of_trans; [|apply lstrip_sub_of].
  destruct (rstrip_prefix (Py.lstrip s)) as [ws H]. exists "", ws. exact H.
Qed.

Lemma split_nonempty (sep : ascii) (s : string) : Py.split sep s <> [].
Proof.
  induction s as [|c s IH]; simpl; [discriminate|].
  destruct (Ascii.eqb c sep); [discriminate|].
  destruct (Py.split sep s); [congruence | discriminate].
Qed.

Lemma split_head_prefix (sep : ascii) (s h : string) (t : list string) :
  Py.split sep s = h :: t -> exists rest, s = h +:+ rest.
Proof.
  revert h t. induction s as [|c s IH]; simpl; intros h t H.
  - injection H as <- <-. exists "". reflexivity.
  - destruct (Ascii.eqb c sep).
    + injection H as <- <-. exists (String c s). reflexivity.
    + destruct (Py.split sep s) as [|h' t'] eqn:E; [destruct (split_nonempty _ _ E)|].
      injection H as <- <-. destruct (IH h' t' eq_refl) as [rest ->].
      exists rest. reflexivity.
Qed.

Lemma split_sub_of (sep : ascii) (s line : string) :
  In line (Py.split sep s) -> sub_of line s.
Proof.
  revert line. induction s as [|c s IH]; simpl; intros line H.
  - destruct H as [<-|[]]. apply sub_of_refl.
  - destruct (Ascii.eqb c sep).
    + destruct H as [<-|H]; [exists "", (String c s); reflexivity|].
      apply sub_of_cons, IH, H.
    + destruct (Py.split sep s) as [|h t] eqn:E; [destruct (split_nonempty _ _ E)|].
      destruct H as [<-|H].
      * destruct (split_head_prefix _ _ _ _ E) as [rest ->].
        exists "", rest. reflexivity.
      * apply sub_of_cons, IH. right. exact H.
Qed.

Lemma join_split (sep : ascii) (s : string) :
  Py.join (String sep "") (Py.split sep s) = s.
Proof.
  unfold Py.join. induction s as [|c s IH]; simpl; [reflexivity|].
  destruct (Ascii.eqb_spec c sep) as [->|Hne].
  - destruct (Py.split sep s) as [|h t] eqn:E; [destruct (split_nonempty _ _ E)|].
    simpl in *. rewrite IH. reflexivity.
  - destruct (Py.split sep s) as [|h t] eqn:E; [destruct (split_nonempty _ _ E)|].
    destruct t; simpl in *; rewrite <- IH; reflexivity.
Qed.

(** A stripped line of the stripped reply that starts with [m] makes [m]
    occur in the reply. *)
Lemma marker_line_occurs (m response line : string) :
  In line (Py.split "010" (Py.strip response)) ->
  Py.startswith (Py.strip line) m = true ->
  Py.contains m response = true.
Proof.
  intros Hin Hstart. apply contains_sub_of.
  apply prefix_append in Hstart as [rest Hrest].
  eapply sub_of_trans; [|apply strip_sub_of].
  eapply sub_of_trans; [|eapply split_sub_of, Hin].
  eapply sub_of_trans; [|apply strip_sub_of].
  rewrite Hrest. exists "", rest. reflexivity.
Qed.

(** ** The judge-response parser *)

Lemma split_winner (rest : string) :
  Py.split ":" ("WINNER:" +:+ rest) = "WINNER" :: Py.split ":" rest.
Proof.
  simpl. destruct (Py.split ":" rest) eqn:E; [destruct (split_nonempty _ _ E)|].
  reflexivity.
Qed.

Lemma split_reasoning (rest : string) :
  Py.split ":" ("REASONING:" +:+ rest) = "REASONING" :: Py.split ":" rest.
Proof.
  simpl. destruct (Py.split ":" rest) eqn:E; [destruct (split_nonempty _ _ E)|].
  reflexivity.
Qed.

(** [':'.join(line.split(':')[1:])] is what follows the marker. *)
Lemma text_after_reasoning_marker (rest : string) :
  Py.join ":" (tl (Py.split ":" ("REASONING:" +:+ rest))) = rest.
Proof. rewrite split_reasoning. simpl. apply (join_split ":"). Qed.

Lemma parse_line_total (st : ParseState) (line : string) :
  exists st', parse_line st line = Ok st'.
Proof.
  unfold parse_line.
  destruct (Py.startswith _ "SCORE_A:"); [destruct (score_value _); eauto|].
  destruct (Py.startswith _ "SCORE_B:"); [destruct (score_value _); eauto|].
  destruct (Py.startswith _ "WINNER:") eqn:Hw.
  { apply prefix_append in Hw as [rest ->]. rewrite split_winner.
    destruct (Py.split ":" rest) eqn:E; [destruct (split_nonempty _ _ E)|].
    simpl. eauto. }
  destruct (Py.startswith _ "REASONING:"); [eauto|].
  destruct (in_reasoning st); eauto.
Qed.

Lemma parse_lines_total (lines : list string) (st : ParseState) :
  exists st', parse_lines st lines = Ok st'.
Proof.
  revert st. induction lines as [|line rest IH]; intros st; simpl; [eauto|].
  destruct (parse_line_total st line) as [st' ->]. simpl. apply IH.
Qed.

Lemma score_value_fails (line : string) :
  fails_numeric_parsing line -> exists e, score_value line = Raised e.
Proof.
  intros H. unfold score_value, Py.index.
  destruct (nth_error _ 1) as [field|] eqn:E; simpl; [|eauto].
  unfold Py.float. rewrite (H field E). eauto.
Qed.

Lemma starts_score_b_not_a (line : string) :
  Py.startswith line "SCORE_B:" = true -> Py.startswith line "SCORE_A:" = false.
Proof. intros H. apply prefix_append in H as [rest ->]. reflexivity. Qed.

(** A score line whose value does not parse changes nothing. *)
Lemma parse_line_bad_score (st : ParseState) (line : string) :
  (Py.startswith (Py.strip line) "SCORE_A:" = true
   \/ Py.startswith (Py.strip line) "SCORE_B:" = true) ->
  fails_numeric_parsing (Py.strip line) ->
  parse_line st line = Ok st.
Proof.
  intros Hstart Hfail. unfold parse_line.
  destruct (score_value_fails _ Hfail) as [e He].
  destruct Hstart as [Ha|Hb].
  - rewrite Ha, He. reflexivity.
  - rewrite (starts_score_b_not_a _ Hb), Hb, He. reflexivity.
Qed.

Lemma parse_line_keeps_score_a (st st' : ParseState) (line : string) :
  (Py.startswith (Py.strip line) "SCORE_A:" = true ->
   fails_numeric_parsing (Py.strip line)) ->
  parse_line st line = Ok st' ->
  score_a (result st') = score_a (result st).
Proof.
  intros Hfail. unfold parse_line.
  destruct (Py.startswith _ "SCORE_A:").
  { destruct (score_value_fails _ (Hfail eq_refl)) as [e ->]. congruence. }
  destruct (Py.startswith _ "SCORE_B:");
    [destruct (score_value _); intros [= <-]; reflexivity|].
  destruct (Py.startswith _ "WINNER:").
  { destruct (Py.index _ 1); simpl; [intros [= <-]; reflexivity | discriminate]. }
  destruct (Py.startswith _ "REASONING:"); [intros [= <-]; reflexivity|].
  destruct (in_reasoning st); intros [= <-]; reflexivity.
Qed.

Lemma parse_line_keeps_score_b (st st' : ParseState) (line : string) :
  (Py.startswith (Py.strip line) "SCORE_B:" = true ->
   fails_numeric_parsing (Py.strip line)) ->
  parse_line st line = Ok st' ->
  score_b (result st') = score_b (result st).
Proof.
  intros Hfail. unfold parse_line.
  destruct (Py.startswith _ "SCORE_A:");
    [destruct (score_value _); intros [= <-]; reflexivity|].
  destruct (Py.startswith _ "SCORE_B:").
  { destruct (score_value_fails _ (Hfail eq_refl)) as [e ->]. congruence. }
  destruct (Py.startswith _ "WINNER:").
  { destruct (Py.index _ 1); simpl; [intros [= <-]; reflexivity | discriminate]. }
  destruct (Py.startswith _ "REASONING:"); [intros [= <-]; reflexivity|].
  destruct (in_reasoning st); intros [= <-]; reflexivity.
Qed.

Lemma parse_lines_keeps (proj : JudgeResult -> option Py.pyfloat)
    (P : string -> Prop) (lines : list string) :
  (forall st st' line, P line -> parse_line st line = Ok st' ->
                       proj (result st') = proj (result st)) ->
  (forall line, In line lines -> P line) ->
  forall st st', parse_lines st lines = Ok st' -> proj (result st') = proj (result st).
Proof.
  intros Hstep. induction lines as [|line rest IH]; intros HP st st'; simpl.
  - intros [= <-]. reflexivity.
  - destruct (parse_line st line) as [st1|] eqn:E; simpl; [|discriminate].
    intros H. rewrite (IH (fun l Hl => HP l (or_intror Hl)) _ _ H).
    apply (Hstep _ _ line); [apply HP; left; reflexivity | exact E].
Qed.

Lemma parse_line_no_marker (st : ParseState) (line : string) :
  in_reasoning st = false ->
  (forall m, In m markers -> Py.startswith (Py.strip line) m = false) ->
  parse_line st line = Ok st.
Proof.
  intros Hin Hm. unfold parse_line.
  rewrite !Hm, Hin by (simpl; tauto). reflexivity.
Qed.

Lemma parse_lines_no_marker (lines : list string) (st : ParseState) :
  in_reasoning st = false ->
  (forall line m, In line lines -> In m markers ->
                  Py.startswith (Py.strip line) m = false) ->
  parse_lines st lines = Ok st.
Proof.
  intros Hin. induction lines as [|line rest IH]; intros Hm; simpl; [reflexivity|].
  rewrite parse_line_no_marker.
  - simpl. apply IH. intros l m Hl. apply Hm. right. exact Hl.
  - exact Hin.
  - intros m. apply Hm. left. reflexivity.
Qed.

(** C5: the parser returns a result for every input; a score line whose
    value is not a number leaves the state of the parse as it was, so a
    reply whose SCORE_A (SCORE_B) lines all carry such a value has a null
    [score_a] ([score_b]); and a reply in which none of the four markers
    occurs yields four null fields. *)
Theorem parse_judge_response_tolerant (response : string) :
  let lines := Py.split "010" (Py.strip response) in
  exists r, parse_judge_response response = Ok r /\
    (forall st line,
       Py.startswith (Py.strip line) "SCORE_A:" = true
       \/ Py.startswith (Py.strip line) "SCORE_B:" = true ->
       fails_numeric_parsing (Py.strip line) -> parse_line st line = Ok st) /\
    ((forall line, In line lines -> Py.startswith (Py.strip line) "SCORE_A:" = true ->
                   fails_numeric_parsing (Py.strip line)) -> score_a r = None) /\
    ((forall line, In line lines -> Py.startswith (Py.strip line) "SCORE_B:" = true ->
                   fails_numeric_parsing (Py.strip line)) -> score_b r = None) /\
    ((forall m, In m markers -> Py.contains m response = false) -> r = null_result).
Proof.
  intros lines. unfold parse_judge_response. fold lines.
  destruct (parse_lines_total lines parse_init) as [st Hst]. rewrite Hst. simpl.
  eexists. split; [reflexivity|]. split; [|split; [|split]].
  - intros st0 line. apply parse_line_bad_score.
  - intros H. simpl.
    apply (parse_lines_keeps score_a _ lines
             (fun st0 st1 line => parse_line_keeps_score_a st0 st1 line)
             (fun line Hl => H line Hl) _ _ Hst).
  - intros H. simpl.
    apply (parse_lines_keeps score_b _ lines
             (fun st0 st1 line => parse_line_keeps_score_b st0 st1 line)
             (fun line Hl => H line Hl) _ _ Hst).
  - intros H. rewrite parse_lines_no_marker in Hst.
    + injection Hst as <-. reflexivity.
    + reflexivity.
    + intros line m Hl Hm. destruct (Py.startswith (Py.strip line) m) eqn:E; [|reflexivity].
      specialize (H m Hm).
      rewrite (marker_line_occurs m response line Hl E) in H. discriminate.
Qed.

Lemma parse_judge_response_tolerant_witness :
  (exists r, parse_judge_response judge_reply_words = Ok r
             /\ score_a r = None /\ score_b r = None)
  /\ parse_judge_response judge_reply_prose = Ok null_result.
Proof.
  split.
  - destruct (parse_judge_response_tolerant judge_reply_words)
      as (r & Hr & _ & Ha & Hb & _).
    exists r. split; [exact Hr|]. split.
    + apply Ha. intros line Hin Hstart field Hfield.
      vm_compute in Hin. destruct Hin as [<-|[<-|[<-|[]]]];
        vm_compute in Hstart; try discriminate.
      vm_compute in Hfield. injection Hfield as <-. vm_compute. reflexivity.
    + apply Hb. intros line Hin Hstart field Hfield.
      vm_compute in Hin. destruct Hin as [<-|[<-|[<-|[]]]];
        vm_compute in Hstart; try discriminate.
      vm_compute in Hfield. injection Hfield as <-. vm_compute. reflexivity.
  - destruct (parse_judge_response_tolerant judge_reply_prose)
      as (r & Hr & _ & _ & _ & Hnull).
    rewrite Hr. f_equal. apply Hnull. intros m Hm.
    destruct Hm as [<-|[<-|[<-|[<-|[]]]]]; vm_compute; reflexivity.
Defined.

Lemma parse_line_in_reasoning (st : ParseState) (line : string) :
  in_reasoning st = true ->
  exists st', parse_line st line = Ok st' /\ in_reasoning st' = true /\
    reasoning_lines st' = reasoning_lines st ++ reasoning_contribution (Py.strip line).
Proof.
  intros Hin. destruct (parse_line_total st line) as [st' Hst']. exists st'.
  split; [exact Hst'|]. revert Hst'. unfold parse_line, reasoning_contribution.
  destruct (Py.startswith _ "SCORE_A:"); simpl.
  { destruct (score_value _); intros [= <-]; simpl; rewrite app_nil_r; auto. }
  destruct (Py.startswith _ "SCORE_B:"); simpl.
  { destruct (score_value _); intros [= <-]; simpl; rewrite app_nil_r; auto. }
  destruct (Py.startswith _ "WINNER:"); simpl.
  { destruct (Py.index _ 1); simpl; [|discriminate].
    intros [= <-]; simpl; rewrite app_nil_r; auto. }
  destruct (Py.startswith _ "REASONING:").
  { intros [= <-]; simpl. split; [reflexivity|].
    unfold nonempty, reasoning_text.
    destruct (String.eqb _ ""); [rewrite app_nil_r|]; reflexivity. }
  rewrite Hin. intros [= <-]. simpl. auto.
Qed.

Lemma parse_lines_in_reasoning (lines : list string) (st : ParseState) :
  in_reasoning st = true ->
  exists st', parse_lines st lines = Ok st' /\
    reasoning_lines st' =
    reasoning_lines st ++ flat_map reasoning_contribution (map Py.strip lines).
Proof.
  revert st. induction lines as [|line rest IH]; intros st Hin; simpl.
  - exists st. rewrite app_nil_r. auto.
  - destruct (parse_line_in_reasoning st line Hin) as (st1 & -> & Hin1 & Hl1). simpl.
    destruct (IH st1 Hin1) as (st' & -> & Hl'). exists st'. split; [reflexivity|].
    rewrite Hl', Hl1, <- app_assoc. reflexivity.
Qed.

Lemma parse_line_before_reasoning (st : ParseState) (line : string) :
  in_reasoning st = false ->
  Py.startswith (Py.strip line) "REASONING:" = false ->
  exists st', parse_line st line = Ok st' /\ in_reasoning st' = false /\
    reasoning_lines st' = reasoning_lines st.
Proof.
  intros Hin Hr. destruct (parse_line_total st line) as [st' Hst']. exists st'.
  split; [exact Hst'|]. revert Hst'. unfold parse_line.
  destruct (Py.startswith _ "SCORE_A:").
  { destruct (score_value _); intros [= <-]; simpl; auto. }
  destruct (Py.startswith _ "SCORE_B:").
  { destruct (score_value _); intros [= <-]; simpl; auto. }
  destruct (Py.startswith _ "WINNER:").
  { destruct (Py.index _ 1); simpl; [|discriminate]. intros [= <-]; simpl; auto. }
  rewrite Hr, Hin. intros [= <-]. auto.
Qed.

Lemma parse_lines_before_reasoning (lines : list string) (st : ParseState) :
  in_reasoning st = false ->
  Forall (fun l => Py.startswith (Py.strip l) "REASONING:" = false) lines ->
  exists st', parse_lines st lines = Ok st' /\ in_reasoning st' = false /\
    reasoning_lines st' = reasoning_lines st.
Proof.
  revert st. induction lines as [|line rest IH]; intros st Hin Hall; simpl.
  - exists st. auto.
  - inversion Hall as [|? ? Hline Hrest]; subst.
    destruct (parse_line_before_reasoning st line Hin Hline) as (st1 & -> & Hin1 & Hl1).
    simpl. destruct (IH st1 Hin1 Hrest) as (st' & -> & Hin' & Hl').
    exists st'. repeat split; congruence.
Qed.

Lemma parse_lines_app (l1 l2 : list string) (st : ParseState) :
  parse_lines st (l1 ++ l2) = let! st' := parse_lines st l1 in parse_lines st' l2.
Proof.
  revert st. induction l1 as [|line rest IH]; intros st; simpl; [reflexivity|].
  destruct (parse_line st line); simpl; [apply IH | reflexivity].
Qed.

Lemma contribution_without_marker (lines : list string) :
  Forall (fun l => forall m, In m markers -> Py.startswith (Py.strip l) m = false) lines ->
  flat_map reasoning_contribution (map Py.strip lines) = map Py.strip lines.
Proof.
  induction 1 as [|line rest Hline _ IH]; simpl; [reflexivity|].
  unfold reasoning_contribution at 1.
  rewrite !Hline by (simpl; tauto). simpl. rewrite IH. reflexivity.
Qed.

(** C7, as stated, fails: the lines that follow the reasoning are left out
    of it when they start with a marker. *)
Lemma reasoning_stops_at_markers :
  exists r, parse_judge_response judge_reply_reasoning_first = Ok r /\
    reasoning r = Some "A is more complete." /\
    reasoning_as_specified judge_reply_reasoning_first
    = Some "A is more complete. SCORE_A: 9 SCORE_B: 4 WINNER: A" /\
    reasoning r <> reasoning_as_specified judge_reply_reasoning_first /\
    Py.contains "WINNER: A" (default "" (reasoning r)) = false.
Proof.
  eexists. split; [vm_compute; reflexivity|]. simpl.
  repeat split; try (vm_compute; reflexivity). vm_compute. discriminate.
Qed.

(** C7 (amended): when a line of the reply starts with REASONING:, the
    reasoning returned is made of the text after the first such marker (when
    not blank) and of every later line that does not start with SCORE_A:,
    SCORE_B: or WINNER:, each stripped, a later REASONING: line giving the
    text after its marker, all joined by single spaces; it is null when
    nothing was collected. In particular, when no later line starts with a
    marker, every later line up to the end of the reply is part of it. *)
Theorem reasoning_collected
    (response : string) (pre post : list string) (line rest : string) :
  Py.split "010" (Py.strip response) = pre ++ line :: post ->
  Forall (fun l => Py.startswith (Py.strip l) "REASONING:" = false) pre ->
  Py.strip line = "REASONING:" +:+ rest ->
  let parts :=
    nonempty (Py.strip rest) ++ flat_map reasoning_contribution (map Py.strip post) in
  exists r, parse_judge_response response = Ok r /\
    reasoning r = match parts with
                  | [] => None
                  | _ => Some (Py.join " " parts)
                  end /\
    (Forall (fun l => forall m, In m markers -> Py.startswith (Py.strip l) m = false) post ->
     parts = nonempty (Py.strip rest) ++ map Py.strip post).
Proof.
  intros Hsplit Hpre Hline parts. unfold parse_judge_response. rewrite Hsplit.
  rewrite parse_lines_app.
  destruct (parse_lines_before_reasoning pre parse_init eq_refl Hpre)
    as (st0 & -> & Hin0 & Hl0). simpl.
  assert (exists st1, parse_line st0 line = Ok st1 /\ in_reasoning st1 = true /\
            reasoning_lines st1 = nonempty (Py.strip rest)) as (st1 & -> & Hin1 & Hl1).
  { unfold parse_line. rewrite Hline.
    change (Py.startswith ("REASONING:" +:+ rest) "SCORE_A:") with false.
    change (Py.startswith ("REASONING:" +:+ rest) "SCORE_B:") with false.
    change (Py.startswith ("REASONING:" +:+ rest) "WINNER:") with false.
    unfold Py.startswith. rewrite prefix_of_append.
    rewrite text_after_reasoning_marker, Hl0. eexists. split; [reflexivity|].
    simpl. split; [reflexivity|]. unfold nonempty.
    destruct (String.eqb _ ""); reflexivity. }
  simpl. destruct (parse_lines_in_reasoning post st1 Hin1) as (st2 & -> & Hl2). simpl.
  eexists. split; [reflexivity|]. simpl. rewrite Hl2, Hl1. fold parts.
  split; [destruct parts; reflexivity|].
  intros Hpost. unfold parts. rewrite contribution_without_marker by exact Hpost.
  reflexivity.
Qed.

Lemma reasoning_collected_witness :
  exists r, parse_judge_response judge_reply_long_reasoning = Ok r /\
    reasoning r = Some "B is concise. It also covers every point. A repeats itself.".
Proof.
  destruct (reasoning_collected judge_reply_long_reasoning
              ["WINNER: B"] ["  It also covers every point."; "A repeats itself."]
              "REASONING: B is concise." " B is concise.")
    as (r & Hr & Hreasoning & _).
  - vm_compute. reflexivity.
  - repeat constructor.
  - vm_compute. reflexivity.
  - exists r. split; [exact Hr|]. rewrite Hreasoning. vm_compute. reflexivity.
Defined.

(** ** The benchmark orchestrator *)

Lemma run_bind {A B} (env : Env) (hist : list Obs) (m : M A) (k : A -> M B) (c : Cache) :
  run env hist (bind m k c) =
  let '(oc, t1) := run env hist (m c) in
  match oc.1 with
  | Ok a => let '(r, t2) := run env (hist ++ t1) (k a oc.2) in (r, t1 ++ t2)
  | Raised e => ((Raised e, oc.2), t1)
  end.
Proof.
  unfold bind. rewrite run_pbind.
  destruct (run env hist (m c)) as [[[a|e] c'] t1]; simpl.
  - destruct (run env (hist ++ t1) (k a c')); reflexivity.
  - rewrite app_nil_r. reflexivity.
Qed.

Lemma run_try_except {A} (env : Env) (hist : list Obs) (m : M A) (h : exn -> M A)
    (c : Cache) :
  run env hist (try_except m h c) =
  let '(oc, t1) := run env hist (m c) in
  match oc.1 with
  | Ok a => ((Ok a, oc.2), t1)
  | Raised e => let '(r, t2) := run env (hist ++ t1) (h e oc.2) in (r, t1 ++ t2)
  end.
Proof.
  unfold try_except. rewrite run_pbind.
  destruct (run env hist (m c)) as [[[a|e] c'] t1]; simpl.
  - rewrite app_nil_r. reflexivity.
  - destruct (run env (hist ++ t1) (h e c')); reflexivity.
Qed.

Lemma generate_shape s prompt model sp mt temp :
  returns gen_shape_weak (generate s prompt model sp mt temp).
Proof.
  intros c. unfold generate.
  assert (forall m, Always (fun oc => exists a, oc.1 = Ok a /\ gen_shape_weak a)
                      (generate_with_ollama s prompt m sp mt temp c)) as Hollama.
  { intros m. eapply Always_mono; [|apply ollama_shape].
    intros oc (a & Ha & Hf & Ht & Hboth & _). exists a. split; [exact Ha|].
    split; [exact Hf|]. split; [|exact Hboth]. intros H. apply Ht, H. }
  destruct (LLM_MODELS !! model) as [model_config|]; [|apply Hollama].
  destruct (String.eqb _ "openai"); [apply openai_shape|].
  destruct (String.eqb _ "gemini"); [apply gemini_shape|].
  destruct (String.eqb _ "ollama"); [apply Hollama|].
  simpl; shape_done.
Qed.

Lemma contains_suffix (pre detail : string) :
  Py.contains detail (pre +:+ detail) = true.
Proof. apply contains_sub_of. exists pre, "". rewrite append_empty_r. reflexivity. Qed.

Lemma judge_and_report_failure s env hist judge_prompt judge_model text_a text_b c
    tj uj ej c' t :
  run env hist
    (generate s judge_prompt judge_model (Some JUDGE_SYSTEM_PROMPT)
       default_max_tokens default_temperature c) = (Ok (false, tj, uj, ej), c', t) ->
  run env hist (judge_and_report s judge_prompt judge_model text_a text_b c)
  = (Ok (true,
         Some {| output_a := text_a; output_b := text_b;
                 bench_score_a := None; bench_score_b := None;
                 judge_reasoning := Some ("Judge failed: " +:+ str_opt ej) |},
         None), c', t)
  /\ exists detail, ej = Some detail
       /\ Py.contains detail ("Judge failed: " +:+ str_opt ej) = true.
Proof.
  intros Hj. split.
  - unfold judge_and_report. rewrite run_bind, Hj. simpl. rewrite app_nil_r. reflexivity.
  - destruct (returns_run _ _ (generate_shape s judge_prompt judge_model
                (Some JUDGE_SYSTEM_PROMPT) default_max_tokens default_temperature)
                c env hist) as (a & c1 & t1 & Hrun & Hfalse & _).
    rewrite Hj in Hrun. injection Hrun as <- _ _.
    destruct (Hfalse eq_refl) as [_ Herr]. unfold gen_error in Herr. simpl in Herr.
    destruct ej as [detail|]; [|congruence].
    exists detail. split; [reflexivity|]. apply contains_suffix.
Qed.

Lemma bind_subscript_to {B} (n : nat) (text : string) (k : string -> M B) (c : Cache) :
  bind (subscript_to n (Some text)) k c = k (Py.slice_to n text) c.
Proof. reflexivity. Qed.

(** C4: when model A and model B both answer with a text and the judge
    call fails, either benchmark returns [(True, results, None)] where the
    results hold both texts, null scores and the reasoning
    ["Judge failed: " ++ error], the error being the judge call's own. *)
Theorem benchmark_survives_judge_failure (s : Settings) (env : Env) (hist : list Obs)
    (c c1 c2 c3 : Cache) (t1 t2 t3 : list Obs)
    (model_a model_b judge_model text_a text_b : string)
    (tj : option string) (uj : option Usage) (ej : option string) :
  (forall audio_path language ea eb,
     run env hist (transcribe s audio_path model_a language c)
     = (Ok (true, Some text_a, ea), c1, t1) ->
     run env (hist ++ t1) (transcribe s audio_path model_b language c1)
     = (Ok (true, Some text_b, eb), c2, t2) ->
     run env (hist ++ t1 ++ t2)
       (generate s
          (TRANSCRIPTION_JUDGE_PROMPT model_a model_b
             (Py.slice_to 3000 text_a) (Py.slice_to 3000 text_b))
          judge_model (Some JUDGE_SYSTEM_PROMPT)
          default_max_tokens default_temperature c2)
     = (Ok (false, tj, uj, ej), c3, t3) ->
     run env hist
       (run_transcription_benchmark s audio_path model_a model_b language judge_model c)
     = (Ok (true,
            Some {| output_a := Some text_a; output_b := Some text_b;
                    bench_score_a := None; bench_score_b := None;
                    judge_reasoning := Some ("Judge failed: " +:+ str_opt ej) |},
            None), c3, t1 ++ t2 ++ t3)
     /\ exists detail, ej = Some detail
          /\ Py.contains detail ("Judge failed: " +:+ str_opt ej) = true) /\
  (forall transcription prompt_type ua ub ea eb,
     let prompts := build_prompt prompt_type transcription None None None in
     run env hist
       (generate s prompts.2 model_a (Some prompts.1)
          default_max_tokens default_temperature c)
     = (Ok (true, Some text_a, ua, ea), c1, t1) ->
     run env (hist ++ t1)
       (generate s prompts.2 model_b (Some prompts.1)
          default_max_tokens default_temperature c1)
     = (Ok (true, Some text_b, ub, eb), c2, t2) ->
     run env (hist ++ t1 ++ t2)
       (generate s
          (LLM_JUDGE_PROMPT prompt_type model_a model_b
             (Py.slice_to 3000 text_a) (Py.slice_to 3000 text_b))
          judge_model (Some JUDGE_SYSTEM_PROMPT)
          default_max_tokens default_temperature c2)
     = (Ok (false, tj, uj, ej), c3, t3) ->
     run env hist
       (run_llm_benchmark s transcription prompt_type model_a model_b judge_model c)
     = (Ok (true,
            Some {| output_a := Some text_a; output_b := Some text_b;
                    bench_score_a := None; bench_score_b := None;
                    judge_reasoning := Some ("Judge failed: " +:+ str_opt ej) |},
            None), c3, t1 ++ t2 ++ t3)
     /\ exists detail, ej = Some detail
          /\ Py.contains detail ("Judge failed: " +:+ str_opt ej) = true).
Proof.
  split.
  - intros audio_path language ea eb Ha Hb Hj.
    rewrite app_assoc in Hj.
    destruct (judge_and_report_failure s env _ _ judge_model (Some text_a) (Some text_b)
                _ _ _ _ _ _ Hj) as [Hrun Hdetail].
    split; [|exact Hdetail].
    unfold run_transcription_benchmark.
    rewrite run_try_except, run_bind, Ha. cbn [fst snd].
    rewrite run_bind, Hb. cbn [fst snd tr_success tr_text negb].
    rewrite bind_subscript_to. cbv beta. rewrite bind_subscript_to. cbv beta.
    rewrite Hrun. reflexivity.
  - intros transcription prompt_type ua ub ea eb prompts Ha Hb Hj.
    rewrite app_assoc in Hj.
    destruct (judge_and_report_failure s env _ _ judge_model (Some text_a) (Some text_b)
                _ _ _ _ _ _ Hj) as [Hrun Hdetail].
    split; [|exact Hdetail].
    unfold run_llm_benchmark. fold prompts.
    destruct prompts as [system_prompt user_prompt] eqn:Hp. cbn [fst snd] in Ha, Hb.
    rewrite run_try_except, run_bind, Ha. cbn [fst snd].
    rewrite run_bind, Hb. cbn [fst snd gen_success gen_text negb].
    rewrite bind_subscript_to. cbv beta. rewrite bind_subscript_to. cbv beta.
    rewrite Hrun. reflexivity.
Qed.

Lemma benchmark_survives_judge_failure_witness :
  (run env_bench []
     (run_transcription_benchmark settings_example "/data/standup.mp3"
        "whisper-api" "whisper-tiny" "en" "gemini-pro" empty_cache)).1.1
  = Ok (judge_failure_results "Good morning everyone." "Good morning every one.")
  /\
  (run env_bench []
     (run_llm_benchmark settings_example "Good morning everyone." "summary"
        "gpt-4" "gpt-3.5-turbo" "gemini-pro" empty_cache)).1.1
  = Ok (judge_failure_results "Summary by gpt-4" "Summary by gpt-3.5-turbo").
Proof.
  split.
  - destruct (benchmark_survives_judge_failure settings_example env_bench []
                empty_cache empty_cache
                {| _model := Some 1%nat; _model_size := Some "tiny" |}
                {| _model := Some 1%nat; _model_size := Some "tiny" |}
                (run env_bench []
                   (transcribe settings_example "/data/standup.mp3" "whisper-api" "en"
                      empty_cache)).2
                (run env_bench []
                   (transcribe settings_example "/data/standup.mp3" "whisper-tiny" "en"
                      empty_cache)).2
                []
                "whisper-api" "whisper-tiny" "gemini-pro"
                "Good morning everyone." "Good morning every one."
                None None (Some "Google Gemini API key not configured")) as [Htr _].
    destruct (Htr "/data/standup.mp3" "en" None None) as [Hrun _];
      [vm_compute; reflexivity ..|].
    rewrite Hrun. reflexivity.
  - destruct (benchmark_survives_judge_failure settings_example env_bench []
                empty_cache empty_cache empty_cache empty_cache
                (run env_bench []
                   (generate settings_example bench_prompts.2 "gpt-4"
                      (Some bench_prompts.1) default_max_tokens
                      default_temperature empty_cache)).2
                (run env_bench []
                   (generate settings_example bench_prompts.2 "gpt-3.5-turbo"
                      (Some bench_prompts.1) default_max_tokens
                      default_temperature empty_cache)).2
                []
                "gpt-4" "gpt-3.5-turbo" "gemini-pro"
                "Summary by gpt-4" "Summary by gpt-3.5-turbo"
                None None (Some "Google Gemini API key not configured")) as [_ Hllm].
    destruct (Hllm "Good morning everyone." "summary"
                (Some {| input_tokens := Some 120; output_tokens := Some 40 |})
                (Some {| input_tokens := Some 120; output_tokens := Some 40 |})
                None None) as [Hrun _];
      [vm_compute; reflexivity ..|].
    rewrite Hrun. reflexivity.
Defined.

(** A success without a text (the OpenAI completion without choices above)
    is outside the reading of C4: slicing the missing text raises, and the
    benchmark's own [except] clause turns that into a failed comparison. *)
Example llm_benchmark_without_text :
  (run env_openai_no_choices []
     (run_llm_benchmark settings_example "Good morning everyone." "summary"
        "gpt-4" "gpt-3.5-turbo" "gemini-pro" empty_cache)).1.1
  = Ok (false, None, Some "'NoneType' object is not subscriptable").
Proof. vm_compute. reflexivity. Qed.

(** ** The local Whisper model and its cache *)

#[local] Arguments isinstance : simpl never.
#[local] Arguments is_gpu_error : simpl never.
#[local] Arguments cache_miss : simpl never.







Lemma cache_miss_false (c : Cache) (model_size : string) :
  cache_miss c model_size = false <->
  exists m, _model c = Some m /\ _model_size c = Some model_size.
Proof.
  unfold cache_miss. rewrite orb_false_iff, negb_false_iff.
  rewrite bool_decide_eq_false, bool_decide_eq_true. split.
  - intros [Hm Hs]. destruct (_model c) as [m|]; [eauto | congruence].
  - intros (m & -> & ->). split; [discriminate | reflexivity].
Qed.

Lemma load_hit (s : Settings) (model_size : string) (c : Cache) (m : Model) :
  _model c = Some m -> _model_size c = Some model_size ->
  load_whisper_model s (Some model_size) c = Ret (Ok (Some m), c).
Proof.
  intros Hm Hs. unfold load_whisper_model. unfold_monad. simpl.
  rewrite (proj2 (cache_miss_false c model_size)) by eauto.
  simpl. rewrite Hm. reflexivity.
Qed.

Lemma load_miss_shape (s : Settings) (model_size : string) (c : Cache) :
  cache_miss c model_size = true ->
  AlwaysT (fun (oc : Outcome (option Model) * Cache) t =>
    match oc.1 with
    | Ok r =>
        exists m device,
          r = Some m /\
          oc.2 = {| _model := Some m; _model_size := Some model_size |} /\
          last (load_attempts t) = Some (model_size, device, Ok m)
    | Raised _ => oc.2 = c
    end)
    (load_whisper_model s (Some model_size) c).
Proof.
  intros Hmiss. unfold load_whisper_model. unfold_monad. simpl. rewrite Hmiss.
  world_cases; try reflexivity; do 2 eexists; repeat split; reflexivity.
Qed.

(** The remote server's cache is the one keyed by size and device: a
    request for a pair it holds is served from it, and no request removes
    or replaces an entry. *)
Lemma server_cache_hit (model_size device : string) (cache : gmap string Model)
    (m : Model) :
  cache !! (model_size +:+ "_" +:+ device) = Some m ->
  load_model model_size device cache = Ret (Ok m, cache).
Proof. intros H. unfold load_model. rewrite H. reflexivity. Qed.

Lemma server_cache_keeps (model_size device key : string) (cache : gmap string Model)
    (m : Model) :
  cache !! key = Some m ->
  Always (fun oc => oc.2 !! key = Some m) (load_model model_size device cache).
Proof.
  intros Hkey. unfold load_model.
  destruct (cache !! (model_size +:+ "_" +:+ device)) eqn:Hmiss; [exact Hkey|].
  assert (model_size +:+ "_" +:+ device <> key) as Hne.
  { intros <-. rewrite Hmiss in Hkey. discriminate. }
  world_cases; try exact Hkey; rewrite lookup_insert_ne by exact Hne; exact Hkey.
Qed.

(** C9, as stated, fails: the cache holds one model. A request for another
    size replaces the entry, so the third request below loads base again;
    and an entry loaded on the CPU is handed out when CUDA is configured. *)
Lemma cache_entry_replaced :
  let out := run env_whisper [] (load_base_small_base settings_example empty_cache) in
  load_attempts out.2
  = [("base", "cpu", Ok 4%nat); ("small", "cpu", Ok 5%nat); ("base", "cpu", Ok 4%nat)]
  /\ (run env_whisper []
        (bind (load_whisper_model settings_example (Some "base"))
              (fun _ => load_whisper_model settings_example (Some "small"))
              empty_cache)).1.2
     = {| _model := Some 5%nat; _model_size := Some "small" |}
  /\ run env_whisper []
       (load_whisper_model settings_cuda (Some "base")
          {| _model := Some 4%nat; _model_size := Some "base" |})
     = (Ok (Some 4%nat), {| _model := Some 4%nat; _model_size := Some "base" |}, []).
Proof. repeat split; vm_compute; reflexivity. Qed.

(** C9 (amended): the cache is one slot keyed by the model size alone.
    - A request for the size the slot holds returns the cached model
      without any event and leaves the cache as it is, whatever the
      settings, so whatever the configured device.
    - Any other request is a miss; if it ends normally the slot holds the
      model of the last load, under the requested size, in place of what it
      held; if it raises, the cache is left as it was. *)
Theorem model_cache_single_slot (s : Settings) (model_size : string) (c : Cache) :
  (forall m, _model c = Some m -> _model_size c = Some model_size ->
     forall s' env hist,
       run env hist (load_whisper_model s' (Some model_size) c)
       = (Ok (Some m), c, [])) /\
  (cache_miss c model_size = false <->
   exists m, _model c = Some m /\ _model_size c = Some model_size) /\
  (cache_miss c model_size = true ->
   forall env hist out c' t,
     run env hist (load_whisper_model s (Some model_size) c) = (out, c', t) ->
     match out with
     | Ok r =>
         exists m device,
           r = Some m /\
           c' = {| _model := Some m; _model_size := Some model_size |} /\
           last (load_attempts t) = Some (model_size, device, Ok m)
     | Raised _ => c' = c
     end).
Proof.
  split; [|split].
  - intros m Hm Hs s' env hist. rewrite (load_hit s' model_size c m Hm Hs). reflexivity.
  - apply cache_miss_false.
  - intros Hmiss env hist out c' t Hrun.
    pose proof (AlwaysT_run _ _ (load_miss_shape s model_size c Hmiss) env hist) as H.
    rewrite Hrun in H. exact H.
Qed.

Lemma model_cache_single_slot_witness :
  run env_whisper []
    (load_whisper_model settings_cuda (Some "base")
       {| _model := Some 4%nat; _model_size := Some "base" |})
  = (Ok (Some 4%nat), {| _model := Some 4%nat; _model_size := Some "base" |}, [])
  /\ exists m device,
       (run env_whisper []
          (load_whisper_model settings_example (Some "small")
             {| _model := Some 4%nat; _model_size := Some "base" |})).1.2
       = {| _model := Some m; _model_size := Some "small" |}
       /\ last (load_attempts
                  (run env_whisper []
                     (load_whisper_model settings_example (Some "small")
                        {| _model := Some 4%nat; _model_size := Some "base" |})).2)
          = Some ("small", device, Ok m).
Proof.
  split.
  - apply (model_cache_single_slot settings_cuda "base"
             {| _model := Some 4%nat; _model_size := Some "base" |}); reflexivity.
  - destruct (model_cache_single_slot settings_example "small"
                {| _model := Some 4%nat; _model_size := Some "base" |}) as (_ & _ & Hmiss).
    specialize (Hmiss eq_refl env_whisper [] _ _ _ eq_refl).
    destruct Hmiss as (m & device & _ & Hc & Hl). exists m, device. split; assumption.
Defined.

(** ** The models of [float] and of [Path.suffix] on examples *)

Example float_decimal : Py.float_of_string "7.25" = Some (Py.PFinite (29 # 4)).
Proof. vm_compute. reflexivity. Qed.
Example float_exponent_underscore :
  Py.float_of_string " -1_0.50e1 " = Some (Py.PFinite (-105)).
Proof. vm_compute. reflexivity. Qed.
Example float_trailing_point : Py.float_of_string "1." = Some (Py.PFinite 1).
Proof. vm_compute. reflexivity. Qed.
Example float_infinity : Py.float_of_string "-Infinity" = Some (Py.PInf true).
Proof. vm_compute. reflexivity. Qed.
Example float_fraction_rejected : Py.float_of_string "8/10" = None.
Proof. vm_compute. reflexivity. Qed.
Example float_point_rejected : Py.float_of_string "." = None.
Proof. vm_compute. reflexivity. Qed.
Example float_double_underscore_rejected : Py.float_of_string "1__0" = None.
Proof. vm_compute. reflexivity. Qed.
Example float_open_exponent_rejected : Py.float_of_string "1e" = None.
Proof. vm_compute. reflexivity. Qed.
Example suffix_upper : Pathlib.suffix "/data/audio/Talk.One.MP3" = ".MP3".
Proof. vm_compute. reflexivity. Qed.
Example suffix_hidden_file : Pathlib.suffix "dir/.mp3" = "".
Proof. vm_compute. reflexivity. Qed.
Example replace_placeholder : Py.replace "{t}" "XY" "a{t}b{t}{t" = "aXYbXY{t".
Proof. vm_compute. reflexivity. Qed.

(** * Further properties of the service layer *)

(** ** Dispatch *)

Lemma LLM_MODELS_entry (model : string) (cfg : LLMModelConfig) :
  LLM_MODELS !! model = Some cfg ->
  llm_model cfg = model /\
  (llm_backend cfg = "openai" \/ llm_backend cfg = "gemini" \/ llm_backend cfg = "ollama").
Proof.
  intros H. apply elem_of_list_to_map_2 in H.
  repeat (apply elem_of_cons in H as [H|H]; [injection H as -> ->; simpl; tauto|]).
  apply elem_of_nil in H. destruct H.
Qed.

(** Whatever the identifier, [generate] is one of the three adapters run
    with the identifier itself as model name: the table maps every key to
    itself, and no entry names a backend the dispatcher does not know. *)
Theorem generate_is_an_adapter (s : Settings) (prompt model : string)
    (system_prompt : option string) (max_tokens : Z) (temperature : Py.pyfloat) :
  generate s prompt model system_prompt max_tokens temperature
  = generate_with_openai s prompt model system_prompt max_tokens temperature
  \/ generate s prompt model system_prompt max_tokens temperature
     = generate_with_gemini s prompt model system_prompt max_tokens temperature
  \/ generate s prompt model system_prompt max_tokens temperature
     = generate_with_ollama s prompt model system_prompt max_tokens temperature.
Proof.
  unfold generate. destruct (LLM_MODELS !! model) as [cfg|] eqn:E; [|tauto].
  destruct (LLM_MODELS_entry _ _ E) as [-> [Hb|[Hb|Hb]]]; rewrite Hb; simpl; tauto.
Qed.

Lemma TRANSCRIPTION_MODELS_entry (model : string) (cfg : TranscriptionModelConfig) :
  TRANSCRIPTION_MODELS !! model = Some cfg ->
  tm_backend cfg = "whisper_local" \/ tm_backend cfg = "whisper_remote"
  \/ tm_backend cfg = "whisper_api" \/ tm_backend cfg = "google_stt".
Proof.
  intros H. apply elem_of_list_to_map_2 in H.
  repeat (apply elem_of_cons in H as [H|H]; [injection H as -> ->; simpl; tauto|]).
  apply elem_of_nil in H. destruct H.
Qed.

(** Every model the transcription service advertises is dispatched to the
    adapter its type names: a local model to the local Whisper adapter, a
    cloud model to the Whisper API or Google adapter, and a remote model,
    advertised only when the remote URL is set, to the remote adapter. None
    is answered with "Unknown model", "Unknown backend" or the dispatcher's
    own "Whisper remote URL not configured". *)
Theorem advertised_models_are_dispatched (s : Settings) (m : ModelInfo)
    (audio_path language : string) :
  m ∈ transcription_available_models s ->
  (mi_type m = "local" /\ exists size,
     transcribe s audio_path (mi_id m) language
     = transcribe_with_whisper_local s audio_path (Some size) (Some language)) \/
  (mi_type m = "remote" /\ truthy (whisper_remote_url s) = true /\ exists size,
     transcribe s audio_path (mi_id m) language
     = transcribe_with_whisper_remote s audio_path (Some size) (Some language)) \/
  (mi_type m = "cloud" /\
     (transcribe s audio_path (mi_id m) language
      = transcribe_with_whisper_api s audio_path (Some language)
      \/ transcribe s audio_path (mi_id m) language
         = transcribe_with_google_stt s audio_path (format_language_code language))).
Proof.
  unfold transcription_available_models. intros H.
  destruct (truthy (whisper_remote_url s)) eqn:Hurl;
    repeat (apply elem_of_cons in H as [->|H];
            [unfold transcribe;
             match goal with
             | |- context [TRANSCRIPTION_MODELS !! ?k] =>
                 destruct (TRANSCRIPTION_MODELS !! k) as [cfg|] eqn:E;
                 vm_compute in E; [injection E as <-|discriminate E]
             end; simpl; rewrite ?Hurl; simpl; eauto 8|]);
    apply elem_of_nil in H; destruct H.
Qed.

Lemma advertised_models_are_dispatched_witness :
  exists size,
    transcribe settings_example "/data/a.mp3" "whisper-small" "en"
    = transcribe_with_whisper_local settings_example "/data/a.mp3" (Some size) (Some "en").
Proof.
  destruct (advertised_models_are_dispatched settings_example
              {| mi_id := "whisper-small"; mi_name := "Whisper Small (Local)";
                 mi_type := "local" |} "/data/a.mp3" "en")
    as [[_ H]|[[H _]|[H _]]]; [|exact H|discriminate H..].
  vm_compute. do 2 right. left.
Defined.

(** ** The parallel runner, continued *)

Lemma filter_split_permutation {A} (f : A -> bool) (l : list A) :
  Permutation (List.filter f l ++ List.filter (fun x => negb (f x)) l) l.
Proof.
  induction l as [|x l IH]; simpl; [constructor|].
  destruct (f x); simpl.
  - constructor. exact IH.
  - rewrite <- Permutation_middle. constructor. exact IH.
Qed.

Lemma gather_process_file_shapes s model language (paths : list string) :
  returns (fun results => map job_path results = paths /\ Forall job_shape results)
    (gather (map (process_file s model language) paths)).
Proof.
  induction paths as [|path rest IH]; intros c; simpl.
  - eexists. split; [reflexivity|]. split; [reflexivity | constructor].
  - apply Always_bind. unfold process_file at 1. apply Always_bind.
    eapply Always_mono; [|apply transcribe_shape].
    intros [o c1] (r & Hr & Hshape). simpl in *. subst o. simpl.
    apply Always_bind. eapply Always_mono; [|apply IH].
    intros [o c2] (js & Hjs & Hpaths & Hall). simpl in *. subst o. simpl.
    eexists. split; [reflexivity|]. simpl. split; [congruence|].
    constructor; [exact Hshape | exact Hall].
Qed.

(** The runner gives every input path exactly one result, whatever the
    backends answer: with [prioritize_audio] off the results follow the
    input order, with it on their paths are a permutation of the input; in
    both cases there are as many results as paths and every result has the
    shape of a transcription result (a failed item carries its error and no
    text, a successful one its text and no error). *)
Theorem transcribe_parallel_one_result_per_path
    (s : Settings) (audio_paths : list string) (model language : string) :
  always_returns
    (fun results => map job_path results = audio_paths /\ Forall job_shape results)
    (transcribe_parallel s audio_paths model language false) /\
  always_returns
    (fun results =>
       Permutation (map job_path results) audio_paths /\
       length results = length audio_paths /\ Forall job_shape results)
    (transcribe_parallel s audio_paths model language true).
Proof.
  split; intros c env hist.
  - apply returns_run. unfold transcribe_parallel. apply gather_process_file_shapes.
  - destruct (returns_run _ _
                (gather_process_file_shapes s model language
                   (List.filter is_audio audio_paths
                    ++ List.filter (fun p => negb (is_audio p)) audio_paths))
                c env hist) as (results & c' & t & Hrun & Hpaths & Hall).
    exists results, c', t. unfold transcribe_parallel. rewrite sort_files_filter.
    simpl. split; [exact Hrun|].
    assert (Permutation (map job_path results) audio_paths) as Hperm.
    { rewrite Hpaths. apply filter_split_permutation. }
    split; [exact Hperm|]. split; [|exact Hall].
    rewrite <- (length_map job_path results). apply Permutation_length, Hperm.
Qed.

(** ** The benchmark orchestrator, continued *)

Lemma parse_judge_response_total (response : string) :
  exists r, parse_judge_response response = Ok r.
Proof.
  unfold parse_judge_response.
  destruct (parse_lines_total (Py.split "010" (Py.strip response)) parse_init) as [st ->].
  simpl. eauto.
Qed.

Lemma judge_and_report_shape s judge_prompt judge_model (text_a text_b : string) c :
  Always shape_or_raise
    (judge_and_report s judge_prompt judge_model (Some text_a) (Some text_b) c).
Proof.
  unfold judge_and_report. apply Always_bind.
  eapply Always_mono; [|apply generate_shape].
  intros [o c1] (j & Hj & _). simpl in *. subst o.
  destruct (negb (gen_success j)); [simpl; split; discriminate|].
  apply Always_bind. unfold parse_judge.
  destruct (gen_text j) as [reply|]; simpl; [|exact I].
  destruct (parse_judge_response_total reply) as [r ->]. simpl. split; discriminate.
Qed.

Lemma benchmark_tail_shape s (mk_prompt : string -> string -> string) judge_model
    (text_a text_b : option string) c (n : nat) :
  Always shape_or_raise
    (bind (subscript_to n text_a) (fun out_a =>
       bind (subscript_to n text_b) (fun out_b =>
         judge_and_report s (mk_prompt out_a out_b) judge_model text_a text_b)) c).
Proof.
  destruct text_a as [text_a|]; [|exact I].
  destruct text_b as [text_b|]; [|exact I].
  apply judge_and_report_shape.
Qed.

Lemma except_clause_shape (m : M BenchmarkResult) (c : Cache) :
  Always shape_or_raise (m c) ->
  Always (fun oc => exists r, oc.1 = Ok r /\ benchmark_shape r)
    (try_except m (fun e => ret (false, None, Some (exn_str e))) c).
Proof.
  intros H. apply Always_try_except. eapply Always_mono; [|exact H].
  intros [[r|e] c'] Hr; simpl in *; eauto.
Qed.

(** Neither benchmark ever raises, and what it returns is
    [(True, results, None)] with both outputs present or
    [(False, None, error)], never a success without results or a failure
    without an error. *)
Theorem benchmark_result_shape (s : Settings) :
  (forall audio_path model_a model_b language judge_model,
     always_returns benchmark_shape
       (run_transcription_benchmark s audio_path model_a model_b language judge_model)) /\
  (forall transcript prompt_type model_a model_b judge_model,
     always_returns benchmark_shape
       (run_llm_benchmark s transcript prompt_type model_a model_b judge_model)).
Proof.
  split; intros; intros c env hist; apply returns_run; clear c env hist; intros c.
  - unfold run_transcription_benchmark. apply except_clause_shape.
    apply Always_bind. eapply Always_mono; [|apply transcribe_shape].
    intros [o c1] (a & Ha & _). simpl in *. subst o.
    apply Always_bind. eapply Always_mono; [|apply transcribe_shape].
    intros [o c2] (b & Hb & _). simpl in *. subst o.
    destruct (negb (tr_success a)); [exact I|].
    destruct (negb (tr_success b)); [exact I|].
    apply (benchmark_tail_shape s (TRANSCRIPTION_JUDGE_PROMPT model_a model_b)).
  - unfold run_llm_benchmark. apply except_clause_shape.
    destruct (build_prompt prompt_type transcript None None None)
      as [system_prompt user_prompt].
    apply Always_bind. eapply Always_mono; [|apply generate_shape].
    intros [o c1] (a & Ha & _). simpl in *. subst o.
    apply Always_bind. eapply Always_mono; [|apply generate_shape].
    intros [o c2] (b & Hb & _). simpl in *. subst o.
    destruct (negb (gen_success a)); [exact I|].
    destruct (negb (gen_success b)); [exact I|].
    apply (benchmark_tail_shape s (LLM_JUDGE_PROMPT prompt_type model_a model_b)).
Qed.

(** A failed model call ends the comparison before the judge is asked.
    Both models are always called first; a failure of model A is the one
    reported, whatever model B did, and a failure of model B is reported
    when model A succeeded. The events of the comparison are those of the
    two calls and nothing more. *)
Theorem benchmark_reports_failed_model (s : Settings) (env : Env) (hist : list Obs)
    (c c1 c2 : Cache) (t1 t2 : list Obs) (model_a model_b judge_model : string) :
  (forall audio_path language (a b : TranscriptionResult),
     run env hist (transcribe s audio_path model_a language c) = (Ok a, c1, t1) ->
     run env (hist ++ t1) (transcribe s audio_path model_b language c1) = (Ok b, c2, t2) ->
     (tr_success a = false ->
      run env hist
        (run_transcription_benchmark s audio_path model_a model_b language judge_model c)
      = (Ok (false, None,
             Some ("Model A (" +:+ model_a +:+ ") failed: " +:+ str_opt (tr_error a))),
         c2, t1 ++ t2)) /\
     (tr_success a = true -> tr_success b = false ->
      run env hist
        (run_transcription_benchmark s audio_path model_a model_b language judge_model c)
      = (Ok (false, None,
             Some ("Model B (" +:+ model_b +:+ ") failed: " +:+ str_opt (tr_error b))),
         c2, t1 ++ t2))) /\
  (forall transcript prompt_type (a b : GenerationResult),
     let prompts := build_prompt prompt_type transcript None None None in
     run env hist
       (generate s prompts.2 model_a (Some prompts.1)
          default_max_tokens default_temperature c) = (Ok a, c1, t1) ->
     run env (hist ++ t1)
       (generate s prompts.2 model_b (Some prompts.1)
          default_max_tokens default_temperature c1) = (Ok b, c2, t2) ->
     (gen_success a = false ->
      run env hist
        (run_llm_benchmark s transcript prompt_type model_a model_b judge_model c)
      = (Ok (false, None,
             Some ("Model A (" +:+ model_a +:+ ") failed: " +:+ str_opt (gen_error a))),
         c2, t1 ++ t2)) /\
     (gen_success a = true -> gen_success b = false ->
      run env hist
        (run_llm_benchmark s transcript prompt_type model_a model_b judge_model c)
      = (Ok (false, None,
             Some ("Model B (" +:+ model_b +:+ ") failed: " +:+ str_opt (gen_error b))),
         c2, t1 ++ t2))).
Proof.
  split.
  - intros audio_path language a b Ha Hb. unfold run_transcription_benchmark.
    rewrite run_try_except, run_bind, Ha. cbn [fst snd].
    rewrite run_bind, Hb. cbn [fst snd].
    split.
    + intros ->. cbn [negb]. unfold ret. cbn [run fst snd].
      rewrite app_nil_r. reflexivity.
    + intros -> ->. cbn [negb]. unfold ret. cbn [run fst snd].
      rewrite app_nil_r. reflexivity.
  - intros transcript prompt_type a b prompts Ha Hb. unfold run_llm_benchmark.
    fold prompts. destruct prompts as [system_prompt user_prompt].
    cbn [fst snd] in Ha, Hb.
    rewrite run_try_except, run_bind, Ha. cbn [fst snd].
    rewrite run_bind, Hb. cbn [fst snd].
    split.
    + intros ->. cbn [negb]. unfold ret. cbn [run fst snd].
      rewrite app_nil_r. reflexivity.
    + intros -> ->. cbn [negb]. unfold ret. cbn [run fst snd].
      rewrite app_nil_r. reflexivity.
Qed.

Lemma benchmark_reports_failed_model_witness :
  (run env_bench []
     (run_transcription_benchmark settings_example "/data/standup.mp3"
        "whisper-api" "google-stt" "en" "gemini-pro" empty_cache)).1.1
  = Ok (false, None,
        Some "Model B (google-stt) failed: Google Cloud credentials not configured")
  /\
  (run env_bench []
     (run_llm_benchmark settings_example "Good morning everyone." "summary"
        "gemini-pro" "gpt-4" "gpt-4" empty_cache)).1.1
  = Ok (false, None,
        Some "Model A (gemini-pro) failed: Google Gemini API key not configured").
Proof.
  split.
  - destruct (benchmark_reports_failed_model settings_example env_bench []
                empty_cache empty_cache empty_cache
                (run env_bench []
                   (transcribe settings_example "/data/standup.mp3" "whisper-api" "en"
                      empty_cache)).2
                [] "whisper-api" "google-stt" "gemini-pro") as [Htr _].
    destruct (Htr "/data/standup.mp3" "en"
                (true, Some "Good morning everyone.", None)
                (false, None, Some "Google Cloud credentials not configured"))
      as [_ Hb]; [vm_compute; reflexivity ..|].
    rewrite (Hb eq_refl eq_refl). reflexivity.
  - destruct (benchmark_reports_failed_model settings_example env_bench []
                empty_cache empty_cache empty_cache
                []
                (run env_bench []
                   (generate settings_example bench_prompts.2 "gpt-4"
                      (Some bench_prompts.1) default_max_tokens
                      default_temperature empty_cache)).2
                "gemini-pro" "gpt-4" "gpt-4") as [_ Hllm].
    destruct (Hllm "Good morning everyone." "summary"
                (false, None, None, Some "Google Gemini API key not configured")
                (true, Some "Summary by gpt-4",
                 Some {| input_tokens := Some 120; output_tokens := Some 40 |}, None))
      as [Ha _]; [vm_compute; reflexivity ..|].
    rewrite (Ha eq_refl). reflexivity.
Defined.

Lemma judge_and_report_success s env hist judge_prompt judge_model text_a text_b c
    reply uj ej c' t :
  run env hist
    (generate s judge_prompt judge_model (Some JUDGE_SYSTEM_PROMPT)
       default_max_tokens default_temperature c) = (Ok (true, Some reply, uj, ej), c', t) ->
  exists r, parse_judge_response reply = Ok r /\
    run env hist (judge_and_report s judge_prompt judge_model text_a text_b c)
    = (Ok (true,
           Some {| output_a := text_a; output_b := text_b;
                   bench_score_a := score_a r; bench_score_b := score_b r;
                   judge_reasoning := reasoning r |},
           None), c', t).
Proof.
  intros Hj. destruct (parse_judge_response_total reply) as [r Hr]. exists r.
  split; [exact Hr|].
  unfold judge_and_report. rewrite run_bind, Hj.
  cbn [fst snd gen_success gen_text negb]. rewrite run_bind.
  unfold parse_judge, of_outcome. rewrite Hr. cbn [run fst snd].
  unfold ret. cbn [run]. rewrite !app_nil_r. reflexivity.
Qed.

(** When both models answer with a text and the judge answers too, either
    benchmark returns both full texts together with the two scores and the
    reasoning that [parse_judge_response] reads in the judge's reply, which
    always parses; the judge saw the first 3000 characters of each text. The
    winner the parser reads is not part of the results. *)
Theorem benchmark_scores_come_from_the_judge (s : Settings) (env : Env)
    (hist : list Obs) (c c1 c2 c3 : Cache) (t1 t2 t3 : list Obs)
    (model_a model_b judge_model text_a text_b reply : string)
    (uj : option Usage) (ej : option string) :
  (forall audio_path language ea eb,
     run env hist (transcribe s audio_path model_a language c)
     = (Ok (true, Some text_a, ea), c1, t1) ->
     run env (hist ++ t1) (transcribe s audio_path model_b language c1)
     = (Ok (true, Some text_b, eb), c2, t2) ->
     run env (hist ++ t1 ++ t2)
       (generate s
          (TRANSCRIPTION_JUDGE_PROMPT model_a model_b
             (Py.slice_to 3000 text_a) (Py.slice_to 3000 text_b))
          judge_model (Some JUDGE_SYSTEM_PROMPT)
          default_max_tokens default_temperature c2)
     = (Ok (true, Some reply, uj, ej), c3, t3) ->
     exists r, parse_judge_response reply = Ok r /\
       run env hist
         (run_transcription_benchmark s audio_path model_a model_b language judge_model c)
       = (Ok (true,
              Some {| output_a := Some text_a; output_b := Some text_b;
                      bench_score_a := score_a r; bench_score_b := score_b r;
                      judge_reasoning := reasoning r |},
              None), c3, t1 ++ t2 ++ t3)) /\
  (forall transcript prompt_type ua ub ea eb,
     let prompts := build_prompt prompt_type transcript None None None in
     run env hist
       (generate s prompts.2 model_a (Some prompts.1)
          default_max_tokens default_temperature c)
     = (Ok (true, Some text_a, ua, ea), c1, t1) ->
     run env (hist ++ t1)
       (generate s prompts.2 model_b (Some prompts.1)
          default_max_tokens default_temperature c1)
     = (Ok (true, Some text_b, ub, eb), c2, t2) ->
     run env (hist ++ t1 ++ t2)
       (generate s
          (LLM_JUDGE_PROMPT prompt_type model_a model_b
             (Py.slice_to 3000 text_a) (Py.slice_to 3000 text_b))
          judge_model (Some JUDGE_SYSTEM_PROMPT)
          default_max_tokens default_temperature c2)
     = (Ok (true, Some reply, uj, ej), c3, t3) ->
     exists r, parse_judge_response reply = Ok r /\
       run env hist
         (run_llm_benchmark s transcript prompt_type model_a model_b judge_model c)
       = (Ok (true,
              Some {| output_a := Some text_a; output_b := Some text_b;
                      bench_score_a := score_a r; bench_score_b := score_b r;
                      judge_reasoning := reasoning r |},
              None), c3, t1 ++ t2 ++ t3)).
Proof.
  split.
  - intros audio_path language ea eb Ha Hb Hj.
    rewrite app_assoc in Hj.
    destruct (judge_and_report_success s env _ _ judge_model (Some text_a) (Some text_b)
                _ _ _ _ _ _ Hj) as (r & Hr & Hrun).
    exists r. split; [exact Hr|].
    unfold run_transcription_benchmark.
    rewrite run_try_except, run_bind, Ha. cbn [fst snd].
    rewrite run_bind, Hb. cbn [fst snd tr_success tr_text negb].
    rewrite bind_subscript_to. cbv beta. rewrite bind_subscript_to. cbv beta.
    rewrite Hrun. reflexivity.
  - intros transcript prompt_type ua ub ea eb prompts Ha Hb Hj.
    rewrite app_assoc in Hj.
    destruct (judge_and_report_success s env _ _ judge_model (Some text_a) (Some text_b)
                _ _ _ _ _ _ Hj) as (r & Hr & Hrun).
    exists r. split; [exact Hr|].
    unfold run_llm_benchmark. fold prompts.
    destruct prompts as [system_prompt user_prompt] eqn:Hp. cbn [fst snd] in Ha, Hb.
    rewrite run_try_except, run_bind, Ha. cbn [fst snd].
    rewrite run_bind, Hb. cbn [fst snd gen_success gen_text negb].
    rewrite bind_subscript_to. cbv beta. rewrite bind_subscript_to. cbv beta.
    rewrite Hrun. reflexivity.
Qed.

Lemma benchmark_scores_come_from_the_judge_witness :
  (run env_judge []
     (run_llm_benchmark settings_example "Good morning everyone." "summary"
        "gpt-4" "gpt-3.5-turbo" "gpt-4-turbo" empty_cache)).1.1
  = Ok (true,
        Some {| output_a := Some judge_reply_example;
                output_b := Some judge_reply_example;
                bench_score_a := Some (Py.PFinite 8);
                bench_score_b := Some (Py.PFinite 6);
                judge_reasoning := Some "A was clearer." |},
        None).
Proof.
  destruct (benchmark_scores_come_from_the_judge settings_example env_judge []
              empty_cache empty_cache empty_cache empty_cache
              (run env_judge []
                 (generate settings_example bench_prompts.2 "gpt-4"
                    (Some bench_prompts.1) default_max_tokens
                    default_temperature empty_cache)).2
              (run env_judge []
                 (generate settings_example bench_prompts.2 "gpt-3.5-turbo"
                    (Some bench_prompts.1) default_max_tokens
                    default_temperature empty_cache)).2
              (run env_judge []
                 (generate settings_example
                    (LLM_JUDGE_PROMPT "summary" "gpt-4" "gpt-3.5-turbo"
                       (Py.slice_to 3000 judge_reply_example)
                       (Py.slice_to 3000 judge_reply_example))
                    "gpt-4-turbo" (Some JUDGE_SYSTEM_PROMPT) default_max_tokens
                    default_temperature empty_cache)).2
              "gpt-4" "gpt-3.5-turbo" "gpt-4-turbo"
              judge_reply_example judge_reply_example judge_reply_example
              (Some {| input_tokens := Some 300; output_tokens := Some 20 |}) None)
    as [_ Hllm].
  destruct (Hllm "Good morning everyone." "summary"
              (Some {| input_tokens := Some 300; output_tokens := Some 20 |})
              (Some {| input_tokens := Some 300; output_tokens := Some 20 |})
              None None) as (r & Hr & Hrun); [vm_compute; reflexivity ..|].
  rewrite Hrun. vm_compute in Hr. injection Hr as <-. reflexivity.
Defined.

Lemma length_append (a b : string) :
  String.length (a +:+ b) = (String.length a + String.length b)%nat.
Proof. induction a as [|x a IH]; simpl; [reflexivity | rewrite IH; reflexivity]. Qed.

Lemma slice_to_length (n : nat) (s : string) :
  (String.length (Py.slice_to n s) <= n)%nat
  /\ (String.length s <= n -> Py.slice_to n s = s)%nat
  /\ String.prefix (Py.slice_to n s) s = true.
Proof.
  unfold Py.slice_to. revert s. induction n as [|n IH]; intros s.
  - destruct s as [|x s]; simpl.
    + split; [lia|]. split; reflexivity.
    + split; [lia|]. split; [intros H; lia | reflexivity].
  - destruct s as [|x s]; simpl.
    + split; [lia|]. split; reflexivity.
    + destruct (IH s) as (Hlen & Hid & Hpre). split; [lia|]. split.
      * intros H. rewrite Hid by lia. reflexivity.
      * destruct (ascii_dec x x); [exact Hpre | congruence].
Qed.

Lemma AlwaysT_pbind_silent {A B} (Q : list Obs -> Prop) (p : Prog A) (k : A -> Prog B) :
  AlwaysT (fun _ t => Q t) p -> (forall a, exists b, k a = Ret b) ->
  AlwaysT (fun _ t => Q t) (pbind p k).
Proof.
  intros Hp Hk. revert Q Hp. induction p as [a | e h IH]; intros Q Hp; simpl in *.
  - destruct (Hk a) as [b ->]. exact Hp.
  - intros r. apply (IH r (fun t => Q ({| obs_ev := e; obs_ans := r |} :: t))). apply Hp.
Qed.

Lemma generate_sends s prompt model system_prompt mt temp c :
  AlwaysT (fun _ t =>
    (length (llm_prompts t) <= 1)%nat /\
    Forall (fun p => p = prompt \/ p = system_prompt +:+ nl +:+ nl +:+ prompt)
      (llm_prompts t))
    (generate s prompt model (Some system_prompt) mt temp c).
Proof.
  unfold generate.
  assert (forall m, AlwaysT (fun _ t =>
            (length (llm_prompts t) <= 1)%nat /\
            Forall (fun p => p = prompt \/ p = system_prompt +:+ nl +:+ nl +:+ prompt)
              (llm_prompts t))
            (generate_with_ollama s prompt m (Some system_prompt) mt temp c)) as Hollama.
  { intros m. unfold generate_with_ollama. unfold_monad.
    world_cases; (split; [simpl; lia|]); repeat constructor. }
  destruct (LLM_MODELS !! model) as [cfg|]; [|apply Hollama]. cbv zeta.
  destruct (String.eqb _ "openai").
  { unfold generate_with_openai. unfold_monad.
    destruct system_prompt;
      world_cases; (split; [simpl; lia|]); repeat constructor. }
  destruct (String.eqb _ "gemini").
  { unfold generate_with_gemini. unfold_monad.
    destruct system_prompt;
      world_cases; (split; [simpl; lia|]); repeat constructor; tauto. }
  destruct (String.eqb _ "ollama"); [apply Hollama|].
  simpl. split; [lia | constructor].
Qed.

Lemma AlwaysT_mono {A} (Q Q' : A -> list Obs -> Prop) (p : Prog A) :
  (forall a t, Q a t -> Q' a t) -> AlwaysT Q p -> AlwaysT Q' p.
Proof.
  revert Q Q'. induction p as [a | e h IH]; intros Q Q' HQ; simpl; [apply HQ|].
  intros Hp r.
  apply (IH r (fun a t => Q a ({| obs_ev := e; obs_ans := r |} :: t))); [|apply Hp].
  intros a t. apply HQ.
Qed.

Lemma judge_prompt_length (model_a model_b prompt_type text_a text_b : string) :
  (String.length
     (JUDGE_SYSTEM_PROMPT +:+ nl +:+ nl +:+
      TRANSCRIPTION_JUDGE_PROMPT model_a model_b
        (Py.slice_to 3000 text_a) (Py.slice_to 3000 text_b))
   <= String.length
        (JUDGE_SYSTEM_PROMPT +:+ nl +:+ nl +:+
         TRANSCRIPTION_JUDGE_PROMPT model_a model_b "" "") + (3000 + 3000))%nat /\
  (String.length
     (JUDGE_SYSTEM_PROMPT +:+ nl +:+ nl +:+
      LLM_JUDGE_PROMPT prompt_type model_a model_b
        (Py.slice_to 3000 text_a) (Py.slice_to 3000 text_b))
   <= String.length
        (JUDGE_SYSTEM_PROMPT +:+ nl +:+ nl +:+
         LLM_JUDGE_PROMPT prompt_type model_a model_b "" "") + (3000 + 3000))%nat.
Proof.
  destruct (slice_to_length 3000 text_a) as (Ha & _ & _).
  destruct (slice_to_length 3000 text_b) as (Hb & _ & _).
  split.
  - unfold TRANSCRIPTION_JUDGE_PROMPT. rewrite !length_append.
    change (String.length "") with 0%nat. lia.
  - unfold LLM_JUDGE_PROMPT. rewrite !length_append.
    change (String.length "") with 0%nat. lia.
Qed.

Lemma judge_and_report_sends s judge_prompt judge_model text_a text_b c (bound : nat) :
  (String.length (JUDGE_SYSTEM_PROMPT +:+ nl +:+ nl +:+ judge_prompt) <= bound)%nat ->
  AlwaysT (fun _ t => one_bounded_request bound t)
    (judge_and_report s judge_prompt judge_model text_a text_b c).
Proof.
  intros Hbound. unfold judge_and_report, bind. apply AlwaysT_pbind_silent.
  - eapply AlwaysT_mono; [|apply generate_sends].
    intros _ t [Hone Hall]. split; [exact Hone|].
    eapply Forall_impl; [exact Hall|]. intros p [-> | ->]; [|exact Hbound].
    rewrite !length_append in Hbound. lia.
  - intros [[j|e] c1]; cbn [fst snd]; [|eauto].
    destruct (negb (gen_success j)); [unfold ret; eauto|].
    unfold parse_judge. destruct (gen_text j) as [reply|]; cbn [pbind].
    + unfold of_outcome. destruct (parse_judge_response reply); cbn; unfold ret; eauto.
    + unfold raise. cbn. eauto.
Qed.

Lemma benchmark_tail_sends s (mk_prompt : string -> string -> string) judge_model
    (text_a text_b : option string) c (bound : nat) :
  (forall a b,
     (String.length
        (JUDGE_SYSTEM_PROMPT +:+ nl +:+ nl +:+
         mk_prompt (Py.slice_to 3000 a) (Py.slice_to 3000 b)) <= bound)%nat) ->
  AlwaysT (fun _ t => one_bounded_request bound t)
    (bind (subscript_to 3000 text_a) (fun out_a =>
       bind (subscript_to 3000 text_b) (fun out_b =>
         judge_and_report s (mk_prompt out_a out_b) judge_model text_a text_b)) c).
Proof.
  intros Hbound.
  destruct text_a as [text_a|]; [|split; [simpl; lia | constructor]].
  destruct text_b as [text_b|]; [|split; [simpl; lia | constructor]].
  apply judge_and_report_sends, Hbound.
Qed.

(** Whatever the two models answer and however long their outputs are,
    what a benchmark does after the two model calls sends at most one
    request to a language model, the judge's, and the prompt of that
    request is bounded: each output enters it through its first 3000
    characters only, so it has at most 6000 characters beyond the fixed
    text of the judge's system prompt and of the judge prompt with the
    names it quotes. The events of a benchmark are those of the call of
    model A, those of the call of model B and that rest. *)
Theorem judge_prompt_is_bounded (s : Settings) (env : Env) (hist : list Obs) (c : Cache)
    (model_a model_b judge_model : string) :
  (forall audio_path language,
     let first := run env hist (transcribe s audio_path model_a language c) in
     let second :=
       run env (hist ++ first.2) (transcribe s audio_path model_b language first.1.2) in
     exists rest,
       (run env hist
          (run_transcription_benchmark s audio_path model_a model_b language
             judge_model c)).2
       = first.2 ++ second.2 ++ rest /\
       one_bounded_request
         (String.length
            (JUDGE_SYSTEM_PROMPT +:+ nl +:+ nl +:+
             TRANSCRIPTION_JUDGE_PROMPT model_a model_b "" "") + (3000 + 3000))
         rest) /\
  (forall transcript prompt_type,
     let prompts := build_prompt prompt_type transcript None None None in
     let first :=
       run env hist
         (generate s prompts.2 model_a (Some prompts.1)
            default_max_tokens default_temperature c) in
     let second :=
       run env (hist ++ first.2)
         (generate s prompts.2 model_b (Some prompts.1)
            default_max_tokens default_temperature first.1.2) in
     exists rest,
       (run env hist
          (run_llm_benchmark s transcript prompt_type model_a model_b judge_model c)).2
       = first.2 ++ second.2 ++ rest /\
       one_bounded_request
         (String.length
            (JUDGE_SYSTEM_PROMPT +:+ nl +:+ nl +:+
             LLM_JUDGE_PROMPT prompt_type model_a model_b "" "") + (3000 + 3000))
         rest).
Proof.
  assert (forall bound, one_bounded_request bound []) as Hnone.
  { intros bound. split; [simpl; lia | constructor]. }
  split.
  - intros audio_path language. cbv zeta.
    destruct (returns_run _ _ (transcribe_shape s audio_path model_a language) c env hist)
      as (a & c1 & t1 & Ha & _).
    rewrite Ha. cbn [fst snd].
    destruct (returns_run _ _ (transcribe_shape s audio_path model_b language) c1 env
                (hist ++ t1)) as (b & c2 & t2 & Hb & _).
    rewrite Hb. cbn [fst snd].
    unfold run_transcription_benchmark.
    rewrite run_try_except, run_bind, Ha. cbn [fst snd].
    rewrite run_bind, Hb. cbn [fst snd].
    destruct (run env ((hist ++ t1) ++ t2) _) as [[o c3] t3] eqn:Hrun.
    exists t3. split; [destruct o; cbn; rewrite ?app_nil_r; reflexivity|].
    apply (f_equal snd) in Hrun. cbn [snd] in Hrun. rewrite <- Hrun.
    apply (AlwaysT_run
             (fun _ t =>
                one_bounded_request
                  (String.length
                     (JUDGE_SYSTEM_PROMPT +:+ nl +:+ nl +:+ TRANSCRIPTION_JUDGE_PROMPT model_a model_b "" "")
                   + (3000 + 3000)) t)).
    destruct (negb (tr_success a)); [apply Hnone|].
    destruct (negb (tr_success b)); [apply Hnone|].
    lazymatch goal with
    | |- AlwaysT _ (bind (subscript_to 3000 _)
                      (fun _ => bind (subscript_to 3000 _) _) _) =>
        apply (benchmark_tail_sends s (TRANSCRIPTION_JUDGE_PROMPT model_a model_b))
    end.
    intros x y. apply (judge_prompt_length model_a model_b "" x y).
  - intros transcript prompt_type. cbv zeta.
    destruct (build_prompt prompt_type transcript None None None)
      as [system_prompt user_prompt] eqn:Hp. cbn [fst snd].
    destruct (returns_run _ _
                (generate_shape s user_prompt model_a (Some system_prompt)
                   default_max_tokens default_temperature) c env hist)
      as (a & c1 & t1 & Ha & _).
    rewrite Ha. cbn [fst snd].
    destruct (returns_run _ _
                (generate_shape s user_prompt model_b (Some system_prompt)
                   default_max_tokens default_temperature) c1 env (hist ++ t1))
      as (b & c2 & t2 & Hb & _).
    rewrite Hb. cbn [fst snd].
    unfold run_llm_benchmark. rewrite Hp.
    rewrite run_try_except, run_bind, Ha. cbn [fst snd].
    rewrite run_bind, Hb. cbn [fst snd].
    destruct (run env ((hist ++ t1) ++ t2) _) as [[o c3] t3] eqn:Hrun.
    exists t3. split; [destruct o; cbn; rewrite ?app_nil_r; reflexivity|].
    apply (f_equal snd) in Hrun. cbn [snd] in Hrun. rewrite <- Hrun.
    apply (AlwaysT_run
             (fun _ t =>
                one_bounded_request
                  (String.length
                     (JUDGE_SYSTEM_PROMPT +:+ nl +:+ nl +:+ LLM_JUDGE_PROMPT prompt_type model_a model_b "" "")
                   + (3000 + 3000)) t)).
    destruct (negb (gen_success a)); [apply Hnone|].
    destruct (negb (gen_success b)); [apply Hnone|].
    lazymatch goal with
    | |- AlwaysT _ (bind (subscript_to 3000 _)
                      (fun _ => bind (subscript_to 3000 _) _) _) =>
        apply (benchmark_tail_sends s (LLM_JUDGE_PROMPT prompt_type model_a model_b))
    end.
    intros x y. apply (judge_prompt_length model_a model_b prompt_type x y).
Qed.

Lemma judge_prompt_is_bounded_witness :
  exists first second judge,
    (run env_judge []
       (run_llm_benchmark settings_example "Good morning everyone." "summary"
          "gpt-4" "gpt-3.5-turbo" "gpt-4-turbo" empty_cache)).2
    = first ++ second ++ judge /\
    length (llm_prompts judge) = 1%nat /\
    one_bounded_request
      (String.length
         (JUDGE_SYSTEM_PROMPT +:+ nl +:+ nl +:+
          LLM_JUDGE_PROMPT "summary" "gpt-4" "gpt-3.5-turbo" "" "") + (3000 + 3000))
      judge.
Proof.
  destruct (judge_prompt_is_bounded settings_example env_judge [] empty_cache
              "gpt-4" "gpt-3.5-turbo" "gpt-4-turbo") as [_ Hllm].
  destruct (Hllm "Good morning everyone." "summary") as (rest & Htrace & Hbound).
  do 3 eexists. split; [exact Htrace|]. split; [|exact Hbound].
  cbv zeta in Htrace. vm_compute in Htrace.
  injection Htrace as <-. reflexivity.
Defined.

(** ** The prompt templates *)

Lemma PROMPT_TEMPLATES_entry (prompt_type : string) (t : PromptTemplate) :
  PROMPT_TEMPLATES !! prompt_type = Some t ->
  (prompt_type, t) ∈ [("summary", default custom_template (PROMPT_TEMPLATES !! "summary"));
                      ("email", default custom_template (PROMPT_TEMPLATES !! "email"));
                      ("training", default custom_template (PROMPT_TEMPLATES !! "training"));
                      ("weekly", default custom_template (PROMPT_TEMPLATES !! "weekly"));
                      ("custom", custom_template)].
Proof.
  intros H. apply elem_of_list_to_map_2 in H.
  repeat (apply elem_of_cons in H as [H|H];
          [injection H as -> ->; vm_compute;
           first [left | right; left | do 2 right; left | do 3 right; left
                 | do 4 right; left]|]).
  apply elem_of_nil in H. destruct H.
Qed.

(** Without a custom prompt, a persona or a template, [build_prompt]
    returns the system prompt of the chosen template (the entry of the
    table for the prompt type, the custom template when there is none) and
    the user prompt of that template with the transcription in the place of
    its placeholder: the placeholder occurs once, so the transcription
    stands verbatim and exactly once between the two fixed texts around the
    placeholder, whatever it contains. For a prompt type that is not a key
    of the table, or for [custom], the system prompt is
    ["You are a helpful AI assistant."] and the placeholder for the custom
    prompt is left as it is: the user prompt is ["{custom_prompt}"], a
    blank line and the transcription. *)
Theorem build_prompt_inserts_transcription (prompt_type : string) :
  let template := default custom_template (PROMPT_TEMPLATES !! prompt_type) in
  let before := text_before "{transcription}" (tpl_user_prompt template) in
  let after := text_after "{transcription}" (tpl_user_prompt template) in
  tpl_user_prompt template = before +:+ "{transcription}" +:+ after /\
  (forall transcript,
     build_prompt prompt_type transcript None None None
     = (tpl_system_prompt template, before +:+ transcript +:+ after)) /\
  (PROMPT_TEMPLATES !! prompt_type = None \/ prompt_type = "custom" ->
   tpl_system_prompt template = "You are a helpful AI assistant." /\
   before = "{custom_prompt}" +:+ nl +:+ nl /\ after = "").
Proof.
  unfold build_prompt. cbv zeta.
  destruct (PROMPT_TEMPLATES !! prompt_type) as [t|] eqn:E.
  - apply PROMPT_TEMPLATES_entry in E.
    repeat (apply elem_of_cons in E as [E|E];
            [injection E as -> ->;
             split; [vm_compute; reflexivity|];
             split;
             [intros transcript; vm_compute; reflexivity
             |intros [H|H]; [discriminate H|];
              first [discriminate H | vm_compute; repeat split]]|]).
    apply elem_of_nil in E. destruct E.
  - split; [vm_compute; reflexivity|].
    split; [intros transcript; vm_compute; reflexivity | intros _; repeat split].
Qed.

Lemma build_prompt_inserts_transcription_witness :
  (forall transcript,
     build_prompt "minutes" transcript None None None
     = ("You are a helpful AI assistant.", "{custom_prompt}" +:+ nl +:+ nl +:+ transcript)) /\
  (build_prompt "summary" "Good morning everyone." None None None).1
  = "You are an expert at summarizing meetings. Create clear, actionable summaries that capture the key points.".
Proof.
  split.
  - destruct (build_prompt_inserts_transcription "minutes") as (_ & Hall & Hcustom).
    destruct (Hcustom (or_introl eq_refl)) as (Hs & Hb & Ha).
    intros transcript. rewrite Hall, Hs, Hb, Ha. rewrite append_empty_r. reflexivity.
  - destruct (build_prompt_inserts_transcription "summary") as (_ & Hall & _).
    rewrite Hall. reflexivity.
Defined.

(** With a custom prompt, the custom template gives the custom prompt, a
    blank line and the transcription; the custom prompt is substituted
    after the transcription was inserted, so the placeholder
    ["{custom_prompt}"] is replaced inside the transcription too. *)
Theorem build_prompt_custom (prompt_type transcript : string) (c0 : ascii) (custom : string) :
  PROMPT_TEMPLATES !! prompt_type = None \/ prompt_type = "custom" ->
  (build_prompt prompt_type transcript (Some (String c0 custom)) None None).2
  = String c0 custom +:+ nl +:+ nl
    +:+ Py.replace "{custom_prompt}" (String c0 custom) transcript.
Proof.
  intros H.
  assert (default custom_template (PROMPT_TEMPLATES !! prompt_type) = custom_template)
    as Htpl.
  { destruct H as [->| ->]; [reflexivity | vm_compute; reflexivity]. }
  unfold build_prompt. rewrite Htpl. cbn [truthy snd].
  assert (Py.replace "{transcription}" transcript (tpl_user_prompt custom_template)
          = "{custom_prompt}" +:+ nl +:+ nl +:+ transcript) as ->.
  { transitivity ("{custom_prompt}" +:+ nl +:+ nl +:+ transcript +:+ "").
    - vm_compute. reflexivity.
    - rewrite append_empty_r. reflexivity. }
  vm_compute. reflexivity.
Qed.

Lemma build_prompt_custom_witness :
  (build_prompt "custom" "Notes: {custom_prompt}" (Some "Translate.") None None).2
  = "Translate." +:+ nl +:+ nl +:+ "Notes: Translate.".
Proof.
  rewrite (build_prompt_custom "custom" "Notes: {custom_prompt}" "T" "ranslate.");
    [vm_compute; reflexivity | right; reflexivity].
Defined.

(** ** The adapters, continued *)

(** An adapter that lacks its credential or its URL (unset or empty)
    answers at once with its own message: it performs no event, so nothing
    is imported, read or sent, and the cache is untouched. *)
Theorem missing_credentials_make_no_call (s : Settings) (c : Cache) :
  (truthy (openai_api_key s) = false ->
   (forall prompt model sp mt temp,
      generate_with_openai s prompt model sp mt temp c
      = Ret (Ok (false, None, None, Some "OpenAI API key not configured"), c)) /\
   (forall audio_path language,
      transcribe_with_whisper_api s audio_path language c
      = Ret (Ok (false, None, Some "OpenAI API key not configured"), c))) /\
  (truthy (google_gemini_api_key s) = false ->
   forall prompt model sp mt temp,
     generate_with_gemini s prompt model sp mt temp c
     = Ret (Ok (false, None, None, Some "Google Gemini API key not configured"), c)) /\
  (truthy (google_application_credentials s) = false ->
   forall audio_path language,
     transcribe_with_google_stt s audio_path language c
     = Ret (Ok (false, None, Some "Google Cloud credentials not configured"), c)) /\
  (truthy (whisper_remote_url s) = false ->
   (forall audio_path model_size language,
      transcribe_with_whisper_remote s audio_path model_size language c
      = Ret (Ok (false, None, Some "Whisper remote URL not configured"), c)) /\
   (forall audio_url model_size language,
      transcribe_with_whisper_remote_url s audio_url model_size language c
      = Ret (Ok (false, None, Some "Whisper remote URL not configured"), c)) /\
   (forall audio_path model language cfg,
      TRANSCRIPTION_MODELS !! model = Some cfg -> tm_backend cfg = "whisper_remote" ->
      transcribe s audio_path model language c
      = Ret (Ok (false, None,
                 Some "Whisper remote URL not configured. Set WHISPER_REMOTE_URL in .env"),
             c))).
Proof.
  repeat split; intros.
  - unfold generate_with_openai. unfold_monad. rewrite H. reflexivity.
  - unfold transcribe_with_whisper_api. unfold_monad. rewrite H. reflexivity.
  - unfold generate_with_gemini. unfold_monad. rewrite H. reflexivity.
  - unfold transcribe_with_google_stt. unfold_monad. rewrite H. reflexivity.
  - unfold transcribe_with_whisper_remote. unfold_monad. rewrite H. reflexivity.
  - unfold transcribe_with_whisper_remote_url. unfold_monad. rewrite H. reflexivity.
  - unfold transcribe. rewrite H0, H1, H. reflexivity.
Qed.

Lemma missing_credentials_make_no_call_witness :
  run env_bench []
    (transcribe settings_gpu "/data/a.mp3" "whisper-remote-base" "en" empty_cache)
  = (Ok (false, None,
         Some "Whisper remote URL not configured. Set WHISPER_REMOTE_URL in .env"),
     empty_cache, []).
Proof.
  destruct (missing_credentials_make_no_call settings_gpu empty_cache)
    as (_ & _ & _ & Hremote).
  destruct (Hremote eq_refl) as (_ & _ & Hdispatch).
  rewrite (Hdispatch "/data/a.mp3" "whisper-remote-base" "en"
             {| tm_backend := "whisper_remote"; tm_size := Some "base" |});
    [reflexivity | vm_compute; reflexivity | reflexivity].
Defined.

Lemma whisper_api_limit_shape (s : Settings) (audio_path : string)
    (language : option string) (c : Cache) :
  AlwaysT (fun (oc : Outcome TranscriptionResult * Cache) t =>
    oc.2 = c /\
    (api_uploads t <> [] ->
     api_uploads t = [audio_path] /\
     exists size, stat_sizes t = [Ok size] /\ size <= whisper_api_limit) /\
    (forall size, stat_sizes t = [Ok size] -> whisper_api_limit < size ->
       oc.1 = Ok (false, None, Some "File too large for Whisper API (max 25MB)")))
    (transcribe_with_whisper_api s audio_path language c).
Proof.
  unfold transcribe_with_whisper_api. unfold_monad.
  world_cases; (split; [reflexivity|]); simpl; split.
  all: try (intros Hup; exfalso; apply Hup; reflexivity).
  all: try (intros _; split; [reflexivity|]; eexists; split; [reflexivity|]).
  all: try (intros size Hs Hlt; try discriminate Hs; injection Hs as ->).
  all: repeat match goal with
              | H : (_ <? _) = false |- _ => apply Z.ltb_ge in H
              | H : (_ <? _) = true |- _ => apply Z.ltb_lt in H
              end.
  all: unfold whisper_api_limit in *; try reflexivity; lia.
Qed.

(** The Whisper API adapter never touches the cache and never hands the
    API a file whose reported size is over 25 MiB: an upload happens only
    after the size was read and found within the limit (the limit itself
    included), and a larger size is answered with the adapter's
    "File too large" error. *)
Theorem whisper_api_respects_the_size_limit (s : Settings) (audio_path : string)
    (language : option string) (c : Cache) (env : Env) (hist : list Obs) :
  let out := run env hist (transcribe_with_whisper_api s audio_path language c) in
  out.1.2 = c /\
  (api_uploads out.2 <> [] ->
   api_uploads out.2 = [audio_path] /\
   exists size, stat_sizes out.2 = [Ok size] /\ size <= whisper_api_limit) /\
  (forall size, stat_sizes out.2 = [Ok size] -> whisper_api_limit < size ->
     out.1.1 = Ok (false, None, Some "File too large for Whisper API (max 25MB)")).
Proof.
  exact (AlwaysT_run _ _ (whisper_api_limit_shape s audio_path language c) env hist).
Qed.

(** ** What only the local adapter does *)

Lemma openai_frame s prompt model sp mt temp c :
  AlwaysT (no_whisper_use c) (generate_with_openai s prompt model sp mt temp c).
Proof. unfold generate_with_openai. unfold_monad. world_cases; repeat split; reflexivity. Qed.

Lemma gemini_frame s prompt model sp mt temp c :
  AlwaysT (no_whisper_use c) (generate_with_gemini s prompt model sp mt temp c).
Proof. unfold generate_with_gemini. unfold_monad. world_cases; repeat split; reflexivity. Qed.

Lemma ollama_frame s prompt model sp mt temp c :
  AlwaysT (no_whisper_use c) (generate_with_ollama s prompt model sp mt temp c).
Proof. unfold generate_with_ollama. unfold_monad. world_cases; repeat split; reflexivity. Qed.

Lemma whisper_api_frame s audio_path language c :
  AlwaysT (no_whisper_use c) (transcribe_with_whisper_api s audio_path language c).
Proof.
  unfold transcribe_with_whisper_api. unfold_monad. world_cases; repeat split; reflexivity.
Qed.

Lemma whisper_remote_frame s audio_path model_size language c :
  AlwaysT (no_whisper_use c)
    (transcribe_with_whisper_remote s audio_path model_size language c).
Proof.
  unfold transcribe_with_whisper_remote, whisper_remote_except. unfold_monad.
  world_cases; repeat split; reflexivity.
Qed.

Lemma whisper_remote_url_frame s audio_url model_size language c :
  AlwaysT (no_whisper_use c)
    (transcribe_with_whisper_remote_url s audio_url model_size language c).
Proof.
  unfold transcribe_with_whisper_remote_url, whisper_remote_except. unfold_monad.
  world_cases; repeat split; reflexivity.
Qed.

Lemma google_stt_frame s audio_path language c :
  AlwaysT (no_whisper_use c) (transcribe_with_google_stt s audio_path language c).
Proof.
  unfold transcribe_with_google_stt. unfold_monad. world_cases; repeat split; reflexivity.
Qed.

(** The model cache and the Whisper library belong to the local adapter
    alone. Text generation, whatever the model, and transcription by any
    model that the table does not give to the local backend (an unknown
    model included) leave the cache as it was, load no model, do not probe
    CUDA and run no local transcription; so does the URL mode of the remote
    adapter. *)
Theorem only_the_local_adapter_uses_whisper (s : Settings) (c : Cache)
    (env : Env) (hist : list Obs) :
  (forall prompt model sp mt temp,
     let out := run env hist (generate s prompt model sp mt temp c) in
     no_whisper_use c out.1 out.2) /\
  (forall audio_path model language,
     (forall cfg, TRANSCRIPTION_MODELS !! model = Some cfg ->
                  tm_backend cfg <> "whisper_local") ->
     let out := run env hist (transcribe s audio_path model language c) in
     no_whisper_use c out.1 out.2) /\
  (forall audio_url model_size language,
     let out :=
       run env hist (transcribe_with_whisper_remote_url s audio_url model_size language c) in
     no_whisper_use c out.1 out.2).
Proof.
  split; [|split].
  - intros prompt model sp mt temp. apply (AlwaysT_run (no_whisper_use c)). unfold generate.
    destruct (LLM_MODELS !! model) as [cfg|] eqn:E; [|apply ollama_frame].
    destruct (LLM_MODELS_entry _ _ E) as [_ [Hb|[Hb|Hb]]]; rewrite Hb; simpl;
      [apply openai_frame | apply gemini_frame | apply ollama_frame].
  - intros audio_path model language Hlocal. apply (AlwaysT_run (no_whisper_use c)).
    unfold transcribe.
    destruct (TRANSCRIPTION_MODELS !! model) as [cfg|] eqn:E;
      [|simpl; repeat split; reflexivity].
    specialize (Hlocal cfg eq_refl).
    destruct (TRANSCRIPTION_MODELS_entry _ _ E) as [Hb|[Hb|[Hb|Hb]]]; rewrite Hb; simpl.
    + contradiction.
    + destruct (negb _); [simpl; repeat split; reflexivity | apply whisper_remote_frame].
    + apply whisper_api_frame.
    + apply google_stt_frame.
  - intros audio_url model_size language. apply (AlwaysT_run (no_whisper_use c)).
    apply whisper_remote_url_frame.
Qed.

Lemma only_the_local_adapter_uses_whisper_witness :
  let out :=
    run env_bench [] (transcribe settings_example "/data/a.mp3" "whisper-api" "en"
                        {| _model := Some 4%nat; _model_size := Some "base" |}) in
  no_whisper_use {| _model := Some 4%nat; _model_size := Some "base" |} out.1 out.2.
Proof.
  destruct (only_the_local_adapter_uses_whisper settings_example
              {| _model := Some 4%nat; _model_size := Some "base" |} env_bench [])
    as (_ & Htr & _).
  apply Htr. intros cfg H. vm_compute in H. injection H as <-. discriminate.
Defined.

(** ** The HTTP adapters *)

Lemma ollama_outcomes_shape (s : Settings) prompt model sp mt temp (c : Cache) :
  AlwaysT (fun (oc : Outcome GenerationResult * Cache) t =>
    oc.2 = c /\
    exists reply r,
      ollama_posts t = [reply] /\ length t = 1%nat /\ oc.1 = Ok r /\
      (gen_success r = true <->
       exists response data,
         reply = Ok response /\ status_code response = 200 /\ json response = Ok data) /\
      (forall response data,
         reply = Ok response -> status_code response = 200 -> json response = Ok data ->
         r = (true, Some (default "" (od_response data)),
              Some {| input_tokens := od_prompt_eval_count data;
                      output_tokens := od_eval_count data |}, None)) /\
      (forall response,
         reply = Ok response -> status_code response <> 200 ->
         gen_error r
         = Some ("Ollama returned status " +:+ string_of_Z (status_code response))) /\
      (forall e,
         reply = Raised e -> exn_cls e = ConnectError ->
         gen_error r = Some ("Could not connect to Ollama at " +:+ ollama_host s)))
    (generate_with_ollama s prompt model sp mt temp c).
Proof.
  unfold generate_with_ollama. unfold_monad. simpl. intros [response|e]; simpl.
  - destruct (status_code response =? 200) eqn:Hs; simpl.
    + apply Z.eqb_eq in Hs. destruct (json response) as [data|e] eqn:Hj; simpl.
      * split; [reflexivity|]. do 2 eexists. repeat split; try reflexivity.
        -- intros _. eauto.
        -- intros response' data' [= <-] _ Hj'. rewrite Hj in Hj'.
           injection Hj' as <-. reflexivity.
        -- intros response' [= <-] Hne. contradiction.
        -- intros e' [=].
      * destruct (isinstance e ConnectError); simpl;
          (split; [reflexivity|]); do 2 eexists; repeat split; try reflexivity;
          try discriminate.
        all: try (intros (response' & data' & [= <-] & _ & Hj');
                  rewrite Hj in Hj'; discriminate Hj').
        all: try (intros response' data' [= <-] _ Hj'; rewrite Hj in Hj';
                  discriminate Hj').
        all: try (intros response' [= <-] Hne; contradiction).
    + apply Z.eqb_neq in Hs. split; [reflexivity|]. do 2 eexists.
      repeat split; try reflexivity; try discriminate.
      * intros (response' & data' & [= <-] & H200 & _). contradiction.
      * intros response' data' [= <-] H200. contradiction.
      * intros response' [= <-] _. reflexivity.
  - destruct (isinstance e ConnectError) eqn:Hi; simpl;
      (split; [reflexivity|]); do 2 eexists; repeat split; try reflexivity;
      try discriminate.
    all: try (intros (response' & data' & [=] & _)).
    intros e' [= <-] Hcls. unfold isinstance in Hi. rewrite Hcls in Hi. discriminate Hi.
Qed.

(** The Ollama adapter sends exactly one request, performs no other event
    and leaves the cache alone. Its result is a success exactly when the
    reply has status 200 and a JSON body; the text is then the member
    [response], the empty string when the member is absent, so a success
    with an empty text is possible. Any other status, 2xx included, is
    reported with its number, and a refused connection with the configured
    host. *)
Theorem ollama_adapter_outcomes (s : Settings) (prompt model : string)
    (sp : option string) (mt : Z) (temp : Py.pyfloat) (c : Cache)
    (env : Env) (hist : list Obs) :
  let out := run env hist (generate_with_ollama s prompt model sp mt temp c) in
  out.1.2 = c /\
  exists reply r,
    ollama_posts out.2 = [reply] /\ length out.2 = 1%nat /\ out.1.1 = Ok r /\
    (gen_success r = true <->
     exists response data,
       reply = Ok response /\ status_code response = 200 /\ json response = Ok data) /\
    (forall response data,
       reply = Ok response -> status_code response = 200 -> json response = Ok data ->
       r = (true, Some (default "" (od_response data)),
            Some {| input_tokens := od_prompt_eval_count data;
                    output_tokens := od_eval_count data |}, None)) /\
    (forall response,
       reply = Ok response -> status_code response <> 200 ->
       gen_error r
       = Some ("Ollama returned status " +:+ string_of_Z (status_code response))) /\
    (forall e,
       reply = Raised e -> exn_cls e = ConnectError ->
       gen_error r = Some ("Could not connect to Ollama at " +:+ ollama_host s)).
Proof.
  exact (AlwaysT_run _ _ (ollama_outcomes_shape s prompt model sp mt temp c) env hist).
Qed.

Lemma isinstance_request_error (e : exn) :
  isinstance e RequestError = true -> isinstance e HTTPStatusError = false.
Proof.
  unfold isinstance. destruct (exn_cls e); simpl; intros H;
    first [reflexivity | discriminate H].
Qed.

#[local] Arguments whisper_remote_result : simpl never.

Ltac remote_leaf :=
  unfold remote_outcomes, status_is_success; simpl;
  split; [reflexivity|]; split; [lia|];
  repeat split; intros; simplify_eq;
  repeat match goal with
         | Ha : ?x = _, Hb : ?x = _ |- _ => rewrite Ha in Hb; simplify_eq
         end;
  try match goal with
      | H : isinstance ?e RequestError = true |- _ =>
          pose proof (isinstance_request_error e H)
      end;
  eauto; try congruence.

Lemma whisper_remote_outcomes_shape s audio_path model_size language c :
  AlwaysT (remote_outcomes c)
    (transcribe_with_whisper_remote s audio_path model_size language c).
Proof.
  unfold transcribe_with_whisper_remote, whisper_remote_except. unfold_monad.
  destruct (truthy (whisper_remote_url s)); simpl; [|remote_leaf].
  intros [[|]|e]; simpl.
  - intros [content|e]; simpl.
    + intros [response|e]; simpl.
      * destruct ((200 <=? status_code response) && (status_code response <? 300))
          eqn:Hst; simpl.
        -- destruct (json response) as [result|e] eqn:Hj; simpl.
           ++ remote_leaf.
           ++ destruct (isinstance e HTTPStatusError); simpl;
                [|destruct (isinstance e RequestError); simpl]; remote_leaf.
        -- remote_leaf.
      * destruct (isinstance e HTTPStatusError) eqn:H1; simpl;
          [|destruct (isinstance e RequestError) eqn:H2; simpl]; remote_leaf.
    + destruct (isinstance e HTTPStatusError); simpl;
        [|destruct (isinstance e RequestError); simpl]; remote_leaf.
  - remote_leaf.
  - destruct (isinstance e HTTPStatusError); simpl;
      [|destruct (isinstance e RequestError); simpl]; remote_leaf.
Qed.

Lemma whisper_remote_url_outcomes_shape s audio_url model_size language c :
  AlwaysT (remote_outcomes c)
    (transcribe_with_whisper_remote_url s audio_url model_size language c).
Proof.
  unfold transcribe_with_whisper_remote_url, whisper_remote_except. unfold_monad.
  destruct (truthy (whisper_remote_url s)); simpl; [|remote_leaf].
  intros [response|e]; simpl.
  - destruct ((200 <=? status_code response) && (status_code response <? 300))
      eqn:Hst; simpl.
    + destruct (json response) as [result|e] eqn:Hj; simpl.
      * remote_leaf.
      * destruct (isinstance e HTTPStatusError); simpl;
          [|destruct (isinstance e RequestError); simpl]; remote_leaf.
    + remote_leaf.
  - destruct (isinstance e HTTPStatusError) eqn:H1; simpl;
      [|destruct (isinstance e RequestError) eqn:H2; simpl]; remote_leaf.
Qed.

(** Both modes of the remote adapter send the peer at most one request and
    leave the cache alone. Without a request the result is a failure. A
    reply outside 2xx is reported with its status and body; a 2xx reply
    with a JSON body is read by the rule common to both modes; a request
    that fails with a request error, a refused connection included, is
    reported as a connection error. *)
Theorem whisper_remote_outcomes (s : Settings) (c : Cache) (env : Env) (hist : list Obs) :
  (forall audio_path model_size language,
     let out :=
       run env hist (transcribe_with_whisper_remote s audio_path model_size language c) in
     remote_outcomes c out.1 out.2) /\
  (forall audio_url model_size language,
     let out :=
       run env hist (transcribe_with_whisper_remote_url s audio_url model_size language c) in
     remote_outcomes c out.1 out.2).
Proof.
  split; intros; apply (AlwaysT_run (remote_outcomes c)).
  - apply whisper_remote_outcomes_shape.
  - apply whisper_remote_url_outcomes_shape.
Qed.

(** What the peer's reply means: a success only when the peer says so and
    its text is not blank; the text is then stripped, and a failure carries
    the peer's error or, without one, "Transcription failed". *)
Theorem whisper_remote_result_cases (result : PeerReply) :
  tr_shape (whisper_remote_result result) /\
  (tr_success (whisper_remote_result result) = true <->
   pr_success result = Some true /\ Py.strip (default "" (pr_text result)) <> "") /\
  (tr_success (whisper_remote_result result) = true ->
   tr_text (whisper_remote_result result) = Some (Py.strip (default "" (pr_text result)))) /\
  (pr_success result <> Some true ->
   tr_error (whisper_remote_result result)
   = Some (default "Transcription failed" (pr_error result))).
Proof.
  unfold whisper_remote_result, tr_shape, result_shape, tr_success, tr_text, tr_error.
  destruct (pr_success result) as [[|]|]; simpl.
  - destruct (String.eqb_spec (Py.strip (default "" (pr_text result))) "") as [->|Hne];
      simpl; repeat split; intros; try discriminate; try congruence; intuition congruence.
  - repeat split; intros; try discriminate; try congruence; intuition congruence.
  - repeat split; intros; try discriminate; try congruence; intuition congruence.
Qed.

Lemma whisper_remote_result_cases_witness :
  tr_error (whisper_remote_result
              {| pr_success := Some false; pr_text := None; pr_error := None |})
  = Some "Transcription failed".
Proof.
  apply (whisper_remote_result_cases
           {| pr_success := Some false; pr_text := None; pr_error := None |}).
  discriminate.
Defined.

(** ** A missing audio file *)

(** When the file system says the audio file does not exist, the local,
    remote and Whisper API adapters stop there: the check is their only
    event, so nothing is imported, loaded, read or sent, and the cache is
    as it was. The first two name the path in their error, the third does
    not. The Google adapter checks its credentials file first and then
    stops in the same way. *)
Theorem missing_audio_file_stops_the_adapter (s : Settings) (env : Env)
    (hist : list Obs) (audio_path : string) (c : Cache) :
  let checked := {| obs_ev := PathExists audio_path; obs_ans := Ok false |} in
  (env hist (PathExists audio_path) = Ok false ->
   (forall model_size language,
      run env hist (transcribe_with_whisper_local s audio_path model_size language c)
      = (Ok (false, None, Some ("Audio file not found: " +:+ audio_path)), c, [checked])) /\
   (truthy (whisper_remote_url s) = true ->
    forall model_size language,
      run env hist (transcribe_with_whisper_remote s audio_path model_size language c)
      = (Ok (false, None, Some ("Audio file not found: " +:+ audio_path)), c, [checked])) /\
   (truthy (openai_api_key s) = true ->
    forall language,
      run env hist (transcribe_with_whisper_api s audio_path language c)
      = (Ok (false, None, Some "Audio file not found"), c, [checked]))) /\
  (forall credentials language,
     google_application_credentials s = Some credentials -> credentials <> "" ->
     let found := {| obs_ev := PathExists credentials; obs_ans := Ok true |} in
     env hist (PathExists credentials) = Ok true ->
     env (hist ++ [found]) (PathExists audio_path) = Ok false ->
     run env hist (transcribe_with_google_stt s audio_path language c)
     = (Ok (false, None, Some "Audio file not found"), c, [found; checked])).
Proof.
  intros checked. split; [intros Hmissing; repeat split|].
  - intros model_size language. unfold transcribe_with_whisper_local. unfold_monad.
    simpl. rewrite Hmissing. reflexivity.
  - intros Hurl model_size language. unfold transcribe_with_whisper_remote. unfold_monad.
    rewrite Hurl. simpl. rewrite Hmissing. reflexivity.
  - intros Hkey language. unfold transcribe_with_whisper_api. unfold_monad.
    rewrite Hkey. simpl. rewrite Hmissing. reflexivity.
  - intros credentials language Hcred Hne found Hc Ha.
    unfold transcribe_with_google_stt. unfold_monad. rewrite Hcred.
    destruct credentials as [|x credentials]; [contradiction|].
    simpl. rewrite Hc. simpl. fold found. rewrite Ha. reflexivity.
Qed.

Lemma missing_audio_file_stops_the_adapter_witness :
  run env_no_files [] (transcribe settings_example "/data/gone.mp3" "whisper-base" "en"
                         empty_cache)
  = (Ok (false, None, Some "Audio file not found: /data/gone.mp3"), empty_cache,
     [{| obs_ev := PathExists "/data/gone.mp3"; obs_ans := Ok false |}]).
Proof.
  destruct (missing_audio_file_stops_the_adapter settings_example env_no_files []
              "/data/gone.mp3" empty_cache) as [Hhere _].
  destruct (Hhere eq_refl) as (Hlocal & _).
  exact (Hlocal (Some "base") (Some "en")).
Defined.

(** ** The advertised language models *)

(** Every language model the LLM service advertises is a key of its table:
    a cloud model goes to the OpenAI or the Gemini adapter, a local one to
    Ollama. Every model the Ollama service lists goes to Ollama as well,
    [phi] by the fallback for identifiers the table does not hold. *)
Theorem advertised_llm_models_are_dispatched (s : Settings) (prompt : string)
    (sp : option string) (mt : Z) (temp : Py.pyfloat) :
  (forall m, m ∈ llm_available_models ->
     LLM_MODELS !! mi_id m <> None /\
     ((mi_type m = "cloud" /\
       (generate s prompt (mi_id m) sp mt temp
        = generate_with_openai s prompt (mi_id m) sp mt temp
        \/ generate s prompt (mi_id m) sp mt temp
           = generate_with_gemini s prompt (mi_id m) sp mt temp)) \/
      (mi_type m = "local" /\
       generate s prompt (mi_id m) sp mt temp
       = generate_with_ollama s prompt (mi_id m) sp mt temp))) /\
  (forall model, model ∈ ollama_available_models ->
     generate s prompt model sp mt temp = generate_with_ollama s prompt model sp mt temp) /\
  LLM_MODELS !! "phi" = None.
Proof.
  split; [|split].
  - intros m H. unfold llm_available_models in H.
    repeat (apply elem_of_cons in H as [->|H];
            [unfold generate;
             match goal with
             | |- context [LLM_MODELS !! ?k] =>
                 destruct (LLM_MODELS !! k) as [cfg|] eqn:E;
                 vm_compute in E; [injection E as <-|discriminate E]
             end; simpl; split; [discriminate | tauto]|]).
    apply elem_of_nil in H. destruct H.
  - intros model H. unfold ollama_available_models in H.
    repeat (apply elem_of_cons in H as [->|H];
            [unfold generate;
             match goal with
             | |- context [LLM_MODELS !! ?k] =>
                 destruct (LLM_MODELS !! k) as [cfg|] eqn:E;
                 vm_compute in E; [first [injection E as <- | discriminate E]|]
             end; reflexivity|]).
    apply elem_of_nil in H. destruct H.
  - vm_compute. reflexivity.
Qed.

Lemma advertised_llm_models_are_dispatched_witness :
  generate settings_example "Hello" "phi" None 4000 default_temperature
  = generate_with_ollama settings_example "Hello" "phi" None 4000 default_temperature.
Proof.
  destruct (advertised_llm_models_are_dispatched settings_example "Hello" None 4000
              default_temperature) as (_ & Hollama & _).
  apply Hollama. vm_compute. do 5 right. left.
Defined.

(** ** Language codes *)

(** [format_language_code] maps the eight short codes it knows to a
    regional code of the same language and leaves every other string as it
    is; no regional code is itself a short code, so formatting twice is
    formatting once. *)
Theorem format_language_code_idempotent (lang : string) :
  format_language_code (format_language_code lang) = format_language_code lang /\
  (language_mapping !! lang = None -> format_language_code lang = lang) /\
  (forall code, language_mapping !! lang = Some code ->
     format_language_code lang = code /\ String.prefix (lang +:+ "-") code = true).
Proof.
  unfold format_language_code.
  destruct (language_mapping !! lang) as [code|] eqn:E; simpl.
  - apply elem_of_list_to_map_2 in E.
    repeat (apply elem_of_cons in E as [E|E];
            [injection E as -> ->; split; [vm_compute; reflexivity|];
             split; [discriminate|]; intros code [= <-]; split; reflexivity|]).
    apply elem_of_nil in E. destruct E.
  - rewrite E. simpl. split; [reflexivity|]. split; [reflexivity | discriminate].
Qed.

(** ** The cache of the remote server, continued *)

Lemma server_load_shape (model_size device : string) (cache : gmap string Model) :
  cache !! (model_size +:+ "_" +:+ device) = None ->
  AlwaysT (fun (oc : Outcome Model * gmap string Model) t =>
    match oc.1 with
    | Ok m =>
        oc.2 = <[model_size +:+ "_" +:+ device := m]> cache /\
        exists effective,
          load_attempts t = [(model_size, effective, Ok m)] /\
          (if String.eqb device "gpu" || String.eqb device "cuda"
           then (effective = "cpu" /\ cuda_checks t = [Ok false]) \/
                (effective = "cuda" /\ cuda_checks t = [Ok true])
           else effective = device /\ cuda_checks t = [])
    | Raised e =>
        oc.2 = cache /\ exn_cls e = HTTPException /\ exn_status e = 500
    end)
    (load_model model_size device cache).
Proof.
  intros Hmiss. unfold load_model. rewrite Hmiss.
  destruct (String.eqb device "gpu" || String.eqb device "cuda") eqn:Hdev;
    cbn -[String.eqb orb].
  - intros [[|]|e]; cbn -[String.eqb orb]; [intros [m|e]; cbn -[String.eqb orb] ..|].
    all: try (split; [reflexivity|]; eexists; split; [reflexivity|];
              first [left; split; reflexivity | right; split; reflexivity]).
    all: repeat split; reflexivity.
  - intros [m|e]; cbn -[String.eqb orb].
    + split; [reflexivity|]. eexists. split; [reflexivity|]. split; reflexivity.
    + repeat split; reflexivity.
Qed.

(** A request the server's cache cannot serve loads the model once, on the
    requested device or, for [gpu] and [cuda], on CUDA when it is there and
    on the CPU when it is not. The model is stored under the requested size
    and device, not under the device it was loaded on, and no other entry
    changes; the same request is then served from the cache without any
    event. A failed load leaves the cache as it was and is an HTTP 500. *)
Theorem server_cache_round_trip (model_size device : string)
    (cache : gmap string Model) (env : Env) (hist : list Obs) :
  cache !! (model_size +:+ "_" +:+ device) = None ->
  let out := run env hist (load_model model_size device cache) in
  match out.1.1 with
  | Ok m =>
      out.1.2 !! (model_size +:+ "_" +:+ device) = Some m /\
      (forall key, key <> model_size +:+ "_" +:+ device -> out.1.2 !! key = cache !! key) /\
      (forall env' hist',
         run env' hist' (load_model model_size device out.1.2) = (Ok m, out.1.2, [])) /\
      exists effective,
        load_attempts out.2 = [(model_size, effective, Ok m)] /\
        (if String.eqb device "gpu" || String.eqb device "cuda"
         then (effective = "cpu" /\ cuda_checks out.2 = [Ok false]) \/
              (effective = "cuda" /\ cuda_checks out.2 = [Ok true])
         else effective = device /\ cuda_checks out.2 = [])
  | Raised e =>
      out.1.2 = cache /\ exn_cls e = HTTPException /\ exn_status e = 500
  end.
Proof.
  intros Hmiss. cbv zeta.
  pose proof (AlwaysT_run _ _ (server_load_shape model_size device cache Hmiss) env hist)
    as H.
  destruct (run env hist (load_model model_size device cache)) as [[[m|e] cache'] t];
    cbn [fst snd] in *; [|exact H].
  destruct H as (-> & Hload). split; [apply lookup_insert_eq|].
  split; [intros key Hne; apply lookup_insert_ne; congruence|].
  split; [|exact Hload].
  intros env' hist'. unfold load_model. rewrite lookup_insert_eq. reflexivity.
Qed.

Lemma server_cache_round_trip_witness :
  let out := run env_server_no_cuda [] (load_model "base" "cuda" ∅) in
  out.1.1 = Ok 9%nat /\
  out.1.2 !! "base_cuda" = Some 9%nat /\
  load_attempts out.2 = [("base", "cpu", Ok 9%nat)].
Proof.
  pose proof (server_cache_round_trip "base" "cuda" ∅ env_server_no_cuda [] eq_refl) as H.
  cbv zeta in H.
  assert ((run env_server_no_cuda [] (load_model "base" "cuda" ∅)).1.1 = Ok 9%nat) as Hm
    by reflexivity.
  rewrite Hm in H. destruct H as (Hkey & _ & _ & effective & Hload & _).
  cbv zeta. split; [exact Hm|]. split; [exact Hkey|].
  vm_compute. reflexivity.
Defined.

(** ** File names *)

Lemma file_type_of_extension (videos audio ext : string) :
  let is_video := bool_decide (ext ∈ FileManager.ALLOWED_VIDEO_EXTENSIONS) in
  let is_audio := bool_decide (ext ∈ FileManager.ALLOWED_AUDIO_EXTENSIONS) in
  let file_type :=
    if is_video then FileManager.lstrip_char "." ext
    else if is_audio then FileManager.lstrip_char "." ext
    else "unknown" in
  bool_decide (ext ∈ FileManager.ALLOWED_EXTENSIONS) = is_video || is_audio /\
  is_video && is_audio = false /\
  (is_video || is_audio = true -> "." +:+ file_type = ext) /\
  (is_video || is_audio = false <-> file_type = "unknown") /\
  FileManager.get_storage_path videos audio file_type
  = if is_video then videos else audio.
Proof.
  intros is_video is_audio file_type. subst is_video is_audio file_type.
  destruct (decide (ext ∈ FileManager.ALLOWED_VIDEO_EXTENSIONS)) as [Hv|Hv].
  - unfold FileManager.ALLOWED_VIDEO_EXTENSIONS in Hv.
    repeat (apply elem_of_cons in Hv as [->|Hv];
            [vm_compute; repeat split; intros; congruence|]).
    apply elem_of_nil in Hv. destruct Hv.
  - destruct (decide (ext ∈ FileManager.ALLOWED_AUDIO_EXTENSIONS)) as [Ha|Ha].
    + unfold FileManager.ALLOWED_AUDIO_EXTENSIONS in Ha.
      repeat (apply elem_of_cons in Ha as [->|Ha];
              [vm_compute; repeat split; intros; congruence|]).
      apply elem_of_nil in Ha. destruct Ha.
    + rewrite (bool_decide_eq_false_2 _ Hv), (bool_decide_eq_false_2 _ Ha).
      rewrite bool_decide_eq_false_2.
      * cbn [orb andb]. repeat split; intros; try discriminate; reflexivity.
      * unfold FileManager.ALLOWED_EXTENSIONS. rewrite elem_of_app. tauto.
Qed.

(** The functions of the file manager agree with one another on every file
    name: a name is accepted exactly when it is a video or an audio name,
    never both; its type is its extension without the dot when it is
    accepted and ["unknown"] otherwise; the storage folder chosen from that
    type is the video folder for a video name and the audio folder for any
    other, an unknown one included. The runner's own test for audio files
    is the file manager's. *)
Theorem file_manager_consistent (videos audio filename : string) :
  FileManager.validate_file_extension filename
  = FileManager.is_video filename || FileManager.is_audio filename /\
  FileManager.is_video filename && FileManager.is_audio filename = false /\
  (FileManager.validate_file_extension filename = true ->
   "." +:+ FileManager.get_file_type filename = FileManager.get_file_extension filename) /\
  (FileManager.validate_file_extension filename = false <->
   FileManager.get_file_type filename = "unknown") /\
  FileManager.get_storage_path videos audio (FileManager.get_file_type filename)
  = (if FileManager.is_video filename then videos else audio) /\
  is_audio filename = FileManager.is_audio filename.
Proof.
  destruct (file_type_of_extension videos audio (FileManager.get_file_extension filename))
    as (Hall & Hdis & Hext & Hunk & Hpath).
  unfold FileManager.validate_file_extension, FileManager.is_video, FileManager.is_audio,
    FileManager.get_file_type.
  rewrite Hall. repeat split; try assumption; try apply Hunk.
Qed.

Lemma file_manager_consistent_witness :
  "." +:+ FileManager.get_file_type "/in/Talk.Final.MP4"
  = FileManager.get_file_extension "/in/Talk.Final.MP4".
Proof.
  apply (file_manager_consistent "storage/videos" "storage/audio" "/in/Talk.Final.MP4").
  vm_compute. reflexivity.
Defined.

(** ** The judge-response parser, continued *)

Lemma parse_line_keeps_winner (st st' : ParseState) (line : string) :
  Py.startswith (Py.strip line) "WINNER:" = false ->
  parse_line st line = Ok st' ->
  winner (result st') = winner (result st).
Proof.
  intros Hw. unfold parse_line. rewrite Hw.
  destruct (Py.startswith _ "SCORE_A:");
    [destruct (score_value _); intros [= <-]; reflexivity|].
  destruct (Py.startswith _ "SCORE_B:");
    [destruct (score_value _); intros [= <-]; reflexivity|].
  destruct (Py.startswith _ "REASONING:"); [intros [= <-]; reflexivity|].
  destruct (in_reasoning st); intros [= <-]; reflexivity.
Qed.

Lemma parse_lines_keeps_winner (lines : list string) :
  Forall (fun l => Py.startswith (Py.strip l) "WINNER:" = false) lines ->
  forall st st', parse_lines st lines = Ok st' ->
                 winner (result st') = winner (result st).
Proof.
  induction 1 as [|line rest Hline _ IH]; intros st st'; simpl.
  - intros [= <-]. reflexivity.
  - destruct (parse_line st line) as [st1|] eqn:E; simpl; [|discriminate].
    intros H. rewrite (IH _ _ H). apply (parse_line_keeps_winner _ _ line Hline E).
Qed.

Lemma parse_line_winner (st : ParseState) (line rest : string) :
  Py.strip line = "WINNER:" +:+ rest ->
  parse_line st line = Ok (set_winner (Py.strip (hd "" (Py.split ":" rest))) st).
Proof.
  intros Hw. unfold parse_line. rewrite Hw.
  change (Py.startswith ("WINNER:" +:+ rest) "SCORE_A:") with false.
  change (Py.startswith ("WINNER:" +:+ rest) "SCORE_B:") with false.
  unfold Py.startswith. rewrite prefix_of_append, split_winner.
  destruct (Py.split ":" rest) as [|field fields] eqn:E;
    [destruct (split_nonempty _ _ E)|].
  reflexivity.
Qed.

Lemma parse_lines_split (pre post : list string) (line : string) (st : ParseState) :
  parse_lines parse_init (pre ++ line :: post) = Ok st ->
  exists st0 st1,
    parse_lines parse_init pre = Ok st0 /\ parse_line st0 line = Ok st1 /\
    parse_lines st1 post = Ok st.
Proof.
  rewrite parse_lines_app.
  destruct (parse_lines parse_init pre) as [st0|]; simpl; [|discriminate].
  destruct (parse_line st0 line) as [st1|] eqn:E; simpl; [|discriminate].
  intros H. exists st0, st1. auto.
Qed.

(** The scores and the winner are read wherever their lines stand, before
    or after the reasoning and after any other text, and the last line
    counts: a SCORE_A (SCORE_B) line with a numeric value gives the score
    when every later SCORE_A (SCORE_B) line has a value that is no number,
    and a WINNER line gives the winner when no later line starts with
    WINNER:. The winner is the stripped text between the marker and the
    next colon, whatever it is. *)
Theorem judge_fields_last_line_counts (response : string) (pre post : list string)
    (line : string) :
  Py.split "010" (Py.strip response) = pre ++ line :: post ->
  exists r, parse_judge_response response = Ok r /\
    (forall v,
       Py.startswith (Py.strip line) "SCORE_A:" = true ->
       score_value (Py.strip line) = Ok v ->
       (forall l, In l post -> Py.startswith (Py.strip l) "SCORE_A:" = true ->
                  fails_numeric_parsing (Py.strip l)) ->
       score_a r = Some v) /\
    (forall v,
       Py.startswith (Py.strip line) "SCORE_B:" = true ->
       score_value (Py.strip line) = Ok v ->
       (forall l, In l post -> Py.startswith (Py.strip l) "SCORE_B:" = true ->
                  fails_numeric_parsing (Py.strip l)) ->
       score_b r = Some v) /\
    (forall rest,
       Py.strip line = "WINNER:" +:+ rest ->
       Forall (fun l => Py.startswith (Py.strip l) "WINNER:" = false) post ->
       winner r = Some (Py.strip (hd "" (Py.split ":" rest)))).
Proof.
  intros Hsplit. unfold parse_judge_response. rewrite Hsplit.
  destruct (parse_lines_total (pre ++ line :: post) parse_init) as [st Hst].
  rewrite Hst. simpl. eexists. split; [reflexivity|].
  destruct (parse_lines_split _ _ _ _ Hst) as (st0 & st1 & _ & Hline & Hpost).
  simpl. split; [|split].
  - intros v Ha Hv Hlater.
    rewrite (parse_lines_keeps score_a _ post
               (fun sta stb l => parse_line_keeps_score_a sta stb l) Hlater _ _ Hpost).
    unfold parse_line in Hline. rewrite Ha, Hv in Hline. injection Hline as <-.
    reflexivity.
  - intros v Hb Hv Hlater.
    rewrite (parse_lines_keeps score_b _ post
               (fun sta stb l => parse_line_keeps_score_b sta stb l) Hlater _ _ Hpost).
    unfold parse_line in Hline.
    rewrite (starts_score_b_not_a _ Hb), Hb, Hv in Hline. injection Hline as <-.
    reflexivity.
  - intros rest Hw Hlater.
    rewrite (parse_lines_keeps_winner post Hlater _ _ Hpost).
    rewrite (parse_line_winner st0 line rest Hw) in Hline. injection Hline as <-.
    reflexivity.
Qed.

Lemma judge_fields_last_line_counts_witness :
  exists r,
    parse_judge_response
      ("SCORE_A: 3" +:+ nl +:+ "REASONING: close call" +:+ nl +:+
       "WINNER: B: on accuracy" +:+ nl +:+ "SCORE_A: n/a") = Ok r /\
    winner r = Some "B".
Proof.
  destruct (judge_fields_last_line_counts
              ("SCORE_A: 3" +:+ nl +:+ "REASONING: close call" +:+ nl +:+
               "WINNER: B: on accuracy" +:+ nl +:+ "SCORE_A: n/a")
              ["SCORE_A: 3"; "REASONING: close call"] ["SCORE_A: n/a"]
              "WINNER: B: on accuracy" eq_refl) as (r & Hr & _ & _ & Hw).
  exists r. split; [exact Hr|].
  apply (Hw " B: on accuracy"); [reflexivity|].
  constructor; [reflexivity | constructor].
Defined.

(** ** The text of a successful transcription *)

Lemma rstrip_idempotent (s : string) : Py.rstrip (Py.rstrip s) = Py.rstrip s.
Proof.
  induction s as [|c s IH]; [reflexivity|]. cbn [Py.rstrip].
  destruct (Py.rstrip s) as [|d r] eqn:E.
  - destruct (Py.is_space c) eqn:Hc; [reflexivity|]. cbn [Py.rstrip]. rewrite Hc.
    reflexivity.
  - change (Py.rstrip (String c (String d r))) with
      (match Py.rstrip (String d r) with
       | EmptyString => if Py.is_space c then EmptyString else String c EmptyString
       | r' => String c r'
       end).
    rewrite IH. reflexivity.
Qed.

Lemma lstrip_head (s : string) :
  Py.lstrip s = "" \/ exists c s', Py.lstrip s = String c s' /\ Py.is_space c = false.
Proof.
  induction s as [|c s IH]; [left; reflexivity|]. cbn [Py.lstrip].
  destruct (Py.is_space c) eqn:Hc; [exact IH|]. right. eauto.
Qed.

Lemma strip_idempotent (s : string) : Py.strip (Py.strip s) = Py.strip s.
Proof.
  unfold Py.strip. destruct (lstrip_head s) as [->|(c & s' & -> & Hc)]; [reflexivity|].
  assert (exists r, Py.rstrip (String c s') = String c r) as [r Hr].
  { cbn [Py.rstrip]. destruct (Py.rstrip s'); [rewrite Hc|]; eauto. }
  rewrite Hr. cbn [Py.lstrip]. rewrite Hc, <- Hr. apply rstrip_idempotent.
Qed.

#[local] Arguments Py.strip : simpl never.

Ltac trimmed_leaf :=
  eexists; split; [reflexivity|];
  unfold trimmed_text, tr_success, tr_text; simpl; intros Hsuccess;
  first
    [ discriminate Hsuccess
    | match goal with
      | H : String.eqb ?a ?a = false |- _ => rewrite String.eqb_refl in H; discriminate H
      end
    | eexists; split; [reflexivity|];
      repeat match goal with
             | H : ?b = _, H' : context [?b] |- _ => rewrite H in H'
             end;
      split; [intros Hempty; rewrite Hempty in *; discriminate
             |apply strip_idempotent] ].

Lemma whisper_local_trimmed s audio_path model_size language :
  returns trimmed_text (transcribe_with_whisper_local s audio_path model_size language).
Proof.
  intros c. unfold transcribe_with_whisper_local, load_whisper_model. unfold_monad.
  world_cases; trimmed_leaf.
Qed.

Lemma whisper_api_trimmed s audio_path language :
  returns trimmed_text (transcribe_with_whisper_api s audio_path language).
Proof.
  intros c. unfold transcribe_with_whisper_api. unfold_monad.
  world_cases; trimmed_leaf.
Qed.

Lemma google_stt_trimmed s audio_path language :
  returns trimmed_text (transcribe_with_google_stt s audio_path language).
Proof.
  intros c. unfold transcribe_with_google_stt. unfold_monad.
  world_cases; trimmed_leaf.
Qed.

Lemma whisper_remote_trimmed s audio_path model_size language :
  returns trimmed_text (transcribe_with_whisper_remote s audio_path model_size language).
Proof.
  intros c.
  unfold transcribe_with_whisper_remote, whisper_remote_except, whisper_remote_result.
  unfold_monad. world_cases; trimmed_leaf.
Qed.

Lemma whisper_remote_url_trimmed s audio_url model_size language :
  returns trimmed_text
    (transcribe_with_whisper_remote_url s audio_url model_size language).
Proof.
  intros c.
  unfold transcribe_with_whisper_remote_url, whisper_remote_except, whisper_remote_result.
  unfold_monad. world_cases; trimmed_leaf.
Qed.

(** A transcription that succeeds has a text, the text is not empty and it
    starts and ends with no white space (stripping it again changes
    nothing): every adapter strips what its provider returned and reports
    an empty rest as a failure. This holds for every model and in both
    modes of the remote adapter. *)
Theorem successful_transcription_is_trimmed (s : Settings) :
  (forall audio_path model language,
     always_returns trimmed_text (transcribe s audio_path model language)) /\
  (forall audio_url model_size language,
     always_returns trimmed_text
       (transcribe_with_whisper_remote_url s audio_url model_size language)).
Proof.
  split; intros; intros c env hist; apply returns_run; clear c env hist; intros c.
  - unfold transcribe.
    destruct (TRANSCRIPTION_MODELS !! model) as [cfg|]; [|simpl; trimmed_leaf].
    destruct (String.eqb _ "whisper_local"); [apply whisper_local_trimmed|].
    destruct (String.eqb _ "whisper_remote").
    { destruct (negb _); [simpl; trimmed_leaf | apply whisper_remote_trimmed]. }
    destruct (String.eqb _ "whisper_api"); [apply whisper_api_trimmed|].
    destruct (String.eqb _ "google_stt"); [apply google_stt_trimmed|].
    simpl. trimmed_leaf.
  - apply whisper_remote_url_trimmed.
Qed.

(** ** The Google adapter *)

Lemma google_stt_request_shape (s : Settings) (audio_path language : string) (c : Cache) :
  AlwaysT (fun (oc : Outcome TranscriptionResult * Cache) t =>
    oc.2 = c /\
    (length (speech_requests t) <= 1)%nat /\
    (environ_sets t <> [] ->
     exists credentials,
       google_application_credentials s = Some credentials /\
       environ_sets t = [("GOOGLE_APPLICATION_CREDENTIALS", credentials)]) /\
    (speech_requests t <> [] ->
     environ_sets t <> [] /\
     exists size,
       stat_sizes t = [Ok size] /\
       speech_requests t
       = [(10 * 1024 * 1024 <? size,
           encoding_of_extension (Py.lower (Pathlib.suffix audio_path)), language)]))
    (transcribe_with_google_stt s audio_path language c).
Proof.
  unfold transcribe_with_google_stt. unfold_monad.
  destruct (google_application_credentials s) as [[|x credentials]|]; simpl.
  1, 3: split; [reflexivity|]; split; [simpl; lia|];
    split; intros H; exfalso; apply H; reflexivity.
  world_cases; (split; [reflexivity|]); (split; [simpl; lia|]); split; intros H.
  all: first [ exfalso; apply H; reflexivity
             | eexists; split; reflexivity
             | split; [discriminate|]; eexists; split; reflexivity ].
Qed.

(** The Google adapter leaves the cache alone and asks for at most one
    recognition. It sets only GOOGLE_APPLICATION_CREDENTIALS, to the
    configured credentials file, and it does so before it asks. The
    request is long-running exactly when the reported size of the file is
    over 10 MiB, its encoding is the one of the lower-cased extension of
    the audio path and its language the one the adapter was given. *)
Theorem google_stt_request (s : Settings) (audio_path language : string) (c : Cache)
    (env : Env) (hist : list Obs) :
  let out := run env hist (transcribe_with_google_stt s audio_path language c) in
  out.1.2 = c /\
  (length (speech_requests out.2) <= 1)%nat /\
  (environ_sets out.2 <> [] ->
   exists credentials,
     google_application_credentials s = Some credentials /\
     environ_sets out.2 = [("GOOGLE_APPLICATION_CREDENTIALS", credentials)]) /\
  (speech_requests out.2 <> [] ->
   environ_sets out.2 <> [] /\
   exists size,
     stat_sizes out.2 = [Ok size] /\
     speech_requests out.2
     = [(10 * 1024 * 1024 <? size,
         encoding_of_extension (Py.lower (Pathlib.suffix audio_path)), language)]).
Proof.
  exact (AlwaysT_run _ _ (google_stt_request_shape s audio_path language c) env hist).
Qed.

(** ** The prompt builder, continued *)

(** The persona style and the template content only append: the persona
    to the system prompt, the template to the user prompt. The system
    prompt does not depend on the transcription, the custom prompt or the
    template, and the user prompt does not depend on the persona; an empty
    persona or template is the same as none. *)
Theorem build_prompt_extensions (prompt_type transcript : string)
    (custom_prompt persona_style template_content : option string) :
  let base := build_prompt prompt_type transcript custom_prompt None None in
  let built :=
    build_prompt prompt_type transcript custom_prompt persona_style template_content in
  String.prefix base.1 built.1 = true /\
  String.prefix base.2 built.2 = true /\
  built.1 = (build_prompt prompt_type "" None persona_style None).1 /\
  built.2 = (build_prompt prompt_type transcript custom_prompt None template_content).2 /\
  (truthy persona_style = false -> built.1 = base.1) /\
  (truthy template_content = false -> built.2 = base.2).
Proof.
  assert (forall x : string, String.prefix x x = true) as Hrefl.
  { intros x. rewrite <- (append_empty_r x) at 2. apply prefix_of_append. }
  unfold build_prompt. cbn [fst snd truthy].
  destruct (truthy persona_style), (truthy template_content); cbn [fst snd];
    repeat split; try reflexivity; try discriminate;
    first [apply prefix_of_append | apply Hrefl].
Qed.

(** ** Token usage *)

Ltac usage_leaf :=
  eexists; split; [reflexivity|];
  unfold usage_shape, gen_usage, gen_success; simpl;
  split; intros; first [discriminate | reflexivity].

Lemma openai_usage s prompt model sp mt temp :
  returns usage_shape (generate_with_openai s prompt model sp mt temp).
Proof.
  intros c. unfold generate_with_openai. unfold_monad. world_cases; usage_leaf.
Qed.

Lemma gemini_usage s prompt model sp mt temp :
  returns (fun r => usage_shape r /\
                    (gen_success r = true ->
                     gen_usage r = Some {| input_tokens := None; output_tokens := None |}))
    (generate_with_gemini s prompt model sp mt temp).
Proof.
  intros c. unfold generate_with_gemini. unfold_monad.
  world_cases; (eexists; split; [reflexivity|]);
    unfold usage_shape, gen_usage, gen_success; simpl;
    (split; [split|]); intros; first [discriminate | reflexivity].
Qed.

Lemma ollama_usage s prompt model sp mt temp :
  returns usage_shape (generate_with_ollama s prompt model sp mt temp).
Proof.
  intros c. unfold generate_with_ollama. unfold_monad. world_cases; usage_leaf.
Qed.

(** Whatever the model and whatever the providers answer, [generate]
    returns a token usage exactly with a success: a failure never carries
    one. The usage of a Gemini success is there but holds no count. *)
Theorem generation_usage_with_success (s : Settings) (prompt model : string)
    (sp : option string) (mt : Z) (temp : Py.pyfloat) :
  always_returns usage_shape (generate s prompt model sp mt temp) /\
  always_returns
    (fun r => gen_success r = true ->
              gen_usage r = Some {| input_tokens := None; output_tokens := None |})
    (generate_with_gemini s prompt model sp mt temp).
Proof.
  split; intros c env hist; apply returns_run; clear c env hist; intros c.
  - unfold generate.
    destruct (LLM_MODELS !! model) as [cfg|]; [|apply ollama_usage].
    cbv zeta.
    destruct (String.eqb _ "openai"); [apply openai_usage|].
    destruct (String.eqb _ "gemini").
    { eapply Always_mono; [|apply gemini_usage].
      intros oc (r & Hr & Hshape & _). eauto. }
    destruct (String.eqb _ "ollama"); [apply ollama_usage|].
    simpl. usage_leaf.
  - eapply Always_mono; [|apply gemini_usage].
    intros oc (r & Hr & _ & Hnone). eauto.
Qed.

(** ** The local adapter with a warm cache *)

(** When the cache holds a model of the requested size and the audio file
    exists, the local adapter imports nothing, loads nothing and does not
    probe CUDA: it checks the file and hands it to the cached model, with
    the language when one is given and not empty. The cache is as it was,
    and the result is the stripped text, or the adapter's
    "empty text" failure when nothing is left of it. *)
Theorem warm_cache_transcription (s : Settings) (env : Env) (hist : list Obs)
    (audio_path model_size : string) (language : option string)
    (c : Cache) (m : Model) (reply : Outcome (option string)) :
  _model c = Some m -> _model_size c = Some model_size ->
  env hist (PathExists audio_path) = Ok true ->
  let found := {| obs_ev := PathExists audio_path; obs_ans := Ok true |} in
  let options := if truthy language then language else None in
  env (hist ++ [found]) (ModelTranscribe m audio_path options) = reply ->
  let out :=
    run env hist (transcribe_with_whisper_local s audio_path (Some model_size) language c) in
  out.1.2 = c /\
  out.2 = [found; {| obs_ev := ModelTranscribe m audio_path options; obs_ans := reply |}] /\
  out.1.1
  = match reply with
    | Ok result =>
        if String.eqb (Py.strip (default "" result)) ""
        then Ok (false, None, Some "Transcription resulted in empty text")
        else Ok (true, Some (Py.strip (default "" result)), None)
    | Raised e => Ok (false, None, Some (exn_str e))
    end.
Proof.
  intros Hm Hs Hfound found options Hreply.
  assert (cache_miss c model_size = false) as Hhit.
  { apply cache_miss_false. eauto. }
  cbv zeta. unfold transcribe_with_whisper_local, load_whisper_model. unfold_monad.
  simpl. rewrite Hfound. simpl. rewrite Hhit. simpl. rewrite Hm. simpl.
  fold found. fold options. rewrite Hreply.
  destruct reply as [result|e]; simpl.
  - destruct (String.eqb (Py.strip (default "" result)) ""); simpl;
      repeat split; reflexivity.
  - repeat split; reflexivity.
Qed.

Lemma warm_cache_transcription_witness :
  let out :=
    run env_gpu_load_fails []
      (transcribe_with_whisper_local settings_gpu "/data/standup.mp3" (Some "base")
         (Some "en") {| _model := Some 4%nat; _model_size := Some "base" |}) in
  out.1 = (Ok (true, Some "Good morning everyone.", None),
           {| _model := Some 4%nat; _model_size := Some "base" |}) /\
  load_attempts out.2 = [] /\ cuda_checks out.2 = [].
Proof.
  destruct (warm_cache_transcription settings_gpu env_gpu_load_fails []
              "/data/standup.mp3" "base" (Some "en")
              {| _model := Some 4%nat; _model_size := Some "base" |}
              4%nat _ eq_refl eq_refl eq_refl eq_refl) as (Hc & Ht & Hr).
  cbv zeta.
  destruct (run env_gpu_load_fails [] _) as [[o c'] t]. cbn [fst snd] in *.
  subst c' t o. repeat split; reflexivity.
Defined.
